(** * Verification of the snap "processes" collector plugin

    Source: [processes/processes.go] (package [processes]).

    The Go code is embedded shallowly.  Slices of namespace elements live in
    an explicit heap (so that aliasing of a requested namespace and the copy
    made by [append([]core.NamespaceElement{}, ns...)] are visible), run-time
    panics are a result of their own, and the parts Go leaves open (iteration
    order of [range] over a map, the readings of [time.Now()]) are explicit
    parameters. *)

From Stdlib Require Import ZArith String Ascii DecimalString Lia.
From Stdlib Require DecimalPos DecimalZ.
From stdpp Require Import gmap strings list fin_maps.

Local Open Scope string_scope.
Local Open Scope list_scope.
Local Open Scope Z_scope.

(** ** Go run-time model *)

Module Go.

(** Run-time panics the code can raise. *)
Inductive panic : Type :=
| IndexOutOfRange (i len : nat)   (* index out of range [i] with length len *)
| InterfaceConversion.            (* failed x.(T) *)

(** Result of a computation that either finishes or panics. *)
Inductive res (A : Type) : Type :=
| Done (a : A)
| Panicked (p : panic).
Arguments Done {A} a.
Arguments Panicked {A} p.

#[global] Instance res_ret : MRet res := @Done.
#[global] Instance res_bind : MBind res := fun A B f m =>
  match m with
  | Done a => f a
  | Panicked p => Panicked p
  end.

(** [l[i]] on a slice. *)
Definition index {A} (l : list A) (i : nat) : res A :=
  match l !! i with
  | Some x => Done x
  | None => Panicked (IndexOutOfRange i (length l))
  end.

(** Values stored in an [interface{}] by this package. *)
Inductive iface : Type :=
| Nil
| Int (z : Z)
| Uint64 (z : Z)
| Str (s : string).

(** [x.(string)] *)
Definition assert_string (x : iface) : res string :=
  match x with
  | Str s => Done s
  | _ => Panicked InterfaceConversion
  end.

Inductive error : Type :=
| errorString (msg : string)      (* errors.New / fmt.Errorf *)
| SnapError (cause : error).      (* serror.New(err) *)

(** *** Fixed-width integers *)

Definition maxUint64 : Z := 2 ^ 64 - 1.
Definition wrap_uint64 (z : Z) : Z := z mod 2 ^ 64.
(** [int] is taken to be 64 bits wide (two's complement). *)
Definition wrap_int (z : Z) : Z := (z + 2 ^ 63) mod 2 ^ 64 - 2 ^ 63.
Definition sub_uint64 (a b : Z) : Z := wrap_uint64 (a - b).

(** *** strconv *)

Inductive NumError : Type := ErrSyntax | ErrRange.

Definition is_digit (c : ascii) : bool :=
  (48 <=? nat_of_ascii c)%nat && (nat_of_ascii c <=? 57)%nat.
Definition digit_val (c : ascii) : Z := Z.of_nat (nat_of_ascii c) - 48.

(** cutoff is the smallest number such that cutoff*10 > maxUint64 *)
Definition cutoff : Z := maxUint64 / 10 + 1.

(** The digit loop of [strconv.ParseUint(s, 10, 64)]: letters are digits
    of value >= 10 and so rejected like any other byte; the first range
    overflow returns at once, before the rest of [s] is looked at. *)
Fixpoint ParseUint_loop (s : string) (n : Z) : Z * option NumError :=
  match s with
  | EmptyString => (n, None)
  | String c s' =>
      if is_digit c then
        if cutoff <=? n then (maxUint64, Some ErrRange)
        else
          let n := n * 10 in
          let n1 := wrap_uint64 (n + digit_val c) in
          if (n1 <? n) || (maxUint64 <? n1) then (maxUint64, Some ErrRange)
          else ParseUint_loop s' n1
      else (0, Some ErrSyntax)
  end.

Definition ParseUint (s : string) : Z * option NumError :=
  match s with
  | EmptyString => (0, Some ErrSyntax)
  | _ => ParseUint_loop s 0
  end.

(** [strconv.Itoa] *)
Definition Itoa (i : Z) : string := NilZero.string_of_int (Z.to_int i).

(** *** strings *)

(** [strings.Split(s, sep)] for a one-byte separator. *)
Fixpoint Split (s : string) (sep : ascii) : list string :=
  match s with
  | EmptyString => [EmptyString]
  | String c s' =>
      if Ascii.eqb c sep then EmptyString :: Split s' sep
      else match Split s' sep with
           | [] => [String c EmptyString]
           | w :: ws => String c w :: ws
           end
  end.

Definition NUL : ascii := Ascii.zero.
Definition slash : ascii := "/"%char.

(** [str.Contains(slice, lookup)] of snap-plugin-utilities. *)
Definition Contains (slice : list string) (lookup : string) : bool :=
  existsb (String.eqb lookup) slice.

End Go.
Import Go.

(** ** snap framework types ([core], [plugin]) *)

Record NamespaceElement : Type :=
  { Value : string; Description : string; Name : string }.

(** [func (n *NamespaceElement) IsDynamic() bool]: an element is dynamic
    when it carries a name. *)
Definition elem_IsDynamic (n : NamespaceElement) : bool :=
  negb (String.eqb (Name n) "").

(** [core.NewNamespace(ns ...string)] *)
Definition NewNamespace (ns : list string) : list NamespaceElement :=
  map (fun v => {| Value := v; Description := ""; Name := "" |}) ns.

Definition AddDynamicElement (n : list NamespaceElement) (name description : string)
  : list NamespaceElement :=
  n ++ [{| Value := "*"; Description := description; Name := name |}].

Definition AddStaticElements (n : list NamespaceElement) (values : list string)
  : list NamespaceElement :=
  foldl (fun n v => n ++ [{| Value := v; Description := ""; Name := "" |}]) n values.

(** [func (n Namespace) IsDynamic() (bool, []int)]: whether some element is
    dynamic, and the indexes of the dynamic elements. *)
Definition IsDynamic (n : list NamespaceElement) : bool * list nat :=
  foldl (fun '(ret, idx) '(i, e) =>
           if elem_IsDynamic e then (true, idx ++ [i]) else (ret, idx))
        (false, []) (imap pair n).

(** A slice of namespace elements is a reference to its backing array. *)
Definition loc : Type := nat.

Definition Time : Type := Z.
Definition zeroTime : Time := 0.

Record ConfigType : Type := { ConfigDataNode : option (gmap string iface) }.

Record MetricType : Type :=
  { Namespace_ : loc;
    Config_ : option (gmap string iface);
    Data_ : iface;
    Timestamp_ : Time;
    Unit_ : string;
    Description_ : string }.

(** ** State threaded through the plugin's calls *)

(** Calls that leave the plugin. *)
Inductive event : Type :=
| CallGetConfigItem (mt : MetricType) (name : string)
| CallGetStats (path : string).

Record world : Type :=
  { heap : list (list NamespaceElement);   (* backing arrays of namespaces *)
    ticks : nat;                           (* readings of the clock so far *)
    log : list event }.                    (* external calls, oldest first *)

Definition M (A : Type) : Type := world -> res A * world.

#[global] Instance M_ret : MRet M := fun A a w => (Done a, w).
#[global] Instance M_bind : MBind M := fun A B f m w =>
  match m w with
  | (Done a, w') => f a w'
  | (Panicked p, w') => (Panicked p, w')
  end.

Definition lift {A} (r : res A) : M A := fun w => (r, w).

(** Allocate a fresh backing array holding [a]. *)
Definition alloc (a : list NamespaceElement) : M loc := fun w =>
  (Done (length (heap w)),
   {| heap := heap w ++ [a]; ticks := ticks w; log := log w |}).

(** Contents of the slice at [l]; a nil slice reads as empty. *)
Definition load (l : loc) : M (list NamespaceElement) := fun w =>
  (Done (default [] (heap w !! l)), w).

(** [s[i].Value = v] *)
Definition store_Value (l : loc) (i : nat) (v : string) : M Datatypes.unit := fun w =>
  let a := default [] (heap w !! l) in
  match a !! i with
  | Some e =>
      (Done tt,
       {| heap := <[l := <[i := {| Value := v; Description := Description e;
                                   Name := Name e |}]> a]> (heap w);
          ticks := ticks w; log := log w |})
  | None => (Panicked (IndexOutOfRange i (length a)), w)
  end.

Definition record (e : event) : M Datatypes.unit := fun w =>
  (Done tt, {| heap := heap w; ticks := ticks w; log := log w ++ [e] |}).

(** Monadic left fold: the body of a [for ... range] loop run over [l]. *)
Fixpoint foldM {A B} (f : B -> A -> M B) (b : B) (l : list A) : M B :=
  match l with
  | [] => mret b
  | x :: l' => b' ← f b x; foldM f b' l'
  end.

(** What the body of a loop asks for: go on with the next element, or
    [return] from the enclosing function. *)
Inductive flow (A R : Type) : Type :=
| Continue (a : A)
| Return (r : R).
Arguments Continue {A R} a.
Arguments Return {A R} r.

(** A [for ... range] loop over [l] whose body may return. *)
Fixpoint forEach {A B R} (body : B -> A -> M (flow B R)) (b : B) (l : list A)
  : M (flow B R) :=
  match l with
  | [] => mret (Continue b)
  | x :: l' =>
      r ← body b x;
      match r with
      | Continue b' => forEach body b' l'
      | Return r => mret (Return r)
      end
  end.

(** Go does not fix the order in which [range] visits a map: a schedule
    picks one for every map. *)
Record Schedule : Type :=
  { range_order : forall V : Type, gmap string V -> list (string * V);
    range_order_perm : forall (V : Type) (m : gmap string V),
        range_order V m ≡ₚ map_to_list m }.
Arguments range_order _ {V} _.

(** ** Package [processes] *)

Definition pluginName : string := "processes".
Definition pluginVendor : string := "intel".
Definition fs : string := "procfs".

Record label : Type := { description : string; unit : string }.

Definition metricNames : gmap string label :=
  list_to_map
    [ ("ps_vm", {| description := "Virtual memory size in bytes"; unit := "B" |});
      ("ps_rss", {| description := "Resident Set Size: number of pages the process has in real memory"; unit := "" |});
      ("ps_data", {| description := "Size of data segments"; unit := "B" |});
      ("ps_code", {| description := "Size of text segment"; unit := "B" |});
      ("ps_stacksize", {| description := "Stack size"; unit := "B" |});
      ("ps_cputime_user", {| description := "Amount of time that this process has been scheduled in user mode"; unit := "Jiff" |});
      ("ps_cputime_system", {| description := "Amount of time that this process has been scheduled in kernel mode"; unit := "Jiff" |});
      ("ps_pagefaults_min", {| description := "The number of minor faults the process has made"; unit := "" |});
      ("ps_pagefaults_maj", {| description := "The number of major faults the process has made"; unit := "" |});
      ("ps_disk_ops_syscr", {| description := "Attempt to count the number of read I/O operations"; unit := "" |});
      ("ps_disk_ops_syscw", {| description := "Attempt to count the number of write I/O operations"; unit := "" |});
      ("ps_disk_octets_rchar", {| description := "The number of bytes which this task has caused to be read from storage"; unit := "B" |});
      ("ps_disk_octets_wchar", {| description := "The number of bytes which this task has caused, or shall cause to be written to disk"; unit := "B" |});
      ("ps_cmd_line", {| description := "Process command line with full path and args"; unit := "" |});
      ("ps_cmd", {| description := "Process command line with full path"; unit := "" |}) ].

(** Modelled from the spec: the declaration of [Proc] is not in src/.  The
    spec's ProcessRecord has a process id, a state code, an ordered sequence
    of raw status fields, data- and code-segment sizes, a command string, the
    full command line and a mapping of I/O counters; the code reads the fields
    [Pid], [State], [Stat], [VmData], [VmCode], [Cmd], [CmdLine] and [Io]. *)
Record Proc : Type :=
  { Pid : Z;
    State : string;
    Stat : list string;
    VmData : Z;
    VmCode : Z;
    Cmd : string;
    CmdLine : string;
    Io : gmap string Z }.

(** Modelled from the spec: the interface [metricCollector] is declared
    outside src/; the spec gives [GetStats(root_path) -> sequence of
    ProcessRecord], failing with an error. *)
Record metricCollector : Type :=
  { GetStats : string -> list Proc * option error }.

Record procPlugin : Type := { host : string; mc : metricCollector }.

Section plugin.

(** Modelled from the spec: the table [States] is declared outside src/.
    The code indexes it with a record's state code to get a state name and
    ranges over its values, the known state names. *)
Variable States : gmap string string.

Variable sched : Schedule.

(** The k-th reading of [time.Now()]. *)
Variable Now : nat -> Time.

(** [config.GetConfigItem] of snap-plugin-utilities. *)
Variable GetConfigItem : MetricType -> string -> iface * option error.

(** Modelled from the spec: the method [States.Values()] is not in src/;
    it yields the known state names, the values of the table. *)
Definition Values : list string := (range_order sched States).*2.

Definition time_Now : M Time := fun w =>
  (Done (Now (ticks w)),
   {| heap := heap w; ticks := S (ticks w); log := log w |}).

Definition call_GetConfigItem (mt : MetricType) (name : string)
  : M (iface * option error) :=
  _ ← record (CallGetConfigItem mt name); mret (GetConfigItem mt name).

Definition call_GetStats (c : metricCollector) (path : string)
  : M (list Proc * option error) :=
  _ ← record (CallGetStats path); mret (GetStats c path).

(** [ns[i]] on a namespace slice. *)
Definition at_ (ns : loc) (i : nat) : M NamespaceElement :=
  a ← load ns; lift (index a i).

(** *** GetMetricTypes *)

Definition GetMetricTypes (procPlg : procPlugin) (cfg : ConfigType)
  : M (list MetricType * option error) :=
  let metricTypes : list MetricType := [] in
  (* build metric types from process metric names *)
  metricTypes ← foldM (fun metricTypes '(metricName, label) =>
      ns ← alloc (AddStaticElements
                    (AddDynamicElement
                       (AddDynamicElement
                          (NewNamespace [pluginVendor; fs; pluginName; "pid"])
                          "process_id" "pid of the running process")
                       "process_name" "name of the running process")
                    [metricName]);
      let metricType :=
        {| Namespace_ := ns;
           Config_ := ConfigDataNode cfg;
           Data_ := Nil;
           Timestamp_ := zeroTime;
           Unit_ := unit label;
           Description_ := description label |} in
      mret (metricTypes ++ [metricType]))
    metricTypes (range_order sched metricNames);
  (* build metric types from process states *)
  metricTypes ← foldM (fun metricTypes state =>
      ns ← alloc (NewNamespace [pluginVendor; fs; pluginName; state]);
      let metricType :=
        {| Namespace_ := ns;
           Config_ := ConfigDataNode cfg;
           Data_ := Nil;
           Timestamp_ := zeroTime;
           Unit_ := "";
           Description_ := "Number of processes in " +:+ state +:+ " state" |} in
      mret (metricTypes ++ [metricType]))
    metricTypes Values;
  mret (metricTypes, None).

(** *** setProcMetrics *)

Definition setProcMetrics (proc : Proc) : res (gmap string iface) :=
  let procMetrics : gmap string iface :=
    foldl (fun procMetrics '(metricName, _) => <[metricName := Int 0]> procMetrics)
          ∅ (range_order sched metricNames) in
  s ← index (Stat proc) 22;
  let vm := (ParseUint s).1 in
  let procMetrics := <["ps_vm" := Uint64 vm]> procMetrics in
  s ← index (Stat proc) 23;
  let rss := (ParseUint s).1 in
  let procMetrics := <["ps_rss" := Uint64 rss]> procMetrics in
  let procMetrics := <["ps_data" := Uint64 (VmData proc)]> procMetrics in
  let procMetrics := <["ps_code" := Uint64 (VmCode proc)]> procMetrics in
  s ← index (Stat proc) 27;
  let stack1 := (ParseUint s).1 in
  s ← index (Stat proc) 28;
  let stack2 := (ParseUint s).1 in
  (* to avoid overload *)
  let procMetrics :=
    if stack2 <? stack1
    then <["ps_stacksize" := Uint64 (sub_uint64 stack1 stack2)]> procMetrics
    else <["ps_stacksize" := Uint64 (sub_uint64 stack2 stack1)]> procMetrics in
  s ← index (Stat proc) 13;
  let utime := (ParseUint s).1 in
  let procMetrics := <["ps_cputime_user" := Uint64 utime]> procMetrics in
  s ← index (Stat proc) 14;
  let stime := (ParseUint s).1 in
  let procMetrics := <["ps_cputime_system" := Uint64 stime]> procMetrics in
  s ← index (Stat proc) 9;
  let minflt := (ParseUint s).1 in
  let procMetrics := <["ps_pagefaults_min" := Uint64 minflt]> procMetrics in
  s ← index (Stat proc) 11;
  let majflt := (ParseUint s).1 in
  let procMetrics := <["ps_pagefaults_maj" := Uint64 majflt]> procMetrics in
  let procMetrics :=
    <["ps_disk_octets_rchar" := Uint64 (default 0 (Io proc !! "rchar"))]> procMetrics in
  let procMetrics :=
    <["ps_disk_octets_wchar" := Uint64 (default 0 (Io proc !! "wchar"))]> procMetrics in
  let procMetrics :=
    <["ps_disk_ops_syscr" := Uint64 (default 0 (Io proc !! "syscr"))]> procMetrics in
  let procMetrics :=
    <["ps_disk_ops_syscw" := Uint64 (default 0 (Io proc !! "syscw"))]> procMetrics in
  let procMetrics := <["ps_cmd_line" := Str (CmdLine proc)]> procMetrics in
  let procMetrics := <["ps_cmd" := Str (Cmd proc)]> procMetrics in
  mret procMetrics.

(** *** CollectMetrics *)

(** What [CollectMetrics] returns: [([]plugin.MetricType, error)], with
    [None] for a nil slice and for a nil error. *)
Definition Returned : Type := option (list MetricType) * option error.

(** Lines 185-188: init stateCount map with keys from States. *)
Definition initStateCount : gmap string Z :=
  foldl (fun stateCount state => <[state := 0]> stateCount) ∅ Values.

(** Lines 196-200: calculate number of processes in each state. *)
Definition countStates (stats : list Proc) (stateCount : gmap string Z)
  : gmap string Z :=
  foldl (fun stateCount proc =>
           let stateName := default "" (States !! State proc) in
           <[stateName := wrap_int (default 0 (stateCount !! stateName) + 1)]> stateCount)
        stateCount stats.

(** Lines 216-233: one step of [for procMet, val := range procMetrics]. *)
Definition rangeProcMetrics (ns : loc) (proc : Proc)
    (metrics : list MetricType) (kv : string * iface) : M (list MetricType) :=
  let '(procMet, val) := kv in
  leaf ← at_ ns 6;
  if String.eqb procMet (Value leaf) then
    (* change dynamic namespace element value (= "*") to current process name *)
    a ← load ns;
    nuns ← alloc a;
    _ ← store_Value nuns 4 (Itoa (Pid proc));
    first ← lift (index (Split (CmdLine proc) NUL) 0);
    let cmdPath := Split first slash in
    base ← lift (index cmdPath (length cmdPath - 1));
    _ ← store_Value nuns 5 base;
    now ← time_Now;
    let metric :=
      {| Namespace_ := nuns;
         Config_ := None;
         Data_ := val;
         Timestamp_ := now;
         Unit_ := unit (default {| description := ""; unit := "" |}
                                (metricNames !! procMet));
         Description_ := description (default {| description := ""; unit := "" |}
                                              (metricNames !! procMet)) |} in
    mret (metrics ++ [metric])
  else mret metrics.

(** Lines 214-234: [for _, proc := range stats]. *)
Definition rangeStats (ns : loc) (stats : list Proc)
    (metrics : list MetricType) : M (list MetricType) :=
  foldM (fun metrics proc =>
           procMetrics ← lift (setProcMetrics proc);
           foldM (rangeProcMetrics ns proc) metrics (range_order sched procMetrics))
        metrics stats.

(** Lines 203-255: the body of [for _, metricType := range metricTypes],
    run with the metrics collected so far. *)
Definition collectBody (stats : list Proc) (stateCount : gmap string Z)
    (metrics : list MetricType) (metricType : MetricType)
  : M (flow (list MetricType) Returned) :=
  let ns := Namespace_ metricType in
  a ← load ns;
  if (length a <? 4)%nat then
    mret (Return
            ((None,
              Some (SnapError (errorString
                 ("Unknown namespace length. Expecting at least 4, is "
                    +:+ Itoa (Z.of_nat (length a)))))) : Returned))
  else
    let isDynamic := (IsDynamic a).1 in
    if isDynamic then
      (* pid and name is dynamic = all *)
      e4 ← at_ ns 4;
      both ← (if elem_IsDynamic e4
              then e5 ← at_ ns 5; mret (elem_IsDynamic e5)
              else mret false : M bool);
      if (both : bool) then
        metrics ← rangeStats ns stats metrics;
        mret (Continue metrics)
      else
        e4 ← at_ ns 4;
        if elem_IsDynamic e4 then
          (* only pid dynamic *)
          mret (Continue metrics)
        else
          (* only name dynamic *)
          mret (Continue metrics)
    else
      e3 ← at_ ns 3;
      if Contains Values (Value e3) then
        (* ns[3] contains process state *)
        e3 ← at_ ns 3;
        let state := Value e3 in
        match stateCount !! state with
        | Some val =>
            now ← time_Now;
            let metric :=
              {| Namespace_ := ns;
                 Config_ := None;
                 Data_ := Int val;
                 Timestamp_ := now;
                 Unit_ := "";
                 Description_ := "Number of processes in " +:+ state +:+ " state" |} in
            mret (Continue (metrics ++ [metric]))
        | None => mret (Continue metrics)
        end
      else mret (Continue metrics).

Definition CollectMetrics (procPlg : procPlugin) (metricTypes : list MetricType)
  : M Returned :=
  first ← lift (index metricTypes 0);
  '(procPath, err) ← call_GetConfigItem first "proc_path";
  match err with
  | Some err => mret ((None, Some err) : Returned)
  | None =>
      (* init stateCount map with keys from States *)
      let stateCount := initStateCount in
      (* get all proc stats *)
      path ← lift (assert_string procPath);
      '(stats, err) ← call_GetStats (mc procPlg) path;
      match err with
      | Some err => mret ((None, Some (SnapError err)) : Returned)
      | None =>
          let stateCount := countStates stats stateCount in
          (* calculate metrics *)
          r ← forEach (collectBody stats stateCount) [] metricTypes;
          match r with
          | Continue metrics => mret ((Some metrics, None) : Returned)
          | Return r => mret r
          end
      end
  end.

(** *** fillNsElement (lines 309-311) *)

Definition fillNsElement (element : NamespaceElement) (value : string)
  : NamespaceElement :=
  {| Value := value; Description := Description element; Name := Name element |}.

End plugin.

(** ** Concrete inputs used by the examples below *)

Module Examples.

(** Maps are visited in the order of [map_to_list], or in the reverse. *)
Definition canonical : Schedule :=
  {| range_order := fun V m => map_to_list m;
     range_order_perm := fun V m => reflexivity (map_to_list m) |}.

Definition reversed : Schedule :=
  {| range_order := fun V m => reverse (map_to_list m);
     range_order_perm := fun V m => reverse_Permutation (map_to_list m) |}.

Definition States2 : gmap string string :=
  list_to_map [("R", "running"); ("S", "sleeping")].

(** A configuration lookup in the metric's own table. *)
Definition lookupConfig (mt : MetricType) (name : string) : iface * option error :=
  match Config_ mt with
  | Some table =>
      match table !! name with
      | Some v => (v, None)
      | None => (Nil, Some (errorString "config item not found"))
      end
  | None => (Nil, Some (errorString "config item not found"))
  end.

Definition procConfig : option (gmap string iface) :=
  Some {[ "proc_path" := Str "/proc" ]}.

Definition clock (k : nat) : Time := 1000 + Z.of_nat k.
Definition later (k : nat) : Time := 2000 + Z.of_nat k.

(** The fields of a [stat] line, all "0" but for field 22. *)
Definition statLine (vm : string) : list string := <[22%nat := vm]> (replicate 44 "0").

Definition proc100 : Proc :=
  {| Pid := 100; State := "S"; Stat := statLine "4096";
     VmData := 10; VmCode := 20; Cmd := "foo";
     CmdLine := "/usr/bin/foo" +:+ String NUL "-x";
     Io := {[ "rchar" := 1 ]} |}.

Definition proc200 : Proc :=
  {| Pid := 200; State := "R"; Stat := statLine "8192";
     VmData := 30; VmCode := 40; Cmd := "bar";
     CmdLine := "/bin/bar";
     Io := ∅ |}.

Definition snapshot2 : list Proc := [proc100; proc200].

(** Three running processes and five sleeping ones. *)
Definition snapshot8 : list Proc := replicate 3 proc200 ++ replicate 5 proc100.

(** A digit string one above the largest [uint64] in field 22. *)
Definition overflowing : Proc :=
  {| Pid := 7; State := "R"; Stat := statLine "18446744073709551616";
     VmData := 0; VmCode := 0; Cmd := "big"; CmdLine := "/bin/big"; Io := ∅ |}.

(** Every status field is text without a digit. *)
Definition garbled : Proc :=
  {| Pid := 8; State := "R"; Stat := replicate 44 "n/a";
     VmData := 1; VmCode := 2; Cmd := "odd"; CmdLine := "odd"; Io := ∅ |}.

Definition collector (stats : list Proc) : metricCollector :=
  {| GetStats := fun path =>
       if String.eqb path "/proc" then (stats, None)
       else ([], Some (errorString "no such file or directory")) |}.

Definition plg (stats : list Proc) : procPlugin :=
  {| host := "localhost"; mc := collector stats |}.

(** A data source whose process table cannot be read. *)
Definition unreadable : procPlugin :=
  {| host := "localhost";
     mc := {| GetStats := fun _ => ([], Some (errorString "permission denied")) |} |}.

Definition shortNs : list NamespaceElement :=
  NewNamespace ["intel"; "procfs"; "processes"].

Definition dynamicNs (leaf : string) : list NamespaceElement :=
  AddStaticElements
    (AddDynamicElement
       (AddDynamicElement (NewNamespace ["intel"; "procfs"; "processes"; "pid"])
          "process_id" "pid of the running process")
       "process_name" "name of the running process")
    [leaf].

Definition staticNs (leaf : string) : list NamespaceElement :=
  NewNamespace ["intel"; "procfs"; "processes"; leaf].

Definition request (l : loc) : MetricType :=
  {| Namespace_ := l; Config_ := procConfig; Data_ := Nil;
     Timestamp_ := zeroTime; Unit_ := ""; Description_ := "" |}.

Definition world0 (arrays : list (list NamespaceElement)) : world :=
  {| heap := arrays; ticks := 0; log := [] |}.

End Examples.

(** * Vocabulary of the statements

    Names for what the code computes, used to state the properties below. *)

(** Every byte of [s] is a decimal digit. *)
Definition all_digits (s : string) : bool :=
  forallb is_digit (list_ascii_of_string s).

(** The number a string of decimal digits denotes, read after [n]. *)
Definition decimal_from (n : Z) (s : string) : Z :=
  foldl (fun n c => n * 10 + digit_val c) n (list_ascii_of_string s).
Definition decimal (s : string) : Z := decimal_from 0 s.

(** [sep] occurs in [s]. *)
Definition mem (sep : ascii) (s : string) : bool :=
  existsb (Ascii.eqb sep) (list_ascii_of_string s).

(** The bytes of [s] before its first [sep]; all of [s] when it has none. *)
Fixpoint upto (sep : ascii) (s : string) : string :=
  match s with
  | EmptyString => EmptyString
  | String c s' => if Ascii.eqb c sep then EmptyString else String c (upto sep s')
  end.

(** The bytes of [s] after its last [sep]; all of [s] when it has none. *)
Fixpoint after_last (sep : ascii) (s : string) : string :=
  match s with
  | EmptyString => EmptyString
  | String c s' =>
      if mem sep s' then after_last sep s'
      else if Ascii.eqb c sep then s' else String c s'
  end.

(** [cmdPath[len(cmdPath)-1]] of the first NUL-separated part: never out of
    range, and the last path segment of the command line cut at its first
    NUL byte. *)
Definition procName (cmdLine : string) : string := after_last slash (upto NUL cmdLine).

(** The data model's fixed layout: the status fields up to position 28 are
    there. *)
Definition has_layout (proc : Proc) : Prop := (29 <= length (Stat proc))%nat.

(** The status field at position [i]. *)
Definition field (proc : Proc) (i : nat) : string := default "" (Stat proc !! i).

(** A status field read the way the code reads it: the value [ParseUint]
    hands back, its error dropped. *)
Definition parsed (proc : Proc) (i : nat) : Z := (ParseUint (field proc i)).1.

(** The extractor's table, metric by metric as in section 4.2 of the spec,
    with the parsed fields as [parsed] reads them and [ps_stacksize] as the
    larger stack boundary minus the smaller. *)
Definition extract (proc : Proc) : gmap string iface :=
  list_to_map
    [ ("ps_vm", Uint64 (parsed proc 22));
      ("ps_rss", Uint64 (parsed proc 23));
      ("ps_data", Uint64 (VmData proc));
      ("ps_code", Uint64 (VmCode proc));
      ("ps_stacksize", Uint64 (Z.max (parsed proc 27) (parsed proc 28)
                               - Z.min (parsed proc 27) (parsed proc 28)));
      ("ps_cputime_user", Uint64 (parsed proc 13));
      ("ps_cputime_system", Uint64 (parsed proc 14));
      ("ps_pagefaults_min", Uint64 (parsed proc 9));
      ("ps_pagefaults_maj", Uint64 (parsed proc 11));
      ("ps_disk_octets_rchar", Uint64 (default 0 (Io proc !! "rchar")));
      ("ps_disk_octets_wchar", Uint64 (default 0 (Io proc !! "wchar")));
      ("ps_disk_ops_syscr", Uint64 (default 0 (Io proc !! "syscr")));
      ("ps_disk_ops_syscw", Uint64 (default 0 (Io proc !! "syscw")));
      ("ps_cmd_line", Str (CmdLine proc));
      ("ps_cmd", Str (Cmd proc)) ].

(** The record [proc] with its two stack-boundary fields set to [a], [b]. *)
Definition with_stack (proc : Proc) (a b : string) : Proc :=
  {| Pid := Pid proc; State := State proc;
     Stat := <[28%nat := b]> (<[27%nat := a]> (Stat proc));
     VmData := VmData proc; VmCode := VmCode proc; Cmd := Cmd proc;
     CmdLine := CmdLine proc; Io := Io proc |}.

(** The StateCountMap of a snapshot: the counting loop run on the
    initialised map. *)
Definition aggregate (States : gmap string string) (sched : Schedule)
    (stats : list Proc) : gmap string Z :=
  countStates States stats (initStateCount States sched).

(** [stateCount[stateName]++] *)
Definition bump (stateName : string) (stateCount : gmap string Z) : gmap string Z :=
  <[stateName := wrap_int (default 0 (stateCount !! stateName) + 1)]> stateCount.

(** [w] with [arrays] allocated and the clock read [n] more times. *)
Definition grow (w : world) (arrays : list (list NamespaceElement)) (n : nat) : world :=
  {| heap := heap w ++ arrays; ticks := n + ticks w; log := log w |}.

(** [w] with the external calls [evs] made. *)
Definition logged (w : world) (evs : list event) : world :=
  {| heap := heap w; ticks := ticks w; log := log w ++ evs |}.

Definition set_Value (e : NamespaceElement) (v : string) : NamespaceElement :=
  {| Value := v; Description := Description e; Name := Name e |}.

(** The requested namespace [a] with the process id at position 4 and the
    process name at position 5. *)
Definition filled (a : list NamespaceElement) (proc : Proc) : list NamespaceElement :=
  alter (fun e => set_Value e (procName (CmdLine proc))) 5%nat
        (alter (fun e => set_Value e (Itoa (Pid proc))) 4%nat a).

Definition noLabel : label := {| description := ""; unit := "" |}.

(** The metric built at lines 224-230. *)
Definition dynamicMetric (nuns : loc) (val : iface) (now : Time) (procMet : string)
  : MetricType :=
  {| Namespace_ := nuns;
     Config_ := None;
     Data_ := val;
     Timestamp_ := now;
     Unit_ := unit (default noLabel (metricNames !! procMet));
     Description_ := description (default noLabel (metricNames !! procMet)) |}.

(** What the loop over an extracted map [m] does, told without a
    schedule. *)
Definition rangeResult (Now : nat -> Time) (ns : loc) (proc : Proc)
    (metrics : list MetricType) (m : gmap string iface) (w : world)
  : res (list MetricType) * world :=
  let a := default [] (heap w !! ns) in
  match a !! 6%nat with
  | None =>
      if decide (m = ∅) then (Done metrics, w)
      else (Panicked (IndexOutOfRange 6 (length a)), w)
  | Some leaf =>
      match m !! Value leaf with
      | Some val =>
          (Done (metrics ++ [dynamicMetric (length (heap w)) val (Now (ticks w)) (Value leaf)]),
           grow w [filled a proc] 1)
      | None => (Done metrics, w)
      end
  end.

(** The metrics a fully dynamic pattern with leaf [leafName] expands to on
    [stats], started in world [w]: one per process, in snapshot order. *)
Definition expansion (Now : nat -> Time) (w : world) (leafName : string)
    (lbl : label) (stats : list Proc) : list MetricType :=
  imap (fun i proc =>
          {| Namespace_ := (length (heap w) + i)%nat;
             Config_ := None;
             Data_ := default Nil (extract proc !! leafName);
             Timestamp_ := Now (i + ticks w)%nat;
             Unit_ := unit lbl;
             Description_ := description lbl |}) stats.

(** [w] after one reading of the clock. *)
Definition tick (w : world) : world :=
  {| heap := heap w; ticks := S (ticks w); log := log w |}.

(** The metric built at lines 245-251. *)
Definition stateMetric (ns : loc) (val : Z) (now : Time) (state : string) : MetricType :=
  {| Namespace_ := ns;
     Config_ := None;
     Data_ := Int val;
     Timestamp_ := now;
     Unit_ := "";
     Description_ := "Number of processes in " +:+ state +:+ " state" |}.

(** The error of line 206 for a namespace of [n] elements. *)
Definition lengthError (n : nat) : error :=
  SnapError (errorString
    ("Unknown namespace length. Expecting at least 4, is " +:+ Itoa (Z.of_nat n))).

(** [w'] is [w] with more arrays allocated and more clock readings taken:
    nothing that was in the heap has changed, and no external call was
    made. *)
Definition extends (w w' : world) : Prop :=
  exists arrays n, w' = grow w arrays n.

(** A requested pattern whose namespace has fewer than 4 elements. *)
Definition is_short (w : world) (mt : MetricType) : Prop :=
  exists a, heap w !! Namespace_ mt = Some a /\ (length a < 4)%nat.

(** A metric with its timestamp blanked. *)
Definition untimed (m : MetricType) : MetricType :=
  {| Namespace_ := Namespace_ m; Config_ := Config_ m; Data_ := Data_ m;
     Timestamp_ := zeroTime; Unit_ := Unit_ m; Description_ := Description_ m |}.

(** Two lists of metrics that agree but for their timestamps, which are
    related by [P]. *)
Definition alike (P : Time -> Time -> Prop) (ms ms' : list MetricType) : Prop :=
  Forall2 (fun m m' => untimed m = untimed m' /\ P (Timestamp_ m) (Timestamp_ m')) ms ms'.

Definition alike_flow (P : Time -> Time -> Prop)
    (x y : flow (list MetricType) Returned) : Prop :=
  match x, y with
  | Continue ms, Continue ms' => alike P ms ms'
  | Return r, Return r' => r = r'
  | _, _ => False
  end.

Definition alike_returned (P : Time -> Time -> Prop) (r r' : Returned) : Prop :=
  r.2 = r'.2 /\
  match r.1, r'.1 with
  | Some ms, Some ms' => alike P ms ms'
  | None, None => True
  | _, _ => False
  end.

(** Two runs end in the same world, and both panic alike or both finish
    with results related by [R]. *)
Definition agree {A} (R : A -> A -> Prop) (x y : res A * world) : Prop :=
  x.2 = y.2 /\
  match x.1, y.1 with
  | Done a, Done b => R a b
  | Panicked p, Panicked q => p = q
  | _, _ => False
  end.

(** What a call returns, the timestamps of its metrics blanked. *)
Definition untimed_result (r : res Returned) : res Returned :=
  match r with
  | Done r => Done ((option_map (fun metrics => untimed <$> metrics) r.1, r.2) : Returned)
  | Panicked p => Panicked p
  end.

Definition static (v : string) : NamespaceElement :=
  {| Value := v; Description := ""; Name := "" |}.

(** The pattern advertised for a metric name: the static prefix, the two
    dynamic elements, the name as static leaf. *)
Definition dynamicPattern (metricName : string) : list NamespaceElement :=
  [ static "intel"; static "procfs"; static "processes"; static "pid";
    {| Value := "*"; Description := "pid of the running process"; Name := "process_id" |};
    {| Value := "*"; Description := "name of the running process"; Name := "process_name" |};
    static metricName ].

(** The pattern advertised for a state name. *)
Definition statePattern (state : string) : list NamespaceElement :=
  [ static "intel"; static "procfs"; static "processes"; static state ].

(** The namespaces of [metricTypes], read in the heap of [w]. *)
Definition patterns_of (w : world) (metricTypes : list MetricType)
  : list (list NamespaceElement) :=
  map (fun mt => default [] (heap w !! Namespace_ mt)) metricTypes.

(** The first of the status fields [setProcMetrics] reads, in the order it
    reads them (22, 23, 27, 28, 13, 14, 9, 11), that a record of [n] fields
    lacks. *)
Definition first_missing (n : nat) : nat :=
  if (n <=? 22)%nat then 22%nat
  else if (n <=? 23)%nat then 23%nat
  else if (n <=? 27)%nat then 27%nat
  else 28%nat.

(** The state name the counting loop files a record under: the table's
    entry for its state code, or the empty string when it has none. *)
Definition stateNameOf (States : gmap string string) (proc : Proc) : string :=
  default "" (States !! State proc).

(** How many records of [stats] are filed under [name]. *)
Definition filed_under (States : gmap string string) (name : string)
    (stats : list Proc) : nat :=
  length (filter (fun proc => stateNameOf States proc = name) stats).

(** Reading a decimal string back: the inverse of [Itoa]. *)
Definition Atoi (s : string) : option Z :=
  option_map Z.of_int (NilZero.int_of_string s).

(** A result with [acc] put in front of the metrics it holds. *)
Definition prepend {A} (f : list MetricType -> A) (x : res (list MetricType) * world)
  : res A * world :=
  (match x.1 with
   | Done ms => Done (f ms)
   | Panicked p => Panicked p
   end, x.2).

(** A pattern in which only the process id is dynamic:
    [/intel/procfs/processes/pid/*/bash/<leaf>]. *)
Definition pidOnlyNs (leaf : string) : list NamespaceElement :=
  AddStaticElements
    (AddDynamicElement (NewNamespace ["intel"; "procfs"; "processes"; "pid"])
       "process_id" "pid of the running process")
    ["bash"; leaf].

(** A record whose [stat] line was cut after 25 fields. *)
Definition truncated : Proc :=
  {| Pid := 300; State := "R"; Stat := replicate 25 "0";
     VmData := 0; VmCode := 0; Cmd := "cut"; CmdLine := "/bin/cut"; Io := ∅ |}.

(** The outcome of a loop body or loop with [acc] put in front of the
    metrics it goes on with. *)
Definition onward (acc : list MetricType)
    (x : res (flow (list MetricType) Returned) * world)
  : res (flow (list MetricType) Returned) * world :=
  (match x.1 with
   | Done (Continue ms) => Done (Continue (acc ++ ms))
   | other => other
   end, x.2).

(** The metrics [ms] were built between [w] and [w']: one reading of the
    clock each, in order, at most one array each, and no configuration. *)
Definition stamped (Now : nat -> Time) (w : world) (ms : list MetricType) (w' : world)
  : Prop :=
  Timestamp_ <$> ms = Now <$> seq (ticks w) (length ms)
  /\ ticks w' = (length ms + ticks w)%nat
  /\ (length (heap w') <= length (heap w) + length ms)%nat
  /\ Forall (fun m => Config_ m = None) ms.

(** A request like [m] but for its configuration. *)
Definition configured (cfg : option (gmap string iface)) (m : MetricType) : MetricType :=
  {| Namespace_ := Namespace_ m; Config_ := cfg; Data_ := Data_ m;
     Timestamp_ := Timestamp_ m; Unit_ := Unit_ m; Description_ := Description_ m |}.

(** The metric type built at lines 141-149 for an entry of the catalog. *)
Definition advertisedMetric (cfg : ConfigType) (kv : string * label) (ns : loc)
  : MetricType :=
  {| Namespace_ := ns; Config_ := ConfigDataNode cfg; Data_ := Nil;
     Timestamp_ := zeroTime; Unit_ := unit kv.2; Description_ := description kv.2 |}.

(** The metric type built at lines 154-159 for a state name. *)
Definition advertisedState (cfg : ConfigType) (state : string) (ns : loc) : MetricType :=
  {| Namespace_ := ns; Config_ := ConfigDataNode cfg; Data_ := Nil;
     Timestamp_ := zeroTime; Unit_ := "";
     Description_ := "Number of processes in " +:+ state +:+ " state" |}.

(** A pattern discovery advertises. *)
Definition advertised (States : gmap string string) (p : list NamespaceElement) : Prop :=
  (exists name, is_Some (metricNames !! name) /\ p = dynamicPattern name)
  \/ (exists code state, States !! code = Some state /\ p = statePattern state).

(** How many metrics an advertised pattern resolves to on a snapshot. *)
Definition yield (stats : list Proc) (p : list NamespaceElement) : nat :=
  if (IsDynamic p).1 then length stats else 1%nat.

(** A plugin on another host whose collector knows the process table under
    [/proc] and an empty one everywhere else. *)
Definition elsewhere (stats : list Proc) : procPlugin :=
  {| host := "node-17";
     mc := {| GetStats := fun path =>
                if String.eqb path "/proc" then (stats, None) else ([], None) |} |}.

(** The data and code segment sizes and the I/O counters of a record are
    within the range of a [uint64]. *)
Definition fits_uint64 (proc : Proc) : Prop :=
  0 <= VmData proc <= maxUint64
  /\ 0 <= VmCode proc <= maxUint64
  /\ (forall key z, Io proc !! key = Some z -> 0 <= z <= maxUint64).

(** A requested pattern all of whose elements the loop body reads are
    there: it has at least 4 elements and, when one of them is dynamic, at
    least 7 (elements 4, 5 and 6 are then read), the records of the snapshot
    having the fixed layout. *)
Definition in_bounds (w : world) (stats : list Proc) (mt : MetricType) : Prop :=
  exists a, heap w !! Namespace_ mt = Some a
    /\ (4 <= length a)%nat
    /\ ((IsDynamic a).1 = false
        \/ ((7 <= length a)%nat /\ Forall has_layout stats)).

(** * Properties *)

(** ** Running the monad *)

Lemma bind_M_Done {A B} (m : M A) (f : A -> M B) w a w' :
  m w = (Done a, w') -> (m ≫= f) w = f a w'.
Proof. intros H. unfold mbind, M_bind. by rewrite H. Qed.

Lemma bind_M_Panicked {A B} (m : M A) (f : A -> M B) w p w' :
  m w = (Panicked p, w') -> (m ≫= f) w = (Panicked p, w').
Proof. intros H. unfold mbind, M_bind. by rewrite H. Qed.

Lemma bind_M_ret {A B} (a : A) (f : A -> M B) w : (mret a ≫= f) w = f a w.
Proof. reflexivity. Qed.

Lemma index_Some {A} (l : list A) i x : l !! i = Some x -> index l i = Done x.
Proof. intros H. unfold index. by rewrite H. Qed.

Lemma index_None {A} (l : list A) i :
  l !! i = None -> index l i = Panicked (IndexOutOfRange i (length l)).
Proof. intros H. unfold index. by rewrite H. Qed.

Lemma load_Some ns w a : heap w !! ns = Some a -> load ns w = (Done a, w).
Proof. intros H. unfold load. by rewrite H. Qed.

Lemma at_Some ns i w a e :
  heap w !! ns = Some a -> a !! i = Some e -> at_ ns i w = (Done e, w).
Proof.
  intros Ha He. unfold at_. rewrite (bind_M_Done _ _ _ _ _ (load_Some _ _ _ Ha)).
  unfold lift. by rewrite (index_Some _ _ _ He).
Qed.

Lemma at_None ns i w a :
  heap w !! ns = Some a -> a !! i = None ->
  at_ ns i w = (Panicked (IndexOutOfRange i (length a)), w).
Proof.
  intros Ha He. unfold at_. rewrite (bind_M_Done _ _ _ _ _ (load_Some _ _ _ Ha)).
  unfold lift. by rewrite (index_None _ _ He).
Qed.

(** ** strconv.ParseUint *)

Lemma digit_val_range c : is_digit c = true -> 0 <= digit_val c <= 9.
Proof.
  unfold is_digit, digit_val. intros H.
  apply andb_true_iff in H as [H1 H2].
  apply Nat.leb_le in H1. apply Nat.leb_le in H2. lia.
Qed.

Lemma cutoff_eq : cutoff = 1844674407370955162.
Proof. reflexivity. Qed.

Lemma maxUint64_eq : maxUint64 = 18446744073709551615.
Proof. reflexivity. Qed.

Lemma decimal_from_mono s : forall n m, 0 <= n <= m -> all_digits s = true ->
  n <= decimal_from n s <= decimal_from m s.
Proof.
  unfold all_digits, decimal_from.
  induction s as [|c s IH]; simpl; intros n m Hnm Hd; [lia|].
  apply andb_true_iff in Hd as [Hc Hs].
  pose proof (digit_val_range c Hc).
  destruct (IH (n * 10 + digit_val c) (m * 10 + digit_val c)) as [? ?]; [lia|done|].
  split; [lia|done].
Qed.

Lemma ParseUint_loop_range s : forall n, 0 <= n <= maxUint64 ->
  0 <= (ParseUint_loop s n).1 <= maxUint64.
Proof.
  induction s as [|c s IH]; simpl; intros n Hn; [done|].
  destruct (is_digit c) eqn:Hc; [|simpl; unfold maxUint64; lia].
  destruct (cutoff <=? n) eqn:Hcut; [simpl; unfold maxUint64; lia|].
  destruct (_ || _) eqn:Hov; [simpl; unfold maxUint64; lia|].
  apply orb_false_iff in Hov as [H1 H2].
  apply IH. apply Z.ltb_ge in H2. split; [|done].
  unfold wrap_uint64. apply Z.mod_pos_bound. lia.
Qed.

Lemma ParseUint_range s : 0 <= (ParseUint s).1 <= maxUint64.
Proof.
  destruct s; [simpl; unfold maxUint64; lia|].
  apply ParseUint_loop_range. unfold maxUint64. lia.
Qed.

Lemma ParseUint_loop_cases s : forall n, 0 <= n <= maxUint64 ->
  match (ParseUint_loop s n).2 with
  | None => all_digits s = true /\ (ParseUint_loop s n).1 = decimal_from n s
  | Some ErrSyntax => (ParseUint_loop s n).1 = 0
  | Some ErrRange => (ParseUint_loop s n).1 = maxUint64
  end.
Proof.
  induction s as [|c s IH]; simpl; intros n Hn; [done|].
  unfold all_digits, decimal_from. simpl.
  destruct (is_digit c) eqn:Hc; [|done].
  destruct (cutoff <=? n) eqn:Hcut; [done|].
  destruct (_ || _) eqn:Hov; [done|].
  apply orb_false_iff in Hov as [H1 H2].
  apply Z.ltb_ge in H1, H2. apply Z.leb_gt in Hcut.
  pose proof (digit_val_range c Hc) as Hd.
  assert (Hw : wrap_uint64 (n * 10 + digit_val c) = n * 10 + digit_val c).
  { unfold wrap_uint64 in *. rewrite cutoff_eq in Hcut.
    destruct (Z_lt_ge_dec (n * 10 + digit_val c) (2 ^ 64)) as [Hlt|Hge].
    - apply Z.mod_small. lia.
    - assert (Hm : (n * 10 + digit_val c) mod 2 ^ 64 = n * 10 + digit_val c - 2 ^ 64).
      { symmetry. apply (Z.mod_unique _ _ 1); lia. }
      rewrite Hm in H1. lia. }
  rewrite Hw in *. apply IH. rewrite maxUint64_eq in *. lia.
Qed.

(** What [ParseUint] returns: the value of a numeral that fits, 0 with a
    syntax error, and the largest [uint64] with a range error. *)
Lemma ParseUint_cases s :
  match (ParseUint s).2 with
  | None => s <> "" /\ all_digits s = true /\ (ParseUint s).1 = decimal s
            /\ decimal s <= maxUint64
  | Some ErrSyntax => (ParseUint s).1 = 0
  | Some ErrRange => (ParseUint s).1 = maxUint64
  end.
Proof.
  destruct s as [|c s]; [done|].
  pose proof (ParseUint_loop_cases (String c s) 0) as H.
  pose proof (ParseUint_range (String c s)) as Hr.
  unfold ParseUint in *.
  destruct (ParseUint_loop (String c s) 0).2 as [[]|];
    [apply H; unfold maxUint64; lia ..|].
  destruct H as [? H]; [unfold maxUint64; lia|].
  unfold decimal. rewrite <- H. repeat split; [done..|lia].
Qed.

Lemma ParseUint_loop_numeral s : forall n, 0 <= n ->
  all_digits s = true -> decimal_from n s <= maxUint64 ->
  ParseUint_loop s n = (decimal_from n s, None).
Proof.
  induction s as [|c s IH]; intros n Hn Hd Hmax; [done|].
  unfold all_digits in Hd. simpl in Hd. apply andb_true_iff in Hd as [Hc Hs].
  pose proof (digit_val_range c Hc) as Hdv.
  assert (Hstep : decimal_from n (String c s) = decimal_from (n * 10 + digit_val c) s)
    by done.
  rewrite Hstep in *.
  destruct (decimal_from_mono s (n * 10 + digit_val c) (n * 10 + digit_val c))
    as [Hle _]; [lia|done|].
  rewrite maxUint64_eq in *.
  simpl. rewrite Hc.
  destruct (cutoff <=? n) eqn:Hcut.
  { apply Z.leb_le in Hcut. rewrite cutoff_eq in Hcut. lia. }
  assert (Hw : wrap_uint64 (n * 10 + digit_val c) = n * 10 + digit_val c).
  { unfold wrap_uint64. apply Z.mod_small. lia. }
  rewrite Hw.
  destruct (_ || _) eqn:Hov.
  { apply orb_true_iff in Hov as [H|H]; apply Z.ltb_lt in H;
      rewrite ?maxUint64_eq in H; lia. }
  apply IH; [lia|done|rewrite ?maxUint64_eq; lia].
Qed.

(** A non-empty string of digits whose value fits 64 bits parses to that
    value. *)
Lemma ParseUint_numeral s :
  s <> "" -> all_digits s = true -> decimal s <= maxUint64 ->
  ParseUint s = (decimal s, None).
Proof.
  intros Hne Hd Hmax. destruct s as [|c s]; [done|].
  by apply ParseUint_loop_numeral.
Qed.

(** ** strings.Split *)

Lemma Split_nonempty s sep : exists w ws, Split s sep = w :: ws.
Proof.
  destruct s as [|c s]; simpl; [eauto|].
  destruct (Ascii.eqb c sep); [eauto|].
  destruct (Split s sep); eauto.
Qed.

Lemma Split_hd s sep : hd_error (Split s sep) = Some (upto sep s).
Proof.
  induction s as [|c s IH]; simpl; [done|].
  destruct (Ascii.eqb c sep); [done|].
  destruct (Split s sep) as [|w ws]; [done|].
  simpl in *. congruence.
Qed.

Lemma Split_no_sep s sep : mem sep s = false -> Split s sep = [s].
Proof.
  unfold mem. induction s as [|c s IH]; simpl; [done|].
  intros H. apply orb_false_iff in H as [Hc Hs].
  rewrite Ascii.eqb_sym, Hc. by rewrite (IH Hs).
Qed.

Lemma Split_sep s sep : mem sep s = true ->
  exists w w' ws, Split s sep = w :: w' :: ws.
Proof.
  unfold mem. induction s as [|c s IH]; simpl; [done|].
  intros H. rewrite (Ascii.eqb_sym sep c) in H.
  destruct (Ascii.eqb c sep) eqn:Hc.
  - destruct (Split_nonempty s sep) as (w & ws & ->). eauto.
  - simpl in H. destruct (IH H) as (w & w' & ws & ->). eauto.
Qed.

Lemma after_last_no_sep s sep : mem sep s = false -> after_last sep s = s.
Proof.
  destruct s as [|c s]; simpl; [done|].
  unfold mem at 1. simpl. intros H. apply orb_false_iff in H as [Hc Hs].
  fold (mem sep s) in Hs. by rewrite Hs, Ascii.eqb_sym, Hc.
Qed.

Lemma Split_last s sep : last (Split s sep) = Some (after_last sep s).
Proof.
  induction s as [|c s IH]; simpl; [done|].
  destruct (Ascii.eqb c sep) eqn:Hc.
  - destruct (Split_nonempty s sep) as (w & ws & Hs).
    rewrite Hs in *. rewrite last_cons, IH.
    destruct (mem sep s) eqn:Hm; [done|].
    by rewrite after_last_no_sep.
  - destruct (mem sep s) eqn:Hm.
    + destruct (Split_sep s sep Hm) as (w & w' & ws & Hs).
      rewrite Hs in *. by rewrite last_cons_cons in *.
    + by rewrite (Split_no_sep s sep Hm).
Qed.

Lemma index_Split_first s : index (Split s NUL) 0 = Done (upto NUL s).
Proof.
  pose proof (Split_hd s NUL) as H.
  destruct (Split s NUL) as [|w ws]; simpl in *; [done|]. by simplify_eq.
Qed.

Lemma index_Split_last s :
  index (Split s slash) (length (Split s slash) - 1) = Done (after_last slash s).
Proof.
  pose proof (Split_last s slash) as H.
  apply index_Some. rewrite last_lookup in H.
  by replace (length (Split s slash) - 1)%nat with (pred (length (Split s slash))) by lia.
Qed.

(** ** setProcMetrics *)

Lemma init_lookup (l : list (string * label)) (m0 : gmap string iface) k :
  foldl (fun procMetrics '(metricName, _) => <[metricName := Int 0]> procMetrics) m0 l !! k
  = if decide (k ∈ l.*1) then Some (Int 0) else m0 !! k.
Proof.
  revert m0. induction l as [|[name lbl] l IH]; intros m0.
  - simpl foldl. destruct (decide (k ∈ ([] : list (string * label)).*1)) as [H|H]; [|done].
    by apply elem_of_nil in H.
  - simpl foldl. rewrite IH. rewrite fmap_cons. simpl fst.
    destruct (decide (k ∈ l.*1)) as [H1|H1];
      destruct (decide (k ∈ name :: l.*1)) as [H2|H2]; try done.
    + exfalso. apply H2. by right.
    + apply elem_of_cons in H2 as [->|?]; [|done]. by rewrite lookup_insert_eq.
    + rewrite lookup_insert_ne; [done|]. intros ->. apply H2. by left.
Qed.

Lemma range_order_keys {V} (sched : Schedule) (m : gmap string V) k :
  k ∈ (range_order sched m).*1 <-> is_Some (m !! k).
Proof.
  rewrite (range_order_perm sched V m).
  rewrite list_elem_of_fmap. split.
  - intros [[k' v] [-> H]]. apply elem_of_map_to_list in H. eauto.
  - intros [v H]. exists (k, v). split; [done|]. by apply elem_of_map_to_list.
Qed.

Lemma range_order_NoDup {V} (sched : Schedule) (m : gmap string V) :
  NoDup (range_order sched m).*1.
Proof. rewrite (range_order_perm sched V m). apply NoDup_fst_map_to_list. Qed.

Lemma sub_uint64_le a b : 0 <= b <= a -> a <= maxUint64 -> sub_uint64 a b = a - b.
Proof.
  intros ? ?. unfold sub_uint64, wrap_uint64. rewrite maxUint64_eq in *.
  apply Z.mod_small. lia.
Qed.

Lemma stack_difference a b :
  0 <= a <= maxUint64 -> 0 <= b <= maxUint64 ->
  (if b <? a then sub_uint64 a b else sub_uint64 b a) = Z.max a b - Z.min a b.
Proof.
  intros Ha Hb. destruct (b <? a) eqn:H.
  - apply Z.ltb_lt in H. rewrite sub_uint64_le by lia. lia.
  - apply Z.ltb_ge in H. rewrite sub_uint64_le by lia. lia.
Qed.

Lemma layout_field proc i :
  has_layout proc -> (i < 29)%nat -> index (Stat proc) i = Done (field proc i).
Proof.
  unfold has_layout, field. intros Hl Hi.
  destruct (lookup_lt_is_Some_2 (Stat proc) i) as [s Hs]; [lia|].
  rewrite Hs. by apply index_Some.
Qed.

Ltac lookup_chain :=
  repeat first [rewrite lookup_insert_eq | rewrite lookup_insert_ne by done].

(** On a record with the fixed layout the code computes the spec's table,
    whatever order the initialising loop visits the metric names in. *)
Lemma setProcMetrics_extract sched proc :
  has_layout proc -> setProcMetrics sched proc = Done (extract proc).
Proof.
  intros Hl. unfold setProcMetrics.
  repeat (rewrite layout_field by (done || lia); simpl).
  f_equal. fold (parsed proc 22) (parsed proc 23) (parsed proc 27) (parsed proc 28)
    (parsed proc 13) (parsed proc 14) (parsed proc 9) (parsed proc 11).
  pose proof (ParseUint_range (field proc 27)) as H27.
  pose proof (ParseUint_range (field proc 28)) as H28.
  fold (parsed proc 27) in H27. fold (parsed proc 28) in H28.
  apply map_eq. intros k.
  assert (Hst : forall m : gmap string iface,
    (if parsed proc 28 <? parsed proc 27
     then <["ps_stacksize" := Uint64 (sub_uint64 (parsed proc 27) (parsed proc 28))]> m
     else <["ps_stacksize" := Uint64 (sub_uint64 (parsed proc 28) (parsed proc 27))]> m)
    = <["ps_stacksize" := Uint64 (Z.max (parsed proc 27) (parsed proc 28)
                                   - Z.min (parsed proc 27) (parsed proc 28))]> m).
  { intros m. rewrite <- stack_difference by done. by destruct (_ <? _). }
  rewrite Hst. unfold extract. simpl.
  repeat match goal with
  | |- <[?key := _]> _ !! k = _ =>
      destruct (decide (k = key)) as [->|?];
      [by lookup_chain|rewrite (lookup_insert_ne _ key k) by congruence]
  end.
  rewrite !lookup_insert_ne by congruence.
  rewrite init_lookup, lookup_empty. case_decide as Hk; [|done].
  apply range_order_keys in Hk as [lbl Hk]. unfold metricNames in Hk. simpl in Hk.
  by rewrite !lookup_insert_ne, lookup_empty in Hk by congruence.
Qed.

(** Without the layout the code panics on the first missing field. *)
Lemma setProcMetrics_short sched proc :
  ~ has_layout proc -> exists i, (i < 29)%nat /\
    setProcMetrics sched proc = Panicked (IndexOutOfRange i (length (Stat proc))).
Proof.
  unfold has_layout. intros Hl. unfold setProcMetrics.
  repeat match goal with
  | |- context [index (Stat proc) ?i] =>
      let H := fresh "Hi" in
      destruct (Stat proc !! i) as [?s|] eqn:H;
      [rewrite (index_Some _ _ _ H); simpl
      |rewrite (index_None _ _ H); simpl; exists i; split; [lia|done]]
  end.
  match goal with
  | H : Stat proc !! 28%nat = Some _ |- _ => apply lookup_lt_Some in H; lia
  end.
Qed.

Lemma with_stack_layout proc a b : has_layout proc -> has_layout (with_stack proc a b).
Proof. unfold has_layout. simpl. by rewrite !length_insert. Qed.

Lemma with_stack_parsed proc a b :
  has_layout proc ->
  parsed (with_stack proc a b) 27 = (ParseUint a).1
  /\ parsed (with_stack proc a b) 28 = (ParseUint b).1.
Proof.
  unfold has_layout, parsed, field. simpl. intros Hl.
  rewrite list_lookup_insert_ne by done.
  rewrite !list_lookup_insert_eq by (rewrite ?length_insert; lia).
  done.
Qed.

Lemma extract_lookup_stacksize proc :
  extract proc !! "ps_stacksize"
  = Some (Uint64 (Z.max (parsed proc 27) (parsed proc 28)
                  - Z.min (parsed proc 27) (parsed proc 28))).
Proof. reflexivity. Qed.

Lemma extract_dom proc : dom (extract proc) = dom metricNames.
Proof.
  apply set_eq. intros k. rewrite !elem_of_dom.
  unfold extract, metricNames. simpl.
  repeat match goal with
  | |- is_Some (<[?key := _]> _ !! k) <-> _ =>
      destruct (decide (k = key)) as [->|?];
      [split; intros _; lookup_chain; eauto
      |rewrite (lookup_insert_ne _ key k) by congruence]
  end.
  rewrite !lookup_insert_ne by congruence. rewrite !lookup_empty. split; intros [? ?]; done.
Qed.

(** C7. On a record that has the stack-boundary fields (positions 27 and
    28 of the fixed layout), whatever text [a] and [b] they hold,
    [ps_stacksize] is the larger parsed value minus the smaller, that is the
    absolute difference; it is a [uint64], never negative; and it is the same
    with [a] and [b] swapped. *)
Theorem C7_stacksize_absolute_difference (sched : Schedule) (proc : Proc) (a b : string) :
  has_layout proc ->
  let pa := (ParseUint a).1 in
  let pb := (ParseUint b).1 in
  (exists m, setProcMetrics sched (with_stack proc a b) = Done m
             /\ m !! "ps_stacksize" = Some (Uint64 (Z.max pa pb - Z.min pa pb)))
  /\ (exists m', setProcMetrics sched (with_stack proc b a) = Done m'
                 /\ m' !! "ps_stacksize" = Some (Uint64 (Z.max pa pb - Z.min pa pb)))
  /\ Z.max pa pb - Z.min pa pb = Z.abs (pa - pb)
  /\ 0 <= Z.max pa pb - Z.min pa pb <= maxUint64.
Proof.
  intros Hl pa pb.
  pose proof (ParseUint_range a) as Ha. pose proof (ParseUint_range b) as Hb.
  fold pa in Ha. fold pb in Hb.
  repeat split.
  - exists (extract (with_stack proc a b)).
    rewrite setProcMetrics_extract by by apply with_stack_layout.
    split; [done|]. rewrite extract_lookup_stacksize.
    by destruct (with_stack_parsed proc a b Hl) as [-> ->].
  - exists (extract (with_stack proc b a)).
    rewrite setProcMetrics_extract by by apply with_stack_layout.
    split; [done|]. rewrite extract_lookup_stacksize.
    destruct (with_stack_parsed proc b a Hl) as [-> ->].
    fold pa pb. do 2 f_equal. lia.
  - lia.
  - lia.
  - lia.
Qed.

(** C3 (as amended).  On a record with the fixed layout the extractor
    returns, without panicking, a mapping with exactly the 15 declared keys.
    The six parsed metrics hold what [ParseUint] hands back for their field
    with the error dropped: the numeral's value when it fits 64 bits, 0 on a
    syntax error, and the largest [uint64] (not 0) on a range error; the same
    holds for the two stack fields.  The other metrics are copied from the
    record. *)
Theorem C3_extract_all_keys_lenient (sched : Schedule) (proc : Proc) :
  has_layout proc ->
  exists m, setProcMetrics sched proc = Done m
    /\ dom m = dom metricNames /\ size m = 15%nat
    /\ m !! "ps_vm" = Some (Uint64 (parsed proc 22))
    /\ m !! "ps_rss" = Some (Uint64 (parsed proc 23))
    /\ m !! "ps_cputime_user" = Some (Uint64 (parsed proc 13))
    /\ m !! "ps_cputime_system" = Some (Uint64 (parsed proc 14))
    /\ m !! "ps_pagefaults_min" = Some (Uint64 (parsed proc 9))
    /\ m !! "ps_pagefaults_maj" = Some (Uint64 (parsed proc 11))
    /\ m !! "ps_stacksize" = Some (Uint64 (Z.abs (parsed proc 27 - parsed proc 28)))
    /\ (forall i,
          match (ParseUint (field proc i)).2 with
          | None => field proc i <> "" /\ all_digits (field proc i) = true
                    /\ parsed proc i = decimal (field proc i)
          | Some ErrSyntax => parsed proc i = 0
          | Some ErrRange => parsed proc i = maxUint64
          end)
    /\ m !! "ps_data" = Some (Uint64 (VmData proc))
    /\ m !! "ps_code" = Some (Uint64 (VmCode proc))
    /\ m !! "ps_disk_octets_rchar" = Some (Uint64 (default 0 (Io proc !! "rchar")))
    /\ m !! "ps_disk_octets_wchar" = Some (Uint64 (default 0 (Io proc !! "wchar")))
    /\ m !! "ps_disk_ops_syscr" = Some (Uint64 (default 0 (Io proc !! "syscr")))
    /\ m !! "ps_disk_ops_syscw" = Some (Uint64 (default 0 (Io proc !! "syscw")))
    /\ m !! "ps_cmd_line" = Some (Str (CmdLine proc))
    /\ m !! "ps_cmd" = Some (Str (Cmd proc)).
Proof.
  intros Hl. exists (extract proc).
  split; [by apply setProcMetrics_extract|].
  split; [apply extract_dom|]. split; [by vm_compute|].
  do 6 (split; [reflexivity|]).
  split; [rewrite extract_lookup_stacksize; do 2 f_equal; lia|].
  split; [|by repeat split].
  intros i. pose proof (ParseUint_cases (field proc i)) as H. unfold parsed.
  destruct (ParseUint (field proc i)).2 as [[]|]; [done..|]. by destruct H as (? & ? & ? & ?).
Qed.

(** ** State aggregation (lines 185-200) *)

Lemma zero_keys_lookup (l : list string) (m0 : gmap string Z) k :
  foldl (fun stateCount state => <[state := 0]> stateCount) m0 l !! k
  = if decide (k ∈ l) then Some 0 else m0 !! k.
Proof.
  revert m0. induction l as [|s l IH]; intros m0; simpl foldl.
  - destruct (decide (k ∈ [])) as [H|H]; [by apply elem_of_nil in H|done].
  - rewrite IH.
    destruct (decide (k ∈ l)) as [H1|H1];
      destruct (decide (k ∈ s :: l)) as [H2|H2]; try done.
    + exfalso. apply H2. by right.
    + apply elem_of_cons in H2 as [->|?]; [|done]. by rewrite lookup_insert_eq.
    + rewrite lookup_insert_ne; [done|]. intros ->. apply H2. by left.
Qed.

Lemma initStateCount_lookup States sched s :
  initStateCount States sched !! s
  = if decide (s ∈ Values States sched) then Some 0 else None.
Proof. unfold initStateCount. by rewrite zero_keys_lookup, lookup_empty. Qed.

(** The known state names are the values of the table, in any order. *)
Lemma Values_elem States sched s :
  s ∈ Values States sched <-> exists code, States !! code = Some s.
Proof.
  unfold Values. rewrite (range_order_perm sched _ States), list_elem_of_fmap.
  split.
  - intros [[code s'] [-> H]]. apply elem_of_map_to_list in H. eauto.
  - intros [code H]. exists (code, s). split; [done|]. by apply elem_of_map_to_list.
Qed.

Lemma countStates_cons States proc stats sc :
  countStates States (proc :: stats) sc
  = countStates States stats (bump (default "" (States !! State proc)) sc).
Proof. reflexivity. Qed.

Lemma bump_commute a b sc : bump a (bump b sc) = bump b (bump a sc).
Proof.
  unfold bump. destruct (decide (a = b)) as [->|Hab]; [done|].
  rewrite !(lookup_insert_ne _ _ _ _) by congruence.
  by apply insert_insert_ne.
Qed.

Lemma bump_keeps_keys a sc k : is_Some (sc !! k) -> is_Some (bump a sc !! k).
Proof.
  unfold bump. intros H. destruct (decide (a = k)) as [->|?].
  - rewrite lookup_insert_eq. eauto.
  - by rewrite lookup_insert_ne.
Qed.

Lemma countStates_keeps_keys States stats : forall sc k,
  is_Some (sc !! k) -> is_Some (countStates States stats sc !! k).
Proof.
  induction stats as [|proc stats IH]; intros sc k H; [done|].
  rewrite countStates_cons. by apply IH, bump_keeps_keys.
Qed.

Lemma countStates_Permutation States stats stats' :
  stats ≡ₚ stats' -> forall sc, countStates States stats sc = countStates States stats' sc.
Proof.
  induction 1 as [|proc l l' _ IH|p q l|l l' l'' _ IH1 _ IH2]; intros sc.
  - done.
  - rewrite !countStates_cons. apply IH.
  - rewrite !countStates_cons. by rewrite bump_commute.
  - by rewrite IH1.
Qed.

(** The order in which the initialising loop visits the known states does
    not show in the map. *)
Lemma initStateCount_schedule States sched sched' :
  initStateCount States sched = initStateCount States sched'.
Proof.
  apply map_eq. intros s. rewrite !initStateCount_lookup.
  destruct (decide (s ∈ Values States sched)) as [H|H];
    destruct (decide (s ∈ Values States sched')) as [H'|H']; try done;
    exfalso; rewrite Values_elem in *; done.
Qed.

(** C6. The StateCountMap has every known state as a key; on the empty
    snapshot it maps exactly the known states, each to 0; and it is the same
    map for every permutation of the snapshot. *)
Theorem C6_aggregate_keys_zero_permutation (States : gmap string string)
    (sched : Schedule) (stats : list Proc) :
  (forall s, s ∈ Values States sched -> is_Some (aggregate States sched stats !! s))
  /\ (forall s, aggregate States sched [] !! s
                = if decide (s ∈ Values States sched) then Some 0 else None)
  /\ (forall stats', stats ≡ₚ stats' ->
        aggregate States sched stats' = aggregate States sched stats).
Proof.
  unfold aggregate. repeat split.
  - intros s Hs. apply countStates_keeps_keys.
    rewrite initStateCount_lookup. by rewrite decide_True.
  - intros s. apply initStateCount_lookup.
  - intros stats' Hp. symmetry. by apply countStates_Permutation.
Qed.

(** ** The fully dynamic branch (lines 213-234) *)

Lemma grow_nothing w : grow w [] 0 = w.
Proof. destruct w. unfold grow. simpl. by rewrite app_nil_r. Qed.

Lemma grow_grow w l1 n1 l2 n2 :
  grow (grow w l1 n1) l2 n2 = grow w (l1 ++ l2) (n1 + n2).
Proof.
  unfold grow. simpl. f_equal; [by rewrite app_assoc|lia].
Qed.

Lemma insert_alter {A} (f : A -> A) (l : list A) i x :
  l !! i = Some x -> <[i := f x]> l = alter f i l.
Proof.
  revert i. induction l as [|y l IH]; intros [|i] H; simpl in *; try done.
  - by simplify_eq.
  - f_equal. by apply IH.
Qed.

Lemma store_Value_fresh h a i e v t lg :
  a !! i = Some e ->
  store_Value (length h) i v {| heap := h ++ [a]; ticks := t; log := lg |}
  = (Done tt, {| heap := h ++ [alter (fun e => set_Value e v) i a];
                 ticks := t; log := lg |}).
Proof.
  intros He. unfold store_Value. simpl.
  rewrite list_lookup_middle by done. simpl. rewrite He.
  do 2 f_equal.
  rewrite <- (insert_alter (fun e => set_Value e v) a i e He).
  replace (length h) with (length h + 0)%nat at 1 by lia.
  by rewrite insert_app_r.
Qed.

Lemma at_eq ns i w : at_ ns i w = (index (default [] (heap w !! ns)) i, w).
Proof. reflexivity. Qed.

Lemma bind_M_unfold {A B} (m : M A) (f : A -> M B) w :
  (m ≫= f) w = match m w with
               | (Done a, w') => f a w'
               | (Panicked p, w') => (Panicked p, w')
               end.
Proof. reflexivity. Qed.

(** One step of the loop over the extracted metrics, in every case: the
    leaf [ns[6]] is read first and may be out of range; a metric name other
    than the leaf changes nothing; the leaf's own name appends one metric
    whose namespace is a fresh, filled copy of the requested one. *)
Lemma rangeProcMetrics_cases Now ns proc metrics procMet val w :
  rangeProcMetrics Now ns proc metrics (procMet, val) w =
  let a := default [] (heap w !! ns) in
  match a !! 6%nat with
  | None => (Panicked (IndexOutOfRange 6 (length a)), w)
  | Some leaf =>
      if String.eqb procMet (Value leaf)
      then (Done (metrics ++ [dynamicMetric (length (heap w)) val (Now (ticks w)) procMet]),
            grow w [filled a proc] 1)
      else (Done metrics, w)
  end.
Proof.
  unfold rangeProcMetrics. cbv beta iota zeta.
  set (a := default [] (heap w !! ns)).
  assert (Hload : load ns w = (Done a, w)) by done.
  rewrite bind_M_unfold, at_eq. fold a.
  destruct (a !! 6%nat) as [leaf|] eqn:H6;
    [rewrite (index_Some _ _ _ H6)|by rewrite (index_None _ _ H6)].
  destruct (String.eqb procMet (Value leaf)); [|done].
  destruct (lookup_lt_is_Some_2 a 4) as [e4 H4];
    [apply lookup_lt_Some in H6; lia|].
  destruct (lookup_lt_is_Some_2 a 5) as [e5 H5];
    [apply lookup_lt_Some in H6; lia|].
  rewrite (bind_M_Done _ _ _ _ _ Hload).
  rewrite bind_M_unfold. unfold alloc at 1.
  rewrite bind_M_unfold, (store_Value_fresh _ _ _ _ _ _ _ H4).
  rewrite bind_M_unfold. unfold lift at 1. rewrite index_Split_first.
  rewrite bind_M_unfold. unfold lift at 1. rewrite index_Split_last.
  assert (H5' : alter (fun e => set_Value e (Itoa (Pid proc))) 4%nat a !! 5%nat = Some e5)
    by by rewrite list_lookup_alter_ne.
  rewrite bind_M_unfold, (store_Value_fresh _ _ _ _ _ _ _ H5').
  reflexivity.
Qed.

Lemma grow_lookup w arrays n ns a :
  heap w !! ns = Some a -> heap (grow w arrays n) !! ns = Some a.
Proof. intros H. unfold grow. simpl. by apply lookup_app_l_Some. Qed.

(** The loop over the entries of the extracted map, the leaf in range: at
    most one key is the leaf's name, so at most one metric is appended,
    wherever the schedule puts that key. *)
Lemma range_entries_leaf Now ns proc a leaf (l : list (string * iface)) :
  NoDup l.*1 -> a !! 6%nat = Some leaf ->
  forall metrics w, heap w !! ns = Some a ->
  foldM (rangeProcMetrics Now ns proc) metrics l w =
  match (list_to_map l : gmap string iface) !! Value leaf with
  | Some val =>
      (Done (metrics ++ [dynamicMetric (length (heap w)) val (Now (ticks w)) (Value leaf)]),
       grow w [filled a proc] 1)
  | None => (Done metrics, w)
  end.
Proof.
  intros Hnd H6. induction l as [|[k v] l IH]; intros metrics w Hns; [done|].
  apply NoDup_cons in Hnd as [Hk Hnd].
  cbn [foldM list_to_map foldr]. rewrite bind_M_unfold, rangeProcMetrics_cases.
  cbv zeta. rewrite Hns. cbn [default from_option id]. rewrite H6.
  destruct (String.eqb k (Value leaf)) eqn:Hkl.
  - apply String.eqb_eq in Hkl. subst k. cbn [uncurry].
    rewrite lookup_insert_eq.
    rewrite (IH Hnd _ _ (grow_lookup _ _ _ _ _ Hns)).
    by rewrite (not_elem_of_list_to_map_1 _ _ Hk).
  - apply String.eqb_neq in Hkl. cbn [uncurry].
    rewrite lookup_insert_ne by done. by apply IH.
Qed.

(** The same loop with the leaf out of range: the first entry panics. *)
Lemma range_entries_short Now ns proc (l : list (string * iface)) metrics w :
  default [] (heap w !! ns) !! 6%nat = None ->
  foldM (rangeProcMetrics Now ns proc) metrics l w =
  match l with
  | [] => (Done metrics, w)
  | _ :: _ => (Panicked (IndexOutOfRange 6 (length (default [] (heap w !! ns)))), w)
  end.
Proof.
  intros H6. destruct l as [|[k v] l]; [done|].
  cbn [foldM]. rewrite bind_M_unfold, rangeProcMetrics_cases. cbv zeta.
  by rewrite H6.
Qed.

Lemma list_to_map_range_order {V} sched (m : gmap string V) :
  list_to_map (range_order sched m) = m.
Proof.
  rewrite <- (list_to_map_to_list m) at 2.
  apply list_to_map_proper; [apply range_order_NoDup|apply range_order_perm].
Qed.

Lemma range_order_nil {V} sched (m : gmap string V) :
  range_order sched m = [] <-> m = ∅.
Proof.
  split.
  - intros H. rewrite <- (list_to_map_range_order sched m), H. done.
  - intros ->. pose proof (range_order_perm sched V ∅) as H.
    rewrite map_to_list_empty in H. by apply Permutation_nil_r in H.
Qed.

Lemma range_entries_spec sched Now ns proc metrics m w :
  foldM (rangeProcMetrics Now ns proc) metrics (range_order sched m) w
  = rangeResult Now ns proc metrics m w.
Proof.
  unfold rangeResult. cbv zeta.
  destruct (default [] (heap w !! ns) !! 6%nat) as [leaf|] eqn:H6.
  - destruct (heap w !! ns) as [a|] eqn:Hns; [|done]. cbn [default from_option id] in *.
    rewrite (range_entries_leaf Now ns proc a leaf _ (range_order_NoDup sched m) H6 _ _ Hns).
    by rewrite list_to_map_range_order.
  - rewrite (range_entries_short _ _ _ _ _ _ H6).
    destruct (range_order sched m) as [|kv l] eqn:Hl.
    + apply range_order_nil in Hl. by rewrite decide_True.
    + rewrite decide_False; [done|]. intros Hm.
      apply (range_order_nil sched) in Hm. congruence.
Qed.

(** The initialising loop of [setProcMetrics] builds the same map under
    every schedule, so the extractor does not depend on the schedule. *)
Lemma setProcMetrics_schedule sched sched' proc :
  setProcMetrics sched proc = setProcMetrics sched' proc.
Proof.
  unfold setProcMetrics.
  assert (Hinit :
    foldl (fun (procMetrics : gmap string iface) '(metricName, _) =>
             <[metricName := Int 0]> procMetrics) ∅ (range_order sched metricNames)
    = foldl (fun (procMetrics : gmap string iface) '(metricName, _) =>
               <[metricName := Int 0]> procMetrics) ∅ (range_order sched' metricNames)).
  { apply map_eq. intros k. rewrite !init_lookup.
    destruct (decide (k ∈ (range_order sched metricNames).*1)) as [H|H];
      destruct (decide (k ∈ (range_order sched' metricNames).*1)) as [H'|H'];
      try done; exfalso; rewrite range_order_keys in *; done. }
  cbv zeta. by rewrite Hinit.
Qed.

(** One pass of [for _, proc := range stats]. *)
Lemma rangeStats_cons sched Now ns proc stats metrics w :
  rangeStats sched Now ns (proc :: stats) metrics w =
  match setProcMetrics sched proc with
  | Done m =>
      match rangeResult Now ns proc metrics m w with
      | (Done metrics', w') => rangeStats sched Now ns stats metrics' w'
      | (Panicked p, w') => (Panicked p, w')
      end
  | Panicked p => (Panicked p, w)
  end.
Proof.
  unfold rangeStats. cbn [foldM]. rewrite !bind_M_unfold. unfold lift at 1.
  destruct (setProcMetrics sched proc) as [m|p]; [|done].
  by rewrite range_entries_spec.
Qed.

Lemma rangeStats_nil sched Now ns metrics w :
  rangeStats sched Now ns [] metrics w = (Done metrics, w).
Proof. reflexivity. Qed.

Lemma rangeStats_schedule sched sched' Now ns stats : forall metrics w,
  rangeStats sched Now ns stats metrics w = rangeStats sched' Now ns stats metrics w.
Proof.
  induction stats as [|proc stats IH]; intros metrics w; [done|].
  rewrite !rangeStats_cons, (setProcMetrics_schedule sched sched').
  destruct (setProcMetrics sched' proc); [|done].
  destruct (rangeResult _ _ _ _ _ _) as [[?|?] ?]; [apply IH|done].
Qed.

Lemma extract_declared proc name lbl :
  metricNames !! name = Some lbl -> is_Some (extract proc !! name).
Proof.
  intros H. apply elem_of_dom. rewrite extract_dom. apply elem_of_dom. eauto.
Qed.

Lemma rangeStats_expansion sched Now ns a leaf lbl stats :
  Forall has_layout stats -> a !! 6%nat = Some leaf ->
  metricNames !! Value leaf = Some lbl ->
  forall metrics w, heap w !! ns = Some a ->
  rangeStats sched Now ns stats metrics w
  = (Done (metrics ++ expansion Now w (Value leaf) lbl stats),
     grow w (filled a <$> stats) (length stats)).
Proof.
  intros Hl H6 Hlbl. induction Hl as [|proc stats Hp Hl IH]; intros metrics w Hns.
  - rewrite rangeStats_nil. unfold expansion. cbn [imap fmap list_fmap length].
    by rewrite app_nil_r, grow_nothing.
  - rewrite rangeStats_cons, (setProcMetrics_extract _ _ Hp).
    unfold rangeResult. cbv zeta. rewrite Hns. cbn [default from_option id]. rewrite H6.
    destruct (extract_declared proc _ _ Hlbl) as [val Hval]. rewrite Hval.
    rewrite (IH _ _ (grow_lookup _ _ _ _ _ Hns)).
    rewrite grow_grow. cbn [fmap list_fmap length app Nat.add].
    f_equal. rewrite <- app_assoc. f_equal. cbn [app].
    unfold expansion, dynamicMetric. rewrite imap_cons, Hlbl, Hval.
    cbn [default from_option id]. apply (f_equal (app metrics)).
    apply (f_equal2 (@cons MetricType)).
    + f_equal; first [done | lia].
    + apply imap_ext. intros i p _. cbn [compose grow heap ticks].
      rewrite length_app. cbn [length]. f_equal; first [done | lia | f_equal; lia].
Qed.

(** ** The loop body, case by case *)

Lemma tick_grow w : tick w = grow w [] 1.
Proof. unfold tick, grow. simpl. by rewrite app_nil_r. Qed.

Lemma load_eq ns w : load ns w = (Done (default [] (heap w !! ns)), w).
Proof. reflexivity. Qed.

Lemma ret_M_eq {A} (a : A) w : (mret a : M A) w = (Done a, w).
Proof. reflexivity. Qed.

(** The body of the loop over the requested patterns as a tree of cases. *)
Lemma collectBody_cases States sched Now stats sc metrics mt w :
  collectBody States sched Now stats sc metrics mt w =
  let ns := Namespace_ mt in
  let a := default [] (heap w !! ns) in
  if (length a <? 4)%nat then (Done (Return (None, Some (lengthError (length a)))), w)
  else if (IsDynamic a).1 then
    match index a 4 with
    | Panicked p => (Panicked p, w)
    | Done e4 =>
        if elem_IsDynamic e4 then
          match index a 5 with
          | Panicked p => (Panicked p, w)
          | Done e5 =>
              if elem_IsDynamic e5 then
                match rangeStats sched Now ns stats metrics w with
                | (Done metrics', w') => (Done (Continue metrics'), w')
                | (Panicked p, w') => (Panicked p, w')
                end
              else (Done (Continue metrics), w)
          end
        else (Done (Continue metrics), w)
    end
  else
    match index a 3 with
    | Panicked p => (Panicked p, w)
    | Done e3 =>
        if Contains (Values States sched) (Value e3) then
          match sc !! Value e3 with
          | Some val =>
              (Done (Continue (metrics ++ [stateMetric ns val (Now (ticks w)) (Value e3)])),
               tick w)
          | None => (Done (Continue metrics), w)
          end
        else (Done (Continue metrics), w)
    end.
Proof.
  unfold collectBody. cbv zeta. rewrite bind_M_unfold, load_eq.
  set (a := default [] (heap w !! Namespace_ mt)).
  destruct (length a <? 4)%nat; [done|].
  destruct (IsDynamic a).1.
  - rewrite bind_M_unfold, at_eq. fold a.
    destruct (index a 4) as [e4|p] eqn:H4; [|done].
    destruct (elem_IsDynamic e4) eqn:Hd4.
    + rewrite !bind_M_unfold, at_eq. fold a.
      destruct (index a 5) as [e5|p] eqn:H5; [|done].
      rewrite ret_M_eq.
      destruct (elem_IsDynamic e5).
      * rewrite bind_M_unfold. by destruct (rangeStats _ _ _ _ _ _) as [[?|?] ?].
      * rewrite bind_M_unfold, at_eq. fold a. rewrite H4. cbv beta iota.
        by rewrite Hd4.
    + rewrite bind_M_unfold, ret_M_eq.
      rewrite bind_M_unfold, at_eq. fold a. rewrite H4. cbv beta iota.
      by rewrite Hd4.
  - rewrite bind_M_unfold, at_eq. fold a.
    destruct (index a 3) as [e3|p] eqn:H3; [|done].
    destruct (Contains _ _); [|done].
    rewrite bind_M_unfold, at_eq. fold a. rewrite H3. cbv beta iota.
    by destruct (sc !! Value e3).
Qed.

Lemma existsb_imap_snd {A} (P : A -> bool) (l : list A) : forall (g : nat -> nat),
  existsb (fun p => P p.2) (imap (fun i x => (g i, x)) l) = existsb P l.
Proof.
  induction l as [|x l IH]; intros g; [done|].
  cbn [imap existsb]. f_equal. apply (IH (g ∘ S)).
Qed.

Lemma IsDynamic_fold (l : list (nat * NamespaceElement)) : forall ret idx,
  (foldl (fun '(ret, idx) '(i, e) =>
            if elem_IsDynamic e then (true, idx ++ [i]) else (ret, idx))
         (ret, idx) l).1
  = ret || existsb (fun p => elem_IsDynamic p.2) l.
Proof.
  induction l as [|[i e] l IH]; intros ret idx; cbn [foldl existsb].
  - by rewrite orb_false_r.
  - cbn [snd]. destruct (elem_IsDynamic e); rewrite IH; [|done].
    by rewrite orb_true_r.
Qed.

(** A namespace is dynamic when one of its elements is. *)
Lemma IsDynamic_existsb a : (IsDynamic a).1 = existsb elem_IsDynamic a.
Proof.
  unfold IsDynamic. rewrite IsDynamic_fold. cbn [orb].
  apply (existsb_imap_snd elem_IsDynamic a id).
Qed.

Lemma IsDynamic_elem a i e :
  a !! i = Some e -> elem_IsDynamic e = true -> (IsDynamic a).1 = true.
Proof.
  intros Hi He. rewrite IsDynamic_existsb. apply existsb_exists.
  exists e. split; [|done]. apply list_elem_of_In. by eapply list_elem_of_lookup_2.
Qed.

Lemma Contains_elem l x : Contains l x = true <-> x ∈ l.
Proof.
  unfold Contains. rewrite existsb_exists. split.
  - intros [y [Hy Heq]]. apply String.eqb_eq in Heq. subst. by apply list_elem_of_In.
  - intros H. exists x. split; [by apply list_elem_of_In|apply String.eqb_refl].
Qed.

Lemma Contains_not_elem l x : Contains l x = false <-> x ∉ l.
Proof.
  rewrite <- Contains_elem. by destruct (Contains l x).
Qed.

Lemma Contains_Values_schedule States sched sched' x :
  Contains (Values States sched) x = Contains (Values States sched') x.
Proof.
  destruct (Contains (Values States sched') x) eqn:H.
  - apply Contains_elem. apply Contains_elem in H. by rewrite Values_elem in *.
  - apply Contains_not_elem. apply Contains_not_elem in H. by rewrite Values_elem in *.
Qed.

(** ** The loop over the requested patterns and the whole call *)

Lemma forEach_cons {A B R} (body : B -> A -> M (flow B R)) b x l w :
  forEach body b (x :: l) w =
  match body b x w with
  | (Done (Continue b'), w') => forEach body b' l w'
  | (Done (Return r), w') => (Done (Return r), w')
  | (Panicked p, w') => (Panicked p, w')
  end.
Proof.
  cbn [forEach]. rewrite bind_M_unfold.
  by destruct (body b x w) as [[[?|?]|?] ?].
Qed.

Lemma forEach_nil {A B R} (body : B -> A -> M (flow B R)) b w :
  forEach body b [] w = (Done (Continue b), w).
Proof. reflexivity. Qed.

Lemma logged_logged w e1 e2 : logged (logged w e1) e2 = logged w (e1 ++ e2).
Proof. unfold logged. simpl. by rewrite app_assoc. Qed.

Lemma grow_logged w evs arrays n : grow (logged w evs) arrays n = logged (grow w arrays n) evs.
Proof. reflexivity. Qed.

(** [CollectMetrics] as a tree of cases: the read of [metricTypes[0]], the
    configuration item, the type assertion, the snapshot, then the loop. *)
Lemma CollectMetrics_cases States sched Now GetConfigItem procPlg metricTypes w :
  CollectMetrics States sched Now GetConfigItem procPlg metricTypes w =
  match metricTypes with
  | [] => (Panicked (IndexOutOfRange 0 0), w)
  | first :: _ =>
      let w1 := logged w [CallGetConfigItem first "proc_path"] in
      match GetConfigItem first "proc_path" with
      | (_, Some err) => (Done (None, Some err), w1)
      | (procPath, None) =>
          match assert_string procPath with
          | Panicked p => (Panicked p, w1)
          | Done path =>
              let w2 := logged w1 [CallGetStats path] in
              match GetStats (mc procPlg) path with
              | (_, Some err) => (Done (None, Some (SnapError err)), w2)
              | (stats, None) =>
                  match forEach (collectBody States sched Now stats
                                   (aggregate States sched stats)) [] metricTypes w2 with
                  | (Done (Continue metrics), w') => (Done (Some metrics, None), w')
                  | (Done (Return r), w') => (Done r, w')
                  | (Panicked p, w') => (Panicked p, w')
                  end
              end
          end
      end
  end.
Proof.
  unfold CollectMetrics. rewrite bind_M_unfold. unfold lift at 1.
  destruct metricTypes as [|first rest]; [done|].
  cbn [index lookup list_lookup]. change (index (first :: rest) 0) with (Done first).
  cbv beta iota zeta.
  rewrite bind_M_unfold. unfold call_GetConfigItem. rewrite bind_M_unfold.
  unfold record at 1. rewrite ret_M_eq. cbv beta iota.
  destruct (GetConfigItem first "proc_path") as [procPath [err|]]; [done|].
  rewrite bind_M_unfold. unfold lift at 1.
  destruct (assert_string procPath) as [path|p]; [|done].
  rewrite bind_M_unfold. unfold call_GetStats. rewrite bind_M_unfold.
  unfold record at 1. rewrite ret_M_eq. cbv beta iota.
  destruct (GetStats (mc procPlg) path) as [stats [err|]]; [done|].
  rewrite bind_M_unfold. unfold aggregate.
  by destruct (forEach _ _ _ _) as [[[?|?]|?] ?].
Qed.

Lemma expansion_lookup Now w leafName lbl stats i proc :
  stats !! i = Some proc ->
  expansion Now w leafName lbl stats !! i
  = Some {| Namespace_ := (length (heap w) + i)%nat;
            Config_ := None;
            Data_ := default Nil (extract proc !! leafName);
            Timestamp_ := Now (i + ticks w)%nat;
            Unit_ := unit lbl;
            Description_ := description lbl |}.
Proof. intros H. unfold expansion. by rewrite list_lookup_imap, H. Qed.

Lemma filled_lookups a proc e4 e5 :
  a !! 4%nat = Some e4 -> a !! 5%nat = Some e5 ->
  filled a proc !! 4%nat = Some (set_Value e4 (Itoa (Pid proc)))
  /\ filled a proc !! 5%nat = Some (set_Value e5 (procName (CmdLine proc)))
  /\ length (filled a proc) = length a
  /\ (forall j, j <> 4%nat -> j <> 5%nat -> filled a proc !! j = a !! j).
Proof.
  intros H4 H5. unfold filled. repeat split.
  - by rewrite list_lookup_alter_ne, list_lookup_alter_eq, H4.
  - by rewrite list_lookup_alter_eq, list_lookup_alter_ne, H5.
  - by rewrite !length_alter.
  - intros j ? ?. by rewrite !list_lookup_alter_ne.
Qed.

(** C1 (as amended).  A fully dynamic pattern (elements 4 and 5 dynamic)
    whose element 6 names a declared metric, resolved on a snapshot of
    records with the fixed layout.  Element 6 is where the code looks for the metric name: it
    is the leaf of a pattern of seven elements, as discovery advertises them,
    and the leaf of a longer pattern is not looked at.  The loop body appends
    exactly one metric per process, in snapshot order, and a call with this
    single request returns exactly these metrics.  The i-th one carries the
    value the extractor's mapping holds for the name at element 6, the
    catalog's unit and description, and a fresh copy of the requested
    namespace in which element 4 holds the process id in decimal and element
    5 the last '/'-separated segment of the command line cut at its first NUL
    byte; the other elements are those requested. *)
Theorem C1_fully_dynamic_expansion
    (States : gmap string string) (sched : Schedule) (Now : nat -> Time)
    (GetConfigItem : MetricType -> string -> iface * option error)
    (stats : list Proc) (mt : MetricType) (a : list NamespaceElement)
    (e4 e5 leaf : NamespaceElement) (lbl : label) (w : world) :
  heap w !! Namespace_ mt = Some a ->
  a !! 4%nat = Some e4 -> a !! 5%nat = Some e5 -> a !! 6%nat = Some leaf ->
  elem_IsDynamic e4 = true -> elem_IsDynamic e5 = true ->
  metricNames !! Value leaf = Some lbl ->
  Forall has_layout stats ->
  let emitted := expansion Now w (Value leaf) lbl stats in
  let w' := grow w (filled a <$> stats) (length stats) in
  (forall sc metrics,
      collectBody States sched Now stats sc metrics mt w
      = (Done (Continue (metrics ++ emitted)), w'))
  /\ (forall procPlg path,
        GetConfigItem mt "proc_path" = (Str path, None) ->
        GetStats (mc procPlg) path = (stats, None) ->
        CollectMetrics States sched Now GetConfigItem procPlg [mt] w
        = (Done (Some emitted, None),
           logged w' [CallGetConfigItem mt "proc_path"; CallGetStats path]))
  /\ length emitted = length stats
  /\ (forall i proc, stats !! i = Some proc ->
        exists m procMetrics val nuns,
          emitted !! i = Some m
          /\ setProcMetrics sched proc = Done procMetrics
          /\ procMetrics !! Value leaf = Some val
          /\ Data_ m = val
          /\ Unit_ m = unit lbl /\ Description_ m = description lbl
          /\ heap w' !! Namespace_ m = Some nuns
          /\ nuns !! 4%nat = Some (set_Value e4 (Itoa (Pid proc)))
          /\ nuns !! 5%nat = Some (set_Value e5 (procName (CmdLine proc)))
          /\ length nuns = length a
          /\ (forall j, j <> 4%nat -> j <> 5%nat -> nuns !! j = a !! j))
  /\ (length a = 7%nat -> last a = Some leaf).
Proof.
  intros Hns H4 H5 H6 Hd4 Hd5 Hlbl Hl emitted w'.
  assert (Hbody : forall w0, heap w0 = heap w -> ticks w0 = ticks w ->
            forall sc metrics,
              collectBody States sched Now stats sc metrics mt w0
              = (Done (Continue (metrics ++ emitted)),
                 grow w0 (filled a <$> stats) (length stats))).
  { intros w0 Hh Ht sc metrics. rewrite collectBody_cases. cbv zeta.
    rewrite Hh, Hns. cbn [default from_option id].
    assert (Hlen : (length a <? 4)%nat = false).
    { apply Nat.ltb_ge. apply lookup_lt_Some in H6. lia. }
    rewrite Hlen, (IsDynamic_elem a 4 e4 H4 Hd4).
    rewrite (index_Some _ _ _ H4), Hd4, (index_Some _ _ _ H5), Hd5.
    rewrite (rangeStats_expansion sched Now _ a leaf lbl stats Hl H6 Hlbl)
      by by rewrite Hh.
    unfold emitted, expansion. by rewrite Hh, Ht. }
  split; [|split; [|split; [|split]]].
  5:{ intros H7. by rewrite last_lookup, H7. }
  - intros sc metrics. by apply Hbody.
  - intros procPlg path Hcfg Hstats. rewrite CollectMetrics_cases. cbv zeta.
    rewrite Hcfg. cbn [assert_string]. rewrite Hstats.
    rewrite forEach_cons, Hbody by done. rewrite forEach_nil.
    rewrite logged_logged. cbn [app]. by rewrite grow_logged.
  - unfold emitted, expansion. by rewrite length_imap.
  - intros i proc Hi.
    pose proof (proj1 (Forall_lookup _ _) Hl i proc Hi) as Hp.
    destruct (extract_declared proc _ _ Hlbl) as [val Hval].
    destruct (filled_lookups a proc e4 e5 H4 H5) as (F4 & F5 & Flen & Fj).
    eexists _, (extract proc), val, (filled a proc).
    split; [by apply expansion_lookup|].
    split; [by apply setProcMetrics_extract|].
    split; [done|]. cbn [Data_ Unit_ Description_ Namespace_].
    split; [by rewrite Hval|]. split; [reflexivity|]. split; [reflexivity|].
    split; [|exact (conj F4 (conj F5 (conj Flen Fj)))].
    unfold w', grow. cbn [heap].
    rewrite lookup_app_r by lia.
    replace (length (heap w) + i - length (heap w))%nat with i by lia.
    by rewrite list_lookup_fmap, Hi.
Qed.

(** The example of section 8 of the spec: two processes, leaf [ps_vm]. *)
Lemma C1_section8_example :
  Forall has_layout Examples.snapshot2
  /\ fst (CollectMetrics Examples.States2 Examples.canonical Examples.clock
            Examples.lookupConfig (Examples.plg Examples.snapshot2)
            [Examples.request 0%nat]
            (Examples.world0 [Examples.dynamicNs "ps_vm"]))
     = Done (Some [ {| Namespace_ := 1%nat; Config_ := None; Data_ := Uint64 4096;
                       Timestamp_ := 1000; Unit_ := "B";
                       Description_ := "Virtual memory size in bytes" |};
                    {| Namespace_ := 2%nat; Config_ := None; Data_ := Uint64 8192;
                       Timestamp_ := 1001; Unit_ := "B";
                       Description_ := "Virtual memory size in bytes" |} ],
             None)
  /\ map (map Value)
       (heap (snd (CollectMetrics Examples.States2 Examples.canonical Examples.clock
                     Examples.lookupConfig (Examples.plg Examples.snapshot2)
                     [Examples.request 0%nat]
                     (Examples.world0 [Examples.dynamicNs "ps_vm"]))))
     = [ ["intel"; "procfs"; "processes"; "pid"; "*"; "*"; "ps_vm"];
         ["intel"; "procfs"; "processes"; "pid"; "100"; "foo"; "ps_vm"];
         ["intel"; "procfs"; "processes"; "pid"; "200"; "bar"; "ps_vm"] ].
Proof.
  assert (Hl : Forall has_layout Examples.snapshot2).
  { repeat constructor; unfold has_layout; simpl; lia. }
  split; [exact Hl|].
  destruct (C1_fully_dynamic_expansion Examples.States2 Examples.canonical
              Examples.clock Examples.lookupConfig Examples.snapshot2
              (Examples.request 0%nat) (Examples.dynamicNs "ps_vm") _ _ _ _
              (Examples.world0 [Examples.dynamicNs "ps_vm"])
              eq_refl eq_refl eq_refl eq_refl eq_refl eq_refl eq_refl Hl)
    as (_ & H & _).
  rewrite (H (Examples.plg Examples.snapshot2) "/proc" eq_refl eq_refl).
  split; vm_compute; reflexivity.
Defined.

(** An eight-element pattern whose last element names a declared metric,
    [/intel/procfs/processes/pid/*/*/foo/ps_vm]: the code compares element 6,
    "foo", with the metric names and emits nothing.  And a truncated record
    in the snapshot makes the seven-element pattern of [ps_vm] panic. *)
Lemma C1_leaf_counterexample :
  last (AddStaticElements (take 6 (Examples.dynamicNs "ps_vm")) ["foo"; "ps_vm"])
  = Some {| Value := "ps_vm"; Description := ""; Name := "" |}
  /\ is_Some (metricNames !! "ps_vm")
  /\ fst (CollectMetrics Examples.States2 Examples.canonical Examples.clock
            Examples.lookupConfig (Examples.plg Examples.snapshot2)
            [Examples.request 0%nat]
            (Examples.world0
               [AddStaticElements (take 6 (Examples.dynamicNs "ps_vm")) ["foo"; "ps_vm"]]))
     = Done (Some [], None)
  /\ fst (CollectMetrics Examples.States2 Examples.canonical Examples.clock
            Examples.lookupConfig (Examples.plg [truncated])
            [Examples.request 0%nat]
            (Examples.world0 [Examples.dynamicNs "ps_vm"]))
     = Panicked (IndexOutOfRange 27 25).
Proof.
  split; [reflexivity|]. split; [by eexists|]. split; by vm_compute.
Qed.

Lemma aggregate_known States sched stats s :
  s ∈ Values States sched -> is_Some (aggregate States sched stats !! s).
Proof.
  intros Hs. unfold aggregate. apply countStates_keeps_keys.
  rewrite initStateCount_lookup. by rewrite decide_True.
Qed.

(** C4 (as amended).  A fully static pattern, the state name being looked
    for at element 3.  Element 3 is the leaf of a pattern of four elements, as
    discovery advertises them; the elements after it, the leaf of a longer
    pattern among them, are not looked at.  When element 3 is a known state
    name the loop body appends exactly one metric: its value is the
    StateCountMap entry of that state, its description
    "Number of processes in <state> state", its unit empty, its namespace the
    requested one; a call with this single request returns exactly that
    metric.  When element 3 is not a known state name nothing is appended and
    the call returns no metric and no error. *)
Theorem C4_static_state_count
    (States : gmap string string) (sched : Schedule) (Now : nat -> Time)
    (GetConfigItem : MetricType -> string -> iface * option error)
    (stats : list Proc) (mt : MetricType) (a : list NamespaceElement)
    (e3 : NamespaceElement) (w : world) :
  heap w !! Namespace_ mt = Some a ->
  a !! 3%nat = Some e3 ->
  (IsDynamic a).1 = false ->
  let state := Value e3 in
  (state ∈ Values States sched ->
     exists val,
       aggregate States sched stats !! state = Some val
       /\ (forall metrics,
             collectBody States sched Now stats (aggregate States sched stats) metrics mt w
             = (Done (Continue
                  (metrics ++
                     [ {| Namespace_ := Namespace_ mt;
                          Config_ := None;
                          Data_ := Int val;
                          Timestamp_ := Now (ticks w);
                          Unit_ := "";
                          Description_ := "Number of processes in " +:+ state +:+ " state" |} ])),
                tick w))
       /\ (forall procPlg path,
             GetConfigItem mt "proc_path" = (Str path, None) ->
             GetStats (mc procPlg) path = (stats, None) ->
             CollectMetrics States sched Now GetConfigItem procPlg [mt] w
             = (Done (Some [ {| Namespace_ := Namespace_ mt;
                                Config_ := None;
                                Data_ := Int val;
                                Timestamp_ := Now (ticks w);
                                Unit_ := "";
                                Description_ := "Number of processes in " +:+ state +:+ " state" |} ],
                      None),
                logged (tick w) [CallGetConfigItem mt "proc_path"; CallGetStats path])))
  /\ (state ∉ Values States sched ->
        (forall sc metrics,
            collectBody States sched Now stats sc metrics mt w
            = (Done (Continue metrics), w))
        /\ (forall procPlg path,
              GetConfigItem mt "proc_path" = (Str path, None) ->
              GetStats (mc procPlg) path = (stats, None) ->
              CollectMetrics States sched Now GetConfigItem procPlg [mt] w
              = (Done (Some [], None),
                 logged w [CallGetConfigItem mt "proc_path"; CallGetStats path])))
  /\ (length a = 4%nat -> last a = Some e3).
Proof.
  intros Hns H3 Hst state.
  assert (Hlen : (length a <? 4)%nat = false).
  { apply Nat.ltb_ge. apply lookup_lt_Some in H3. lia. }
  assert (Hbody : forall w0, heap w0 = heap w -> forall sc metrics,
            collectBody States sched Now stats sc metrics mt w0 =
            if Contains (Values States sched) state then
              match sc !! state with
              | Some val =>
                  (Done (Continue (metrics ++
                           [stateMetric (Namespace_ mt) val (Now (ticks w0)) state])),
                   tick w0)
              | None => (Done (Continue metrics), w0)
              end
            else (Done (Continue metrics), w0)).
  { intros w0 Hh sc metrics. rewrite collectBody_cases. cbv zeta.
    rewrite Hh, Hns. cbn [default from_option id].
    by rewrite Hlen, Hst, (index_Some _ _ _ H3). }
  split; [|split].
  3:{ intros H4. by rewrite last_lookup, H4. }
  - intros Hknown.
    destruct (aggregate_known States sched stats state Hknown) as [val Hval].
    apply Contains_elem in Hknown.
    exists val. split; [done|]. split.
    + intros metrics. by rewrite Hbody, Hknown, Hval.
    + intros procPlg path Hcfg Hstats. rewrite CollectMetrics_cases. cbv zeta.
      rewrite Hcfg. cbn [assert_string]. rewrite Hstats.
      rewrite forEach_cons, Hbody, Hknown, Hval by done. rewrite forEach_nil.
      by rewrite logged_logged.
  - intros Hunknown. apply Contains_not_elem in Hunknown. split.
    + intros sc metrics. by rewrite Hbody, Hunknown.
    + intros procPlg path Hcfg Hstats. rewrite CollectMetrics_cases. cbv zeta.
      rewrite Hcfg. cbn [assert_string]. rewrite Hstats.
      rewrite forEach_cons, Hbody, Hunknown by done. rewrite forEach_nil.
      by rewrite logged_logged.
Qed.

(** The example of section 8: with three running and five sleeping
    processes, leaf "running" yields one metric of value 3 and leaf
    "unknownstate" yields none. *)
Lemma C4_section8_example :
  aggregate Examples.States2 Examples.canonical Examples.snapshot8
    = {[ "running" := 3; "sleeping" := 5 ]}
  /\ fst (CollectMetrics Examples.States2 Examples.canonical Examples.clock
            Examples.lookupConfig (Examples.plg Examples.snapshot8)
            [Examples.request 0%nat]
            (Examples.world0 [Examples.staticNs "running"]))
     = Done (Some [ {| Namespace_ := 0%nat; Config_ := None; Data_ := Int 3;
                       Timestamp_ := 1000; Unit_ := "";
                       Description_ := "Number of processes in running state" |} ],
             None)
  /\ fst (CollectMetrics Examples.States2 Examples.canonical Examples.clock
            Examples.lookupConfig (Examples.plg Examples.snapshot8)
            [Examples.request 0%nat]
            (Examples.world0 [Examples.staticNs "unknownstate"]))
     = Done (Some [], None).
Proof.
  split; [by vm_compute|]. split.
  - destruct (C4_static_state_count Examples.States2 Examples.canonical
                Examples.clock Examples.lookupConfig Examples.snapshot8
                (Examples.request 0%nat) (Examples.staticNs "running") _
                (Examples.world0 [Examples.staticNs "running"])
                eq_refl eq_refl eq_refl) as (H & _ & _).
    destruct H as (val & Hval & _ & H).
    { apply Contains_elem. by vm_compute. }
    rewrite (H (Examples.plg Examples.snapshot8) "/proc" eq_refl eq_refl).
    assert (val = 3) as -> by (vm_compute in Hval; congruence).
    reflexivity.
  - destruct (C4_static_state_count Examples.States2 Examples.canonical
                Examples.clock Examples.lookupConfig Examples.snapshot8
                (Examples.request 0%nat) (Examples.staticNs "unknownstate") _
                (Examples.world0 [Examples.staticNs "unknownstate"])
                eq_refl eq_refl eq_refl) as (_ & H & _).
    destruct H as [_ H].
    { apply Contains_not_elem. by vm_compute. }
    by rewrite (H (Examples.plg Examples.snapshot8) "/proc" eq_refl eq_refl).
Defined.

(** Two static patterns of five elements.  In
    [/intel/procfs/processes/running/extra] the leaf is no state name, yet the
    code finds "running" at element 3 and emits its count; in
    [/intel/procfs/processes/extra/running] the leaf is a state name, yet the
    code finds "extra" at element 3 and emits nothing. *)
Lemma C4_leaf_counterexample :
  (IsDynamic (NewNamespace ["intel"; "procfs"; "processes"; "running"; "extra"])).1 = false
  /\ (Value <$> last (NewNamespace ["intel"; "procfs"; "processes"; "running"; "extra"]))
     = Some "extra"
  /\ ("extra" ∉ Values Examples.States2 Examples.canonical)
  /\ fst (CollectMetrics Examples.States2 Examples.canonical Examples.clock
            Examples.lookupConfig (Examples.plg Examples.snapshot2)
            [Examples.request 0%nat]
            (Examples.world0
               [NewNamespace ["intel"; "procfs"; "processes"; "running"; "extra"]]))
     = Done (Some [stateMetric 0%nat 1 1000 "running"], None)
  /\ (Value <$> last (NewNamespace ["intel"; "procfs"; "processes"; "extra"; "running"]))
     = Some "running"
  /\ ("running" ∈ Values Examples.States2 Examples.canonical)
  /\ fst (CollectMetrics Examples.States2 Examples.canonical Examples.clock
            Examples.lookupConfig (Examples.plg Examples.snapshot2)
            [Examples.request 0%nat]
            (Examples.world0
               [NewNamespace ["intel"; "procfs"; "processes"; "extra"; "running"]]))
     = Done (Some [], None).
Proof.
  assert (Hv : Values Examples.States2 Examples.canonical = ["sleeping"; "running"])
    by by vm_compute.
  split; [reflexivity|]. split; [reflexivity|]. split.
  { rewrite Hv. intros H. repeat (apply elem_of_cons in H as [[=]|H]).
    by apply elem_of_nil in H. }
  split; [by vm_compute|]. split; [reflexivity|]. split.
  { rewrite Hv. right. by left. }
  by vm_compute.
Qed.

(** ** What a call leaves behind *)

Lemma extends_refl w : extends w w.
Proof. exists [], 0%nat. by rewrite grow_nothing. Qed.

Lemma extends_trans w1 w2 w3 : extends w1 w2 -> extends w2 w3 -> extends w1 w3.
Proof.
  intros (l1 & n1 & ->) (l2 & n2 & ->). exists (l1 ++ l2), (n2 + n1)%nat.
  unfold grow. simpl. f_equal; [by rewrite app_assoc|lia].
Qed.

Lemma extends_grow w arrays n : extends w (grow w arrays n).
Proof. by exists arrays, n. Qed.

Lemma extends_tick w : extends w (tick w).
Proof. rewrite tick_grow. apply extends_grow. Qed.

Lemma extends_log w w' : extends w w' -> log w' = log w.
Proof. by intros (l & n & ->). Qed.

Lemma extends_lookup w w' ns a :
  extends w w' -> heap w !! ns = Some a -> heap w' !! ns = Some a.
Proof. intros (l & n & ->). apply grow_lookup. Qed.

Lemma extends_heap w w' : extends w w' -> exists fresh, heap w' = heap w ++ fresh.
Proof. intros (l & n & ->). by exists l. Qed.

Lemma rangeResult_extends Now ns proc metrics m w :
  extends w (rangeResult Now ns proc metrics m w).2.
Proof.
  unfold rangeResult. cbv zeta.
  destruct (_ !! 6%nat) as [leaf|].
  - destruct (m !! Value leaf); [apply extends_grow|apply extends_refl].
  - destruct (decide (m = ∅)); apply extends_refl.
Qed.

Lemma rangeStats_extends sched Now ns stats : forall metrics w,
  extends w (rangeStats sched Now ns stats metrics w).2.
Proof.
  induction stats as [|proc stats IH]; intros metrics w; [apply extends_refl|].
  rewrite rangeStats_cons.
  destruct (setProcMetrics sched proc) as [m|p]; [|apply extends_refl].
  pose proof (rangeResult_extends Now ns proc metrics m w) as H.
  destruct (rangeResult Now ns proc metrics m w) as [[metrics'|p] w']; [|done].
  eapply extends_trans; [exact H|apply IH].
Qed.

Lemma collectBody_extends States sched Now stats sc metrics mt w :
  extends w (collectBody States sched Now stats sc metrics mt w).2.
Proof.
  rewrite collectBody_cases. cbv zeta.
  repeat match goal with
  | |- extends _ (_, ?w').2 => first [apply extends_refl | apply extends_tick]
  | |- extends _ (match rangeStats ?s ?N ?ns ?st ?ms ?w0 with _ => _ end).2 =>
      let H := fresh in
      pose proof (rangeStats_extends s N ns st ms w0) as H;
      destruct (rangeStats s N ns st ms w0) as [[?|?] ?]; exact H
  | |- extends _ (match ?x with _ => _ end).2 => destruct x
  | |- extends _ (if ?x then _ else _).2 => destruct x
  end.
Qed.

Lemma forEach_extends States sched Now stats sc mts : forall metrics w,
  extends w (forEach (collectBody States sched Now stats sc) metrics mts w).2.
Proof.
  induction mts as [|mt mts IH]; intros metrics w; [apply extends_refl|].
  rewrite forEach_cons.
  pose proof (collectBody_extends States sched Now stats sc metrics mt w) as H.
  destruct (collectBody _ _ _ _ _ _ _ _) as [[[metrics'|r]|p] w']; [|done..].
  eapply extends_trans; [exact H|apply IH].
Qed.

(** The loop body returns from the function only through the length
    check. *)
Lemma collectBody_Return States sched Now stats sc metrics mt w r w' :
  collectBody States sched Now stats sc metrics mt w = (Done (Return r), w') ->
  let a := default [] (heap w !! Namespace_ mt) in
  (length a < 4)%nat /\ r = (None, Some (lengthError (length a))) /\ w' = w.
Proof.
  rewrite collectBody_cases. cbv zeta.
  destruct (_ <? 4)%nat eqn:Hlen.
  { intros [= <- <-]. apply Nat.ltb_lt in Hlen. done. }
  repeat match goal with
  | |- (match rangeStats ?s ?N ?ns ?st ?ms ?w0 with _ => _ end) = _ -> _ =>
      destruct (rangeStats s N ns st ms w0) as [[?|?] ?]
  | |- (match ?x with _ => _ end) = _ -> _ => destruct x
  | |- (if ?x then _ else _) = _ -> _ => destruct x
  end; discriminate.
Qed.

Lemma collectBody_short States sched Now stats sc metrics mt w a :
  heap w !! Namespace_ mt = Some a -> (length a < 4)%nat ->
  collectBody States sched Now stats sc metrics mt w
  = (Done (Return (None, Some (lengthError (length a)))), w).
Proof.
  intros Hns Hlen. rewrite collectBody_cases. cbv zeta. rewrite Hns.
  cbn [default from_option id]. apply Nat.ltb_lt in Hlen. by rewrite Hlen.
Qed.

Lemma forEach_Return States sched Now stats sc mts : forall metrics w r w',
  forEach (collectBody States sched Now stats sc) metrics mts w = (Done (Return r), w') ->
  exists n, (n < 4)%nat /\ r = (None, Some (lengthError n)).
Proof.
  induction mts as [|mt mts IH]; intros metrics w r w'; [done|].
  rewrite forEach_cons.
  destruct (collectBody _ _ _ _ _ _ _ _) as [[[metrics'|r0]|p] w0] eqn:Hb.
  - apply IH.
  - intros [= <- <-]. apply collectBody_Return in Hb as (? & ? & ?). eauto.
  - discriminate.
Qed.

Lemma forEach_app {A B R} (body : B -> A -> M (flow B R)) l1 l2 : forall b w,
  forEach body b (l1 ++ l2) w =
  match forEach body b l1 w with
  | (Done (Continue b'), w') => forEach body b' l2 w'
  | (Done (Return r), w') => (Done (Return r), w')
  | (Panicked p, w') => (Panicked p, w')
  end.
Proof.
  induction l1 as [|x l1 IH]; intros b w; [done|].
  cbn [app]. rewrite !forEach_cons.
  destruct (body b x w) as [[[b'|r]|p] w']; [apply IH|done..].
Qed.

(** A short pattern makes the loop return the length error, once the loop
    reaches it. *)
Lemma forEach_short_returns States sched Now stats sc w mts :
  Exists (is_short w) mts ->
  forall metrics w0 x w', extends w w0 ->
    forEach (collectBody States sched Now stats sc) metrics mts w0 = (Done x, w') ->
    exists n, (n < 4)%nat /\ x = Return (None, Some (lengthError n)).
Proof.
  induction mts as [|mt mts IH]; intros Hex metrics w0 x w' Hext.
  { by apply Exists_nil in Hex. }
  rewrite forEach_cons.
  destruct (collectBody _ _ _ _ _ _ _ _) as [[[metrics'|r0]|p] w1] eqn:Hb.
  - apply Exists_cons in Hex as [(a & Hns & Hlen)|Hex].
    + rewrite (collectBody_short _ _ _ _ _ _ _ _ a) in Hb;
        [done|by eapply extends_lookup|done].
    + apply IH; [done|]. eapply extends_trans; [exact Hext|].
      pose proof (collectBody_extends States sched Now stats sc metrics mt w0) as H.
      by rewrite Hb in H.
  - intros [= <- <-]. apply collectBody_Return in Hb as (? & -> & ?). eauto.
  - discriminate.
Qed.

(** ** The length check (lines 205-207) *)

(** C2.  What the length check covers and what it misses.  It lets every
    pattern of 4 or more elements through, and a pattern of 4 or more
    elements never makes the call return the length error; but the accesses
    to elements 4, 5 and 6 of a dynamic pattern are not covered by it: with 4
    elements the read of [ns[4]] is out of range, with 5 elements and element
    4 dynamic the read of [ns[5]], and with fewer than 7 elements, elements 4
    and 5 dynamic and a process in the snapshot, the read of [ns[6]]. *)
Theorem C2_length_check_misses_dynamic_patterns
    (States : gmap string string) (sched : Schedule) (Now : nat -> Time)
    (stats : list Proc) (sc : gmap string Z) (metrics : list MetricType)
    (mt : MetricType) (a : list NamespaceElement) (w : world) :
  heap w !! Namespace_ mt = Some a ->
  (4 <= length a)%nat ->
  (IsDynamic a).1 = true ->
  (forall r w', collectBody States sched Now stats sc metrics mt w <> (Done (Return r), w'))
  /\ (length a = 4%nat ->
        collectBody States sched Now stats sc metrics mt w
        = (Panicked (IndexOutOfRange 4 4), w))
  /\ (forall e4, length a = 5%nat -> a !! 4%nat = Some e4 -> elem_IsDynamic e4 = true ->
        collectBody States sched Now stats sc metrics mt w
        = (Panicked (IndexOutOfRange 5 5), w))
  /\ (forall e4 e5 proc rest,
        (length a < 7)%nat -> a !! 4%nat = Some e4 -> a !! 5%nat = Some e5 ->
        elem_IsDynamic e4 = true -> elem_IsDynamic e5 = true ->
        stats = proc :: rest -> has_layout proc ->
        collectBody States sched Now stats sc metrics mt w
        = (Panicked (IndexOutOfRange 6 (length a)), w)).
Proof.
  intros Hns Hlen Hdyn.
  assert (Hlt : (length a <? 4)%nat = false) by by apply Nat.ltb_ge.
  split; [|split; [|split]].
  - intros r w' Hb. apply collectBody_Return in Hb as (Hshort & _).
    rewrite Hns in Hshort. cbn [default from_option id] in Hshort. lia.
  - intros H4. rewrite collectBody_cases. cbv zeta. rewrite Hns.
    cbn [default from_option id]. rewrite Hlt, Hdyn.
    rewrite (index_None a 4) by (apply lookup_ge_None; lia). by rewrite H4.
  - intros e4 H5 H4 Hd4. rewrite collectBody_cases. cbv zeta. rewrite Hns.
    cbn [default from_option id]. rewrite Hlt, Hdyn, (index_Some _ _ _ H4), Hd4.
    rewrite (index_None a 5) by (apply lookup_ge_None; lia). by rewrite H5.
  - intros e4 e5 proc rest H7 H4 H5 Hd4 Hd5 -> Hp.
    rewrite collectBody_cases. cbv zeta. rewrite Hns.
    cbn [default from_option id].
    rewrite Hlt, Hdyn, (index_Some _ _ _ H4), Hd4, (index_Some _ _ _ H5), Hd5.
    rewrite rangeStats_cons, (setProcMetrics_extract _ _ Hp).
    unfold rangeResult. cbv zeta. rewrite Hns. cbn [default from_option id].
    rewrite (proj2 (lookup_ge_None a 6)) by lia.
    rewrite decide_False; [done|].
    intros Hempty. pose proof (extract_lookup_stacksize proc) as Hs.
    by rewrite Hempty, lookup_empty in Hs.
Qed.

(** A request for [/intel/procfs/processes/pid/*] (5 elements, the last one
    dynamic) panics. *)
Lemma C2_failing_request :
  fst (CollectMetrics Examples.States2 Examples.canonical Examples.clock
         Examples.lookupConfig (Examples.plg Examples.snapshot2)
         [Examples.request 0%nat]
         (Examples.world0
            [AddDynamicElement (NewNamespace ["intel"; "procfs"; "processes"; "pid"])
               "process_id" "pid of the running process"]))
  = Panicked (IndexOutOfRange 5 5).
Proof.
  rewrite CollectMetrics_cases. cbv zeta.
  change (Examples.lookupConfig (Examples.request 0%nat) "proc_path")
    with (Str "/proc", @None error).
  cbv beta iota. cbn [assert_string].
  change (GetStats (mc (Examples.plg Examples.snapshot2)) "/proc")
    with (Examples.snapshot2, @None error).
  cbv beta iota. rewrite forEach_cons.
  destruct (C2_length_check_misses_dynamic_patterns Examples.States2
              Examples.canonical Examples.clock Examples.snapshot2
              (aggregate Examples.States2 Examples.canonical Examples.snapshot2) []
              (Examples.request 0%nat)
              (AddDynamicElement (NewNamespace ["intel"; "procfs"; "processes"; "pid"])
                 "process_id" "pid of the running process")
              (logged (logged (Examples.world0
                 [AddDynamicElement (NewNamespace ["intel"; "procfs"; "processes"; "pid"])
                    "process_id" "pid of the running process"])
                 [CallGetConfigItem (Examples.request 0%nat) "proc_path"])
                 [CallGetStats "/proc"])
              eq_refl ltac:(simpl; lia) eq_refl) as (_ & _ & H & _).
  by rewrite (H _ eq_refl eq_refl eq_refl).
Defined.

(** ** The first request (lines 176-183) *)

(** C10. The configuration item is read from [metricTypes[0]] before
    anything else.  On the empty list that read is out of range: the call
    panics, having called nothing.  On a non-empty list the read succeeds:
    the first external call is [GetConfigItem] on the first request, and the
    snapshot is fetched, if at all, after it, at the path it gave. *)
Theorem C10_first_request_read_first
    (States : gmap string string) (sched : Schedule) (Now : nat -> Time)
    (GetConfigItem : MetricType -> string -> iface * option error)
    (procPlg : procPlugin) (w : world) :
  CollectMetrics States sched Now GetConfigItem procPlg [] w
  = (Panicked (IndexOutOfRange 0 0), w)
  /\ (forall first rest,
        exists calls,
          log (CollectMetrics States sched Now GetConfigItem procPlg (first :: rest) w).2
          = log w ++ CallGetConfigItem first "proc_path" :: calls
          /\ (calls = []
              \/ exists path, GetConfigItem first "proc_path" = (Str path, None)
                              /\ calls = [CallGetStats path])).
Proof.
  split; [by rewrite CollectMetrics_cases|].
  intros first rest. rewrite CollectMetrics_cases. cbv zeta.
  destruct (GetConfigItem first "proc_path") as [procPath [err|]] eqn:Hcfg.
  { exists []. split; [done|by left]. }
  destruct procPath as [| | |path]; cbn [assert_string];
    try (exists []; split; [done|by left]).
  exists [CallGetStats path]. split; [|right; eauto].
  destruct (GetStats (mc procPlg) path) as [stats [err|]].
  { cbn [snd logged log]. by rewrite <- app_assoc. }
  pose proof (forEach_extends States sched Now stats (aggregate States sched stats)
                (first :: rest) []
                (logged (logged w [CallGetConfigItem first "proc_path"]) [CallGetStats path]))
    as Hext.
  apply extends_log in Hext.
  destruct (forEach _ _ _ _) as [[[metrics|r]|p] w'];
    cbn [snd] in *; rewrite Hext; cbn [logged log]; by rewrite <- app_assoc.
Qed.

(** ** Examples for the extractor *)

(** A field holding a digit string one above the largest [uint64] fails to
    parse (range error), and [ps_vm] is then 2^64-1, not 0. *)
Lemma C3_overflow_counterexample :
  (ParseUint (field Examples.overflowing 22)).2 = Some ErrRange
  /\ setProcMetrics Examples.canonical Examples.overflowing
     = Done (extract Examples.overflowing)
  /\ extract Examples.overflowing !! "ps_vm" = Some (Uint64 18446744073709551615)
  /\ extract Examples.overflowing !! "ps_vm" <> Some (Uint64 0).
Proof.
  assert (Hvm : extract Examples.overflowing !! "ps_vm"
                = Some (Uint64 18446744073709551615)) by reflexivity.
  split; [reflexivity|]. split.
  - apply setProcMetrics_extract. unfold has_layout. simpl. lia.
  - split; [exact Hvm|]. rewrite Hvm. intros [=].
Qed.

(** A record whose status fields are all text without a digit: all 15 keys,
    every parsed metric 0. *)
Lemma C3_garbled_example :
  has_layout Examples.garbled
  /\ exists m, setProcMetrics Examples.canonical Examples.garbled = Done m
       /\ size m = 15%nat
       /\ m !! "ps_vm" = Some (Uint64 0)
       /\ m !! "ps_rss" = Some (Uint64 0)
       /\ m !! "ps_cputime_user" = Some (Uint64 0)
       /\ m !! "ps_cputime_system" = Some (Uint64 0)
       /\ m !! "ps_pagefaults_min" = Some (Uint64 0)
       /\ m !! "ps_pagefaults_maj" = Some (Uint64 0)
       /\ m !! "ps_stacksize" = Some (Uint64 0)
       /\ m !! "ps_cmd" = Some (Str "odd").
Proof.
  assert (Hl : has_layout Examples.garbled) by (unfold has_layout; simpl; lia).
  split; [exact Hl|].
  destruct (C3_extract_all_keys_lenient Examples.canonical Examples.garbled Hl)
    as (m & Hm & _ & Hsize & Hvm & Hrss & Hu & Hs & Hmin & Hmaj & Hst & _ & _ & _ & _
        & _ & _ & _ & _ & Hcmd).
  exists m. by repeat split.
Defined.

(** Stack boundaries "300" and "1000", in either order: 700. *)
Lemma C7_example :
  has_layout Examples.proc100
  /\ (exists m, setProcMetrics Examples.canonical
                  (with_stack Examples.proc100 "300" "1000") = Done m
                /\ m !! "ps_stacksize" = Some (Uint64 700))
  /\ (exists m, setProcMetrics Examples.canonical
                  (with_stack Examples.proc100 "1000" "300") = Done m
                /\ m !! "ps_stacksize" = Some (Uint64 700)).
Proof.
  assert (Hl : has_layout Examples.proc100) by (unfold has_layout; simpl; lia).
  split; [exact Hl|].
  destruct (C7_stacksize_absolute_difference Examples.canonical Examples.proc100
              "300" "1000" Hl) as (H1 & H2 & _).
  split; [exact H1|exact H2].
Defined.

(** ** Independence of the schedule and of the clock *)

Lemma aggregate_schedule States sched sched' stats :
  aggregate States sched stats = aggregate States sched' stats.
Proof. unfold aggregate. by rewrite (initStateCount_schedule States sched sched'). Qed.

Lemma collectBody_schedule States sched sched' Now stats sc metrics mt w :
  collectBody States sched Now stats sc metrics mt w
  = collectBody States sched' Now stats sc metrics mt w.
Proof.
  rewrite !collectBody_cases. cbv zeta.
  rewrite (rangeStats_schedule sched sched').
  destruct (_ <? 4)%nat; [done|]. destruct (IsDynamic _).1; [done|].
  destruct (index _ 3) as [e3|]; [|done].
  by rewrite (Contains_Values_schedule States sched sched').
Qed.

Lemma forEach_ext {A B R} (body body' : B -> A -> M (flow B R)) l :
  (forall b x w, body b x w = body' b x w) ->
  forall b w, forEach body b l w = forEach body' b l w.
Proof.
  intros Hext. induction l as [|x l IH]; intros b w; [done|].
  rewrite !forEach_cons, Hext.
  destruct (body' b x w) as [[[b'|r]|p] w']; [apply IH|done..].
Qed.

(** The result of a call does not depend on the order maps are ranged in. *)
Lemma CollectMetrics_schedule States sched sched' Now GetConfigItem procPlg mts w :
  CollectMetrics States sched Now GetConfigItem procPlg mts w
  = CollectMetrics States sched' Now GetConfigItem procPlg mts w.
Proof.
  rewrite !CollectMetrics_cases. destruct mts as [|first rest]; [done|]. cbv zeta.
  destruct (GetConfigItem first "proc_path") as [procPath [err|]]; [done|].
  destruct (assert_string procPath) as [path|p]; [|done].
  destruct (GetStats (mc procPlg) path) as [stats [err|]]; [done|].
  rewrite (aggregate_schedule States sched sched').
  by rewrite (forEach_ext _ (collectBody States sched' Now stats
                               (aggregate States sched' stats)) _
                (collectBody_schedule States sched sched' Now stats _)).
Qed.

Lemma alike_snoc P ms ms' m m' :
  alike P ms ms' -> untimed m = untimed m' -> P (Timestamp_ m) (Timestamp_ m') ->
  alike P (ms ++ [m]) (ms' ++ [m']).
Proof. intros H Hu Hp. apply Forall2_app; [done|]. by repeat constructor. Qed.

Lemma alike_eq ms ms' : alike eq ms ms' -> ms = ms'.
Proof.
  induction 1 as [|m m' ms ms' [Hu Ht] _ IH]; [done|]. f_equal; [|done].
  destruct m, m'. unfold untimed in Hu. simpl in *. by simplify_eq.
Qed.

Section clocks.

Variables (P : Time -> Time -> Prop) (Now Now' : nat -> Time).
Hypothesis readings : forall k, P (Now k) (Now' k).

Lemma rangeResult_clock ns proc ms ms' m w :
  alike P ms ms' ->
  agree (alike P) (rangeResult Now ns proc ms m w) (rangeResult Now' ns proc ms' m w).
Proof.
  intros H. unfold rangeResult. cbv zeta.
  destruct (_ !! 6%nat) as [leaf|].
  - destruct (m !! Value leaf); [|done].
    split; [done|]. apply alike_snoc; [done|done|apply readings].
  - by destruct (decide (m = ∅)).
Qed.

Lemma rangeStats_clock sched ns stats : forall ms ms' w,
  alike P ms ms' ->
  agree (alike P) (rangeStats sched Now ns stats ms w) (rangeStats sched Now' ns stats ms' w).
Proof.
  induction stats as [|proc stats IH]; intros ms ms' w H; [done|].
  rewrite !rangeStats_cons.
  destruct (setProcMetrics sched proc) as [m|p]; [|done].
  destruct (rangeResult_clock ns proc ms ms' m w H) as [Hw Hr].
  destruct (rangeResult Now ns proc ms m w) as [[ms1|p1] w1],
           (rangeResult Now' ns proc ms' m w) as [[ms1'|p1'] w1'];
    cbn [fst snd] in *; try done; subst; by apply IH.
Qed.

Lemma collectBody_clock States sched stats sc ms ms' mt w :
  alike P ms ms' ->
  agree (alike_flow P)
        (collectBody States sched Now stats sc ms mt w)
        (collectBody States sched Now' stats sc ms' mt w).
Proof.
  intros H. rewrite !collectBody_cases. cbv zeta.
  destruct (_ <? 4)%nat; [done|]. destruct (IsDynamic _).1.
  - destruct (index _ 4) as [e4|]; [|done].
    destruct (elem_IsDynamic e4); [|done].
    destruct (index _ 5) as [e5|]; [|done].
    destruct (elem_IsDynamic e5); [|done].
    destruct (rangeStats_clock sched (Namespace_ mt) stats ms ms' w H) as [Hw Hr].
    destruct (rangeStats sched Now _ stats ms w) as [[ms1|p1] w1],
             (rangeStats sched Now' _ stats ms' w) as [[ms1'|p1'] w1'];
      cbn [fst snd] in *; try done; subst; done.
  - destruct (index _ 3) as [e3|]; [|done].
    destruct (Contains _ _); [|done].
    destruct (sc !! Value e3); [|done].
    split; [done|]. apply alike_snoc; [done|done|apply readings].
Qed.

Lemma forEach_clock States sched stats sc mts : forall ms ms' w,
  alike P ms ms' ->
  agree (alike_flow P)
        (forEach (collectBody States sched Now stats sc) ms mts w)
        (forEach (collectBody States sched Now' stats sc) ms' mts w).
Proof.
  induction mts as [|mt mts IH]; intros ms ms' w H; [done|].
  rewrite !forEach_cons.
  destruct (collectBody_clock States sched stats sc ms ms' mt w H) as [Hw Hr].
  destruct (collectBody States sched Now stats sc ms mt w) as [[[ms1|r1]|p1] w1],
           (collectBody States sched Now' stats sc ms' mt w) as [[[ms1'|r1']|p1'] w1'];
    cbn [fst snd alike_flow] in *; try done; subst; first [by apply IH | done].
Qed.

Lemma CollectMetrics_clock States sched GetConfigItem procPlg mts w :
  agree (alike_returned P)
        (CollectMetrics States sched Now GetConfigItem procPlg mts w)
        (CollectMetrics States sched Now' GetConfigItem procPlg mts w).
Proof.
  rewrite !CollectMetrics_cases. destruct mts as [|first rest]; [done|]. cbv zeta.
  destruct (GetConfigItem first "proc_path") as [procPath [err|]]; [done|].
  destruct (assert_string procPath) as [path|p]; [|done].
  destruct (GetStats (mc procPlg) path) as [stats [err|]]; [done|].
  match goal with
  | |- context [forEach _ [] ?l ?w0] =>
      destruct (forEach_clock States sched stats (aggregate States sched stats)
                  l [] [] w0 (Forall2_nil_2 _ _ _)) as [Hw Hr]
  end.
  destruct (forEach (collectBody States sched Now _ _) _ _ _) as [[[ms1|r1]|p1] w1] eqn:E1,
           (forEach (collectBody States sched Now' _ _) _ _ _) as [[[ms1'|r1']|p1'] w1'] eqn:E2;
    cbn [fst snd alike_flow] in *; try done; subst.
  apply forEach_Return in E2 as (n & _ & ->). by repeat split.
Qed.

End clocks.

Lemma alike_untimed P ms ms' : alike P ms ms' -> untimed <$> ms = untimed <$> ms'.
Proof.
  induction 1 as [|m m' ms ms' [Hu _] _ IH]; [done|]. cbn [fmap list_fmap].
  by f_equal.
Qed.

(** Arrays that were in the heap before a call are the same after it. *)
Lemma CollectMetrics_heap States sched Now GetConfigItem procPlg mts w :
  exists fresh,
    heap (CollectMetrics States sched Now GetConfigItem procPlg mts w).2 = heap w ++ fresh.
Proof.
  rewrite CollectMetrics_cases. destruct mts as [|first rest].
  { exists []. by rewrite app_nil_r. }
  cbv zeta.
  destruct (GetConfigItem first "proc_path") as [procPath [err|]].
  { exists []. by rewrite app_nil_r. }
  destruct (assert_string procPath) as [path|p].
  2:{ exists []. by rewrite app_nil_r. }
  destruct (GetStats (mc procPlg) path) as [stats [err|]].
  { exists []. by rewrite app_nil_r. }
  pose proof (forEach_extends States sched Now stats (aggregate States sched stats)
                (first :: rest) []
                (logged (logged w [CallGetConfigItem first "proc_path"]) [CallGetStats path]))
    as Hext.
  apply extends_heap in Hext.
  by destruct (forEach _ _ _ _) as [[[metrics|r]|p] w'].
Qed.

(** C9 (as amended).  Two calls on the same requests, configuration and
    data source, started in the same state, agree whatever order the maps are
    ranged in and whatever the clock shows: they return the same metrics in
    the same order but for the timestamps, or the same error, or panic alike,
    and leave the same state behind.  With the same clock readings they agree
    outright.  The arrays that were in the heap before the call, among them
    the requested namespaces, are unchanged after it. *)
Theorem C9_deterministic_up_to_timestamps
    (States : gmap string string) (sched sched' : Schedule) (Now Now' : nat -> Time)
    (GetConfigItem : MetricType -> string -> iface * option error)
    (procPlg : procPlugin) (metricTypes : list MetricType) (w : world) :
  let out := CollectMetrics States sched Now GetConfigItem procPlg metricTypes w in
  let out' := CollectMetrics States sched' Now' GetConfigItem procPlg metricTypes w in
  untimed_result out.1 = untimed_result out'.1
  /\ out.2 = out'.2
  /\ (exists fresh, heap out.2 = heap w ++ fresh)
  /\ ((forall k, Now k = Now' k) -> out = out').
Proof.
  intros out out'. subst out out'.
  rewrite (CollectMetrics_schedule States sched sched' Now).
  split; [|split; [|split]].
  - destruct (CollectMetrics_clock (fun _ _ => True) Now Now' (fun _ => I)
                States sched' GetConfigItem procPlg metricTypes w) as [_ H].
    destruct (CollectMetrics _ _ Now _ _ _ _).1 as [[ms err]|p],
             (CollectMetrics _ _ Now' _ _ _ _).1 as [[ms' err']|p'];
      cbn in *; try done; [|by subst].
    destruct H as [He H]. cbn in He, H. subst err'.
    destruct ms, ms'; try done. cbn [option_map].
    by rewrite (alike_untimed _ _ _ H).
  - by destruct (CollectMetrics_clock (fun _ _ => True) Now Now' (fun _ => I)
                   States sched' GetConfigItem procPlg metricTypes w) as [H _].
  - apply CollectMetrics_heap.
  - intros Heq.
    destruct (CollectMetrics_clock eq Now Now' Heq
                States sched' GetConfigItem procPlg metricTypes w) as [Hw H].
    destruct (CollectMetrics _ _ Now _ _ _ _) as [[[ms err]|p] w1],
             (CollectMetrics _ _ Now' _ _ _ _) as [[[ms' err']|p'] w1'];
      cbn [fst snd] in *; try done; subst w1'; [|by subst p'].
    destruct H as [He H]. cbn in He, H. subst err'.
    destruct ms, ms'; try done. by rewrite (alike_eq _ _ H).
Qed.

(** The same request on the same snapshot at two different times: the
    metrics differ, in their timestamps. *)
Lemma C9_timestamps_differ :
  fst (CollectMetrics Examples.States2 Examples.canonical Examples.clock
         Examples.lookupConfig (Examples.plg Examples.snapshot2)
         [Examples.request 0%nat] (Examples.world0 [Examples.dynamicNs "ps_vm"]))
  <> fst (CollectMetrics Examples.States2 Examples.canonical Examples.later
            Examples.lookupConfig (Examples.plg Examples.snapshot2)
            [Examples.request 0%nat] (Examples.world0 [Examples.dynamicNs "ps_vm"])).
Proof.
  intros H.
  apply (f_equal (fun r => match r with
                           | Done (Some (m :: _), _) => Timestamp_ m
                           | _ => 0
                           end)) in H.
  vm_compute in H. discriminate H.
Qed.

(** ** Discovery: GetMetricTypes *)

(** A loop that allocates one array per element and appends one metric
    type built from it. *)
Lemma foldM_alloc {A} (body : list MetricType -> A -> M (list MetricType))
    (f : A -> list NamespaceElement) (g : A -> loc -> MetricType) :
  (forall acc x w,
      body acc x w = (Done (acc ++ [g x (length (heap w))]), grow w [f x] 0)) ->
  forall l acc w,
    foldM body acc l w
    = (Done (acc ++ imap (fun i x => g x (length (heap w) + i)%nat) l),
       grow w (f <$> l) 0).
Proof.
  intros Hbody. induction l as [|x l IH]; intros acc w.
  - cbn [foldM imap fmap list_fmap]. by rewrite app_nil_r, grow_nothing.
  - cbn [foldM]. rewrite bind_M_unfold, Hbody, IH, grow_grow.
    cbn [fmap list_fmap app Nat.add]. f_equal. apply (f_equal Done).
    rewrite <- app_assoc. apply (f_equal (app acc)). rewrite imap_cons. cbn [app].
    apply (f_equal2 cons); [by rewrite Nat.add_0_r|].
    apply imap_ext. intros i y _. cbn [compose grow heap].
    rewrite length_app. cbn [length]. f_equal. lia.
Qed.

Lemma patterns_of_imap {A} (g : A -> loc -> MetricType) (f : A -> list NamespaceElement)
    (l : list A) pre post t lg :
  (forall x n, Namespace_ (g x n) = n) ->
  patterns_of {| heap := pre ++ (f <$> l) ++ post; ticks := t; log := lg |}
              (imap (fun i x => g x (length pre + i)%nat) l)
  = f <$> l.
Proof.
  intros Hg. unfold patterns_of. cbn [heap].
  apply list_eq. intros i.
  rewrite list_lookup_fmap. rewrite (list_lookup_fmap f l i).
  rewrite list_lookup_imap.
  destruct (l !! i) as [x|] eqn:Hi; [|done]. cbn [fmap option_fmap option_map].
  rewrite Hg. f_equal.
  rewrite lookup_app_r by lia.
  replace (length pre + i - length pre)%nat with i by lia.
  rewrite lookup_app_l by (rewrite length_fmap; by eapply lookup_lt_Some).
  by rewrite list_lookup_fmap, Hi.
Qed.

(** What discovery returns: one metric type per metric name, in the order
    the schedule ranges over the catalog, then one per known state; each with
    a freshly allocated namespace. *)
Lemma GetMetricTypes_eq States sched procPlg cfg w :
  let names := (range_order sched metricNames).*1 in
  let states := Values States sched in
  exists metricTypes,
    GetMetricTypes States sched procPlg cfg w
    = (Done (metricTypes, None),
       grow w ((dynamicPattern <$> names) ++ (statePattern <$> states)) 0)
    /\ patterns_of (grow w ((dynamicPattern <$> names) ++ (statePattern <$> states)) 0)
                   metricTypes
       = (dynamicPattern <$> names) ++ (statePattern <$> states)
    /\ Namespace_ <$> metricTypes
       = seq (length (heap w)) (length names + length states).
Proof.
  intros names states. unfold GetMetricTypes. cbv zeta.
  rewrite bind_M_unfold.
  rewrite (foldM_alloc _
             (fun kv : string * label => dynamicPattern kv.1)
             (fun kv ns => {| Namespace_ := ns; Config_ := ConfigDataNode cfg;
                              Data_ := Nil; Timestamp_ := zeroTime;
                              Unit_ := unit kv.2; Description_ := description kv.2 |}))
    by (by intros acc [name lbl] w0).
  rewrite bind_M_unfold.
  rewrite (foldM_alloc _ statePattern
             (fun state ns => {| Namespace_ := ns; Config_ := ConfigDataNode cfg;
                                 Data_ := Nil; Timestamp_ := zeroTime;
                                 Unit_ := "";
                                 Description_ := "Number of processes in " +:+ state +:+ " state" |}))
    by done.
  rewrite ret_M_eq, grow_grow. cbn [Nat.add app].
  subst names states. rewrite <- !list_fmap_compose.
  change (fun kv : string * label => dynamicPattern kv.1) with (dynamicPattern ∘ (fst : string * label -> string)).
  eexists. split; [reflexivity|]. split.
  - unfold patterns_of. rewrite map_app. f_equal.
    + set (g := fun (kv : string * label) ns =>
                  {| Namespace_ := ns; Config_ := ConfigDataNode cfg;
                     Data_ := Nil; Timestamp_ := zeroTime;
                     Unit_ := unit kv.2; Description_ := description kv.2 |}).
      pose proof (patterns_of_imap g (dynamicPattern ∘ (fst : string * label -> string))
                    (range_order sched metricNames) (heap w)
                    (statePattern <$> Values States sched) 0 (log w)
                    (fun _ _ => eq_refl)) as H.
      unfold patterns_of in H. cbn [heap] in H. unfold grow. cbn [heap].
      exact H.
    + set (g := fun (state : string) ns =>
                  {| Namespace_ := ns; Config_ := ConfigDataNode cfg;
                     Data_ := Nil; Timestamp_ := zeroTime; Unit_ := "";
                     Description_ := "Number of processes in " +:+ state +:+ " state" |}).
      pose proof (patterns_of_imap g statePattern (Values States sched)
                    (heap w ++ ((dynamicPattern ∘ (fst : string * label -> string)) <$> range_order sched metricNames))
                    [] 0 (log w) (fun _ _ => eq_refl)) as H.
      unfold patterns_of in H. cbn [heap] in H. unfold grow. cbn [heap].
      rewrite app_nil_r, <- app_assoc in H. exact H.
  - rewrite fmap_app, seq_app. f_equal.
    + apply list_eq. intros i. rewrite list_lookup_fmap, list_lookup_imap.
      rewrite length_fmap.
      destruct (range_order sched metricNames !! i) as [kv|] eqn:Hi.
      * cbn. symmetry. apply lookup_seq. split; [done|]. by eapply lookup_lt_Some.
      * cbn. symmetry. apply lookup_ge_None. rewrite length_seq.
        by apply lookup_ge_None in Hi.
    + apply list_eq. intros i. rewrite list_lookup_fmap, list_lookup_imap.
      cbn [grow heap]. rewrite length_app, !length_fmap.
      destruct (Values States sched !! i) as [s|] eqn:Hi.
      * cbn. symmetry. apply lookup_seq. split; [lia|]. by eapply lookup_lt_Some.
      * cbn. symmetry. apply lookup_ge_None. rewrite length_seq.
        by apply lookup_ge_None in Hi.
Qed.

#[local] Instance dynamicPattern_inj : Inj (=) (=) dynamicPattern.
Proof. intros x y H. unfold dynamicPattern, static in H. by simplify_eq. Qed.

#[local] Instance statePattern_inj : Inj (=) (=) statePattern.
Proof. intros x y H. unfold statePattern, static in H. by simplify_eq. Qed.

Lemma length_range_order {V} sched (m : gmap string V) :
  length (range_order sched m) = size m.
Proof. by rewrite (range_order_perm sched V m), length_map_to_list. Qed.

(** C8. Discovery never fails and, the known state names being pairwise
    distinct, advertises: for every declared metric name exactly one pattern,
    made of the static prefix intel/procfs/processes/pid, a dynamic process-id
    element, a dynamic process-name element and the metric name as static
    leaf; for every known state exactly one pattern,
    intel/procfs/processes/<state>, with no dynamic element; no pattern
    twice, and nothing else. *)
Theorem C8_discovery_patterns
    (States : gmap string string) (sched : Schedule) (procPlg : procPlugin)
    (cfg : ConfigType) (w : world) :
  NoDup (Values States sched) ->
  exists metricTypes w',
    GetMetricTypes States sched procPlg cfg w = (Done (metricTypes, None), w')
    /\ NoDup (patterns_of w' metricTypes)
    /\ (forall p, p ∈ patterns_of w' metricTypes <->
          (exists metricName, is_Some (metricNames !! metricName)
                              /\ p = dynamicPattern metricName)
          \/ (exists state, state ∈ Values States sched /\ p = statePattern state))
    /\ length (patterns_of w' metricTypes) = (15 + length (Values States sched))%nat
    /\ (forall metricName,
          elem_IsDynamic <$> dynamicPattern metricName
          = [false; false; false; false; true; true; false]
          /\ Value <$> last (dynamicPattern metricName) = Some metricName)
    /\ (forall state,
          (IsDynamic (statePattern state)).1 = false
          /\ Value <$> last (statePattern state) = Some state).
Proof.
  intros Hnd.
  destruct (GetMetricTypes_eq States sched procPlg cfg w) as (mts & Hrun & Hpat & _).
  cbv zeta in *. exists mts. eexists. split; [exact Hrun|].
  rewrite Hpat. split; [|split; [|split; [|split]]].
  - apply NoDup_app. split; [|split].
    + apply (NoDup_fmap_2 _), range_order_NoDup.
    + intros p Hp Hp'. apply list_elem_of_fmap in Hp as (name & -> & _).
      apply list_elem_of_fmap in Hp' as (state & Heq & _). discriminate Heq.
    + by apply (NoDup_fmap_2 _).
  - intros p. rewrite elem_of_app, !list_elem_of_fmap. split.
    + intros [(name & -> & Hname)|(state & -> & Hstate)]; [left|right; eauto].
      exists name. split; [|done]. by apply (range_order_keys sched).
    + intros [(name & Hname & ->)|(state & Hstate & ->)]; [left|right; eauto].
      exists name. split; [done|]. by apply (range_order_keys sched).
  - rewrite length_app, !length_fmap, length_range_order. reflexivity.
  - done.
  - done.
Qed.

(** Discovery with the two states "running" and "sleeping": 17 patterns,
    among them the one for [ps_vm] and the one for "running". *)
Lemma C8_example :
  NoDup (Values Examples.States2 Examples.canonical)
  /\ exists metricTypes w',
       GetMetricTypes Examples.States2 Examples.canonical
         (Examples.plg Examples.snapshot2) {| ConfigDataNode := Examples.procConfig |}
         (Examples.world0 [])
       = (Done (metricTypes, None), w')
       /\ length (patterns_of w' metricTypes) = 17%nat
       /\ NoDup (patterns_of w' metricTypes)
       /\ dynamicPattern "ps_vm" ∈ patterns_of w' metricTypes
       /\ statePattern "running" ∈ patterns_of w' metricTypes.
Proof.
  assert (Hnd : NoDup (Values Examples.States2 Examples.canonical)).
  { assert (Hv : Values Examples.States2 Examples.canonical = ["sleeping"; "running"])
      by (vm_compute; reflexivity).
    rewrite Hv. repeat constructor; intros H;
      repeat (apply elem_of_cons in H as [H|H]; [discriminate|]);
      by apply elem_of_nil in H. }
  split; [exact Hnd|].
  destruct (C8_discovery_patterns Examples.States2 Examples.canonical
              (Examples.plg Examples.snapshot2)
              {| ConfigDataNode := Examples.procConfig |} (Examples.world0 []) Hnd)
    as (mts & w' & Hrun & Hnd' & Hin & Hlen & _).
  exists mts, w'. split; [exact Hrun|]. split; [exact Hlen|]. split; [exact Hnd'|].
  split; apply Hin.
  - left. exists "ps_vm". split; [|done]. by eexists.
  - right. exists "running". split; [|done].
    apply Values_elem. by exists "R".
Defined.

(** * Further properties of the code *)

(** ** The extractor at its edges (lines 260-307) *)

(** X1. A record with fewer than 29 status fields makes [setProcMetrics]
    panic, at the first field it reads that is not there: the fields are read
    in the order 22, 23, 27, 28, so the index reported is 22 for up to 22
    fields, 23 for 23 fields, 27 for 24 to 27 fields and 28 for 28 fields. *)
Theorem X1_setProcMetrics_panics_at_first_missing_field
    (sched : Schedule) (proc : Proc) :
  (length (Stat proc) < 29)%nat ->
  setProcMetrics sched proc
  = Panicked (IndexOutOfRange (first_missing (length (Stat proc))) (length (Stat proc))).
Proof.
  intros Hlen. unfold setProcMetrics.
  repeat match goal with
  | |- context [index (Stat proc) ?i] =>
      let H := fresh "Hi" in
      destruct (Stat proc !! i) as [?s|] eqn:H;
      [rewrite (index_Some _ _ _ H); simpl
      |rewrite (index_None _ _ H); simpl; do 2 f_equal;
       apply lookup_ge_None in H;
       repeat match goal with
       | H' : Stat proc !! _ = Some _ |- _ => apply lookup_lt_Some in H'
       end;
       unfold first_missing;
       repeat match goal with
       | |- context [(?a <=? ?b)%nat] => destruct (Nat.leb_spec a b)
       end; lia]
  end.
  match goal with
  | H : Stat proc !! 28%nat = Some _ |- _ => apply lookup_lt_Some in H; lia
  end.
Qed.

Lemma X1_example :
  (length (Stat {| Pid := 1; State := "R"; Stat := replicate 25 "0"; VmData := 0;
                   VmCode := 0; Cmd := ""; CmdLine := ""; Io := ∅ |}) < 29)%nat
  /\ setProcMetrics Examples.canonical
       {| Pid := 1; State := "R"; Stat := replicate 25 "0"; VmData := 0;
          VmCode := 0; Cmd := ""; CmdLine := ""; Io := ∅ |}
     = Panicked (IndexOutOfRange 27 25).
Proof.
  assert (H : (length (Stat {| Pid := 1; State := "R"; Stat := replicate 25 "0";
                               VmData := 0; VmCode := 0; Cmd := ""; CmdLine := "";
                               Io := ∅ |}) < 29)%nat) by (simpl; lia).
  split; [exact H|].
  exact (X1_setProcMetrics_panics_at_first_missing_field Examples.canonical _ H).
Defined.

(** X2. What the values of the extracted mapping are, on a record with
    the fixed layout.  The seven metrics read from status fields (the stack
    size among them) are [uint64] values between 0 and 2^64-1, whatever the
    text of the fields.  When the record's own numbers, its segment sizes and
    I/O counters, are within that range too, every value of the mapping is a
    [uint64] between 0 and 2^64-1 or, under [ps_cmd_line] and [ps_cmd] only,
    a string: none is the [int] 0 the first loop wrote. *)
Theorem X2_extracted_values_are_uint64_or_string (sched : Schedule) (proc : Proc) :
  has_layout proc ->
  exists m, setProcMetrics sched proc = Done m
    /\ (forall k, k ∈ ["ps_vm"; "ps_rss"; "ps_stacksize"; "ps_cputime_user";
                       "ps_cputime_system"; "ps_pagefaults_min"; "ps_pagefaults_maj"] ->
          exists z, m !! k = Some (Uint64 z) /\ 0 <= z <= maxUint64)
    /\ (fits_uint64 proc ->
        forall k v, m !! k = Some v ->
          (exists z, v = Uint64 z /\ 0 <= z <= maxUint64) \/
          (exists s, v = Str s /\ (k = "ps_cmd_line" \/ k = "ps_cmd"))).
Proof.
  intros Hl. exists (extract proc). split; [by apply setProcMetrics_extract|].
  assert (Hp : forall i, 0 <= parsed proc i <= maxUint64)
    by (intros i; apply ParseUint_range).
  pose proof (Hp 27%nat) as H27. pose proof (Hp 28%nat) as H28.
  split.
  - intros k Hk.
    repeat (apply elem_of_cons in Hk as [->|Hk]);
      [..|by apply elem_of_nil in Hk];
      unfold extract; cbn [list_to_map foldr uncurry];
      lookup_chain; eexists; (split; [reflexivity|]); first [apply Hp | lia].
  - intros (Hd & Hc & Hio) k v.
    assert (Hcounter : forall key, 0 <= default 0 (Io proc !! key) <= maxUint64).
    { intros key. destruct (Io proc !! key) as [z|] eqn:Hz; cbn [default from_option id].
      - by apply (Hio key).
      - rewrite maxUint64_eq. lia. }
    unfold extract. cbn [list_to_map foldr uncurry].
    repeat match goal with
    | |- <[?key := _]> _ !! k = _ -> _ =>
        destruct (decide (k = key)) as [->|?];
        [rewrite lookup_insert_eq; intros [= <-];
         first [ left; eexists; split; [reflexivity|];
                 first [apply Hp | apply Hcounter | done | lia]
               | right; eauto ]
        |rewrite (lookup_insert_ne _ key k) by congruence]
    end.
    by rewrite lookup_empty.
Qed.

(** X3. The extracted mapping depends on nothing but the eight status
    fields read, the two segment sizes, the command, the command line and the
    four I/O counters: two records that agree on these, whatever their
    process ids, state codes and other status fields, give the same mapping. *)
Theorem X3_extraction_reads_only_its_sources (sched : Schedule) (p q : Proc) :
  has_layout p -> has_layout q ->
  (forall i, i ∈ [9; 11; 13; 14; 22; 23; 27; 28]%nat -> Stat p !! i = Stat q !! i) ->
  VmData p = VmData q -> VmCode p = VmCode q ->
  Cmd p = Cmd q -> CmdLine p = CmdLine q ->
  (forall key, key ∈ ["rchar"; "wchar"; "syscr"; "syscw"] -> Io p !! key = Io q !! key) ->
  setProcMetrics sched p = setProcMetrics sched q.
Proof.
  intros Hp Hq Hstat Hd Hc Hcmd Hline Hio.
  rewrite !setProcMetrics_extract by done. f_equal.
  assert (Hpar : forall i, i ∈ [9; 11; 13; 14; 22; 23; 27; 28]%nat ->
                   parsed p i = parsed q i).
  { intros i Hi. unfold parsed, field. by rewrite (Hstat i Hi). }
  unfold extract.
  rewrite !Hpar by (repeat first [by left | right]).
  rewrite !Hio by (repeat first [by left | right]).
  by rewrite Hd, Hc, Hcmd, Hline.
Qed.

Lemma X2_example :
  has_layout Examples.proc100
  /\ exists m, setProcMetrics Examples.canonical Examples.proc100 = Done m
       /\ m !! "ps_vm" = Some (Uint64 4096)
       /\ (exists z, m !! "ps_stacksize" = Some (Uint64 z) /\ 0 <= z <= maxUint64)
       /\ (forall k v, m !! k = Some v ->
             (exists z, v = Uint64 z /\ 0 <= z <= maxUint64) \/
             (exists s, v = Str s /\ (k = "ps_cmd_line" \/ k = "ps_cmd"))).
Proof.
  assert (Hl : has_layout Examples.proc100) by (unfold has_layout; simpl; lia).
  assert (Hfit : fits_uint64 Examples.proc100).
  { unfold fits_uint64. rewrite maxUint64_eq. cbn [Examples.proc100 VmData VmCode Io].
    split; [lia|]. split; [lia|]. intros key z Hz.
    apply lookup_singleton_Some in Hz as [_ <-]. lia. }
  split; [exact Hl|].
  destruct (X2_extracted_values_are_uint64_or_string Examples.canonical
              Examples.proc100 Hl) as (m & Hm & Hparsed & Hall).
  exists m. split; [exact Hm|]. split; [|split].
  - rewrite (setProcMetrics_extract _ _ Hl) in Hm. injection Hm as <-. reflexivity.
  - apply Hparsed. do 2 right. by left.
  - exact (Hall Hfit).
Defined.

(** The same record under another process id, state code and first status
    field. *)
Lemma X3_example :
  setProcMetrics Examples.canonical Examples.proc100
  = setProcMetrics Examples.canonical
      {| Pid := 4242; State := "Z";
         Stat := <[0%nat := "4242"]> (Stat Examples.proc100);
         VmData := 10; VmCode := 20; Cmd := "foo";
         CmdLine := CmdLine Examples.proc100; Io := Io Examples.proc100 |}.
Proof.
  apply X3_extraction_reads_only_its_sources; try reflexivity.
  - unfold has_layout. simpl. lia.
  - unfold has_layout. simpl. lia.
  - intros i Hi.
    repeat (apply elem_of_cons in Hi as [->|Hi]); [reflexivity..|].
    by apply elem_of_nil in Hi.
Defined.

(** ** What the counting loop counts (lines 185-200) *)

Lemma wrap_int_add_l a b : wrap_int (wrap_int a + b) = wrap_int (a + b).
Proof.
  unfold wrap_int. f_equal.
  replace ((a + 2 ^ 63) mod 2 ^ 64 - 2 ^ 63 + b + 2 ^ 63)
    with ((a + 2 ^ 63) mod 2 ^ 64 + b) by lia.
  rewrite Zplus_mod_idemp_l. f_equal. lia.
Qed.

Lemma wrap_int_small z : - 2 ^ 63 <= z < 2 ^ 63 -> wrap_int z = z.
Proof. intros H. unfold wrap_int. rewrite Z.mod_small; lia. Qed.

Lemma filed_under_cons States name proc stats :
  filed_under States name (proc :: stats)
  = if decide (stateNameOf States proc = name)
    then S (filed_under States name stats) else filed_under States name stats.
Proof.
  unfold filed_under. rewrite filter_cons. by destruct (decide _).
Qed.

(** The entry of [name] after the counting loop, from its entry before. *)
Lemma countStates_lookup States stats : forall sc name,
  countStates States stats sc !! name =
  match filed_under States name stats with
  | O => sc !! name
  | S n => Some (wrap_int (default 0 (sc !! name) + Z.of_nat (S n)))
  end.
Proof.
  induction stats as [|proc stats IH]; intros sc name; [done|].
  rewrite countStates_cons, IH, filed_under_cons. fold (stateNameOf States proc).
  unfold bump.
  destruct (decide (stateNameOf States proc = name)) as [->|Hne].
  - rewrite lookup_insert_eq. cbn [default from_option id].
    destruct (filed_under States _ stats) as [|n].
    + do 2 f_equal.
    + rewrite wrap_int_add_l. do 2 f_equal. lia.
  - by rewrite lookup_insert_ne.
Qed.

(** X4. The StateCountMap holds, for every name, the number of records of
    the snapshot filed under it (as a 64-bit [int]; the number itself below
    2^63): a known state name always has an entry, 0 when no record is filed
    under it, and any other name has an entry only when some record is filed
    under it. *)
Theorem X4_state_counts_count (States : gmap string string) (sched : Schedule)
    (stats : list Proc) (name : string) :
  aggregate States sched stats !! name
  = (if decide (name ∈ Values States sched)
     then Some (wrap_int (Z.of_nat (filed_under States name stats)))
     else if decide (filed_under States name stats = O) then None
     else Some (wrap_int (Z.of_nat (filed_under States name stats))))
  /\ (Z.of_nat (filed_under States name stats) < 2 ^ 63 ->
      wrap_int (Z.of_nat (filed_under States name stats))
      = Z.of_nat (filed_under States name stats)).
Proof.
  unfold aggregate. rewrite countStates_lookup, initStateCount_lookup. split.
  - destruct (decide (name ∈ Values States sched));
      by destruct (filed_under States name stats).
  - intros Hn. apply wrap_int_small. lia.
Qed.

Lemma countStates_bump States stats : forall sc name,
  countStates States stats (bump name sc) = bump name (countStates States stats sc).
Proof.
  induction stats as [|proc stats IH]; intros sc name; [done|].
  rewrite !countStates_cons. by rewrite bump_commute, IH.
Qed.

(** X5. A record whose state code has no entry in [States] is counted
    under the empty name: it adds one to the entry of "" (creating it when it
    is not there) and leaves every other entry of the StateCountMap as it
    is. *)
Theorem X5_unknown_state_code_counts_under_empty_name
    (States : gmap string string) (sched : Schedule) (proc : Proc) (stats : list Proc) :
  States !! State proc = None ->
  aggregate States sched (proc :: stats) !! ""
  = Some (wrap_int (default 0 (aggregate States sched stats !! "") + 1))
  /\ (forall name, name <> "" ->
        aggregate States sched (proc :: stats) !! name
        = aggregate States sched stats !! name).
Proof.
  intros Hcode. unfold aggregate. rewrite countStates_cons, Hcode.
  cbn [default from_option id]. rewrite countStates_bump. unfold bump. split.
  - by rewrite lookup_insert_eq.
  - intros name Hne. by rewrite lookup_insert_ne.
Qed.

(** A zombie among two known states. *)
Lemma X5_example :
  Examples.States2 !! "Z" = None
  /\ aggregate Examples.States2 Examples.canonical
       ({| Pid := 9; State := "Z"; Stat := []; VmData := 0; VmCode := 0;
           Cmd := ""; CmdLine := ""; Io := ∅ |} :: Examples.snapshot2) !! ""
     = Some 1
  /\ aggregate Examples.States2 Examples.canonical
       ({| Pid := 9; State := "Z"; Stat := []; VmData := 0; VmCode := 0;
           Cmd := ""; CmdLine := ""; Io := ∅ |} :: Examples.snapshot2) !! "running"
     = Some 1.
Proof.
  assert (Hz : Examples.States2 !! "Z" = None) by reflexivity.
  split; [exact Hz|].
  destruct (X5_unknown_state_code_counts_under_empty_name Examples.States2
              Examples.canonical
              {| Pid := 9; State := "Z"; Stat := []; VmData := 0; VmCode := 0;
                 Cmd := ""; CmdLine := ""; Io := ∅ |} Examples.snapshot2 Hz)
    as [H0 Hother].
  split.
  - rewrite H0. reflexivity.
  - rewrite Hother by discriminate. reflexivity.
Defined.

(** ** The dispatch on dynamic patterns (lines 209-240) *)

(** X6. A dynamic pattern of which element 4 is static, or element 4 is
    dynamic and element 5 static, falls into one of the two empty branches:
    the loop body adds no metric, allocates nothing and does not read the
    clock, whatever the snapshot and the leaf. *)
Theorem X6_partially_dynamic_pattern_emits_nothing
    (States : gmap string string) (sched : Schedule) (Now : nat -> Time)
    (stats : list Proc) (sc : gmap string Z) (metrics : list MetricType)
    (mt : MetricType) (a : list NamespaceElement) (e4 : NamespaceElement) (w : world) :
  heap w !! Namespace_ mt = Some a ->
  (IsDynamic a).1 = true ->
  a !! 4%nat = Some e4 ->
  (elem_IsDynamic e4 = false
   \/ exists e5, a !! 5%nat = Some e5 /\ elem_IsDynamic e5 = false) ->
  collectBody States sched Now stats sc metrics mt w = (Done (Continue metrics), w).
Proof.
  intros Hns Hdyn H4 Hpart. rewrite collectBody_cases. cbv zeta.
  rewrite Hns. cbn [default from_option id].
  assert (Hlen : (length a <? 4)%nat = false).
  { apply Nat.ltb_ge. apply lookup_lt_Some in H4. lia. }
  rewrite Hlen, Hdyn, (index_Some _ _ _ H4).
  destruct Hpart as [Hs4|(e5 & H5 & Hs5)].
  - by rewrite Hs4.
  - rewrite (index_Some _ _ _ H5), Hs5. by destruct (elem_IsDynamic e4).
Qed.

(** Only the process id dynamic, on the two-process snapshot. *)
Lemma X6_example :
  collectBody Examples.States2 Examples.canonical Examples.clock Examples.snapshot2
    ∅ [] (Examples.request 0%nat) (Examples.world0 [pidOnlyNs "ps_vm"])
  = (Done (Continue []), Examples.world0 [pidOnlyNs "ps_vm"]).
Proof.
  apply (X6_partially_dynamic_pattern_emits_nothing _ _ _ _ _ _ _
           (pidOnlyNs "ps_vm")
           {| Value := "*"; Description := "pid of the running process";
              Name := "process_id" |}); [reflexivity..|].
  right. by eexists.
Defined.

Lemma rangeStats_undeclared sched Now ns a leaf stats :
  Forall has_layout stats -> a !! 6%nat = Some leaf ->
  metricNames !! Value leaf = None ->
  forall metrics w, heap w !! ns = Some a ->
  rangeStats sched Now ns stats metrics w = (Done metrics, w).
Proof.
  intros Hl H6 Hnone. induction Hl as [|proc stats Hp Hl IH]; intros metrics w Hns.
  - apply rangeStats_nil.
  - rewrite rangeStats_cons, (setProcMetrics_extract _ _ Hp).
    unfold rangeResult. cbv zeta. rewrite Hns. cbn [default from_option id]. rewrite H6.
    assert (Hex : extract proc !! Value leaf = None).
    { apply not_elem_of_dom. rewrite extract_dom. by apply not_elem_of_dom. }
    rewrite Hex. by apply IH.
Qed.

(** X7. A fully dynamic pattern whose leaf (element 6) is not a declared
    metric name is compared with every key of every process's mapping and
    matches none: on a snapshot of records with the fixed layout the loop body
    adds no metric, copies no namespace and does not read the clock, and
    raises no error. *)
Theorem X7_undeclared_leaf_emits_nothing
    (States : gmap string string) (sched : Schedule) (Now : nat -> Time)
    (stats : list Proc) (sc : gmap string Z) (metrics : list MetricType)
    (mt : MetricType) (a : list NamespaceElement)
    (e4 e5 leaf : NamespaceElement) (w : world) :
  heap w !! Namespace_ mt = Some a ->
  a !! 4%nat = Some e4 -> a !! 5%nat = Some e5 -> a !! 6%nat = Some leaf ->
  elem_IsDynamic e4 = true -> elem_IsDynamic e5 = true ->
  metricNames !! Value leaf = None ->
  Forall has_layout stats ->
  collectBody States sched Now stats sc metrics mt w = (Done (Continue metrics), w).
Proof.
  intros Hns H4 H5 H6 Hd4 Hd5 Hnone Hl. rewrite collectBody_cases. cbv zeta.
  rewrite Hns. cbn [default from_option id].
  assert (Hlen : (length a <? 4)%nat = false).
  { apply Nat.ltb_ge. apply lookup_lt_Some in H4. lia. }
  rewrite Hlen, (IsDynamic_elem a 4 e4 H4 Hd4).
  rewrite (index_Some _ _ _ H4), Hd4, (index_Some _ _ _ H5), Hd5.
  by rewrite (rangeStats_undeclared sched Now _ a leaf stats Hl H6 Hnone _ _ Hns).
Qed.

Lemma snapshot2_layout : Forall has_layout Examples.snapshot2.
Proof. repeat constructor; unfold has_layout; simpl; lia. Qed.

(** A leaf the catalog does not know, [ps_threads]. *)
Lemma X7_example :
  collectBody Examples.States2 Examples.canonical Examples.clock Examples.snapshot2
    ∅ [] (Examples.request 0%nat) (Examples.world0 [Examples.dynamicNs "ps_threads"])
  = (Done (Continue []), Examples.world0 [Examples.dynamicNs "ps_threads"]).
Proof.
  apply (X7_undeclared_leaf_emits_nothing _ _ _ _ _ _ _
           (Examples.dynamicNs "ps_threads")
           {| Value := "*"; Description := "pid of the running process";
              Name := "process_id" |}
           {| Value := "*"; Description := "name of the running process";
              Name := "process_name" |}
           {| Value := "ps_threads"; Description := ""; Name := "" |});
    [reflexivity..|exact snapshot2_layout].
Defined.

(** X8. On an empty snapshot a fully dynamic pattern yields nothing, and
    its leaf is never read: the pattern needs its elements 4 and 5 only, so
    one of six elements goes through where any process in the snapshot would
    make the read of [ns[6]] fail. *)
Theorem X8_empty_snapshot_never_reads_the_leaf
    (States : gmap string string) (sched : Schedule) (Now : nat -> Time)
    (sc : gmap string Z) (metrics : list MetricType)
    (mt : MetricType) (a : list NamespaceElement)
    (e4 e5 : NamespaceElement) (w : world) :
  heap w !! Namespace_ mt = Some a ->
  a !! 4%nat = Some e4 -> a !! 5%nat = Some e5 ->
  elem_IsDynamic e4 = true -> elem_IsDynamic e5 = true ->
  collectBody States sched Now [] sc metrics mt w = (Done (Continue metrics), w).
Proof.
  intros Hns H4 H5 Hd4 Hd5. rewrite collectBody_cases. cbv zeta.
  rewrite Hns. cbn [default from_option id].
  assert (Hlen : (length a <? 4)%nat = false).
  { apply Nat.ltb_ge. apply lookup_lt_Some in H4. lia. }
  rewrite Hlen, (IsDynamic_elem a 4 e4 H4 Hd4).
  rewrite (index_Some _ _ _ H4), Hd4, (index_Some _ _ _ H5), Hd5.
  by rewrite rangeStats_nil.
Qed.

(** [/intel/procfs/processes/pid/*/*], six elements and no leaf. *)
Lemma X8_example :
  collectBody Examples.States2 Examples.canonical Examples.clock []
    ∅ [] (Examples.request 0%nat)
    (Examples.world0 [take 6 (Examples.dynamicNs "ps_vm")])
  = (Done (Continue []), Examples.world0 [take 6 (Examples.dynamicNs "ps_vm")]).
Proof.
  apply (X8_empty_snapshot_never_reads_the_leaf _ _ _ _ _ _
           (take 6 (Examples.dynamicNs "ps_vm"))
           {| Value := "*"; Description := "pid of the running process";
              Name := "process_id" |}
           {| Value := "*"; Description := "name of the running process";
              Name := "process_name" |}); reflexivity.
Defined.

Lemma rangeStats_app sched Now ns pre post : forall metrics w,
  rangeStats sched Now ns (pre ++ post) metrics w =
  match rangeStats sched Now ns pre metrics w with
  | (Done metrics', w') => rangeStats sched Now ns post metrics' w'
  | (Panicked p, w') => (Panicked p, w')
  end.
Proof.
  induction pre as [|proc pre IH]; intros metrics w; [done|].
  cbn [app]. rewrite !rangeStats_cons.
  destruct (setProcMetrics sched proc) as [m|p]; [|done].
  destruct (rangeResult _ _ _ _ _ _) as [[metrics'|p] w']; [apply IH|done].
Qed.

Lemma rangeStats_layout sched Now ns a leaf stats :
  Forall has_layout stats -> a !! 6%nat = Some leaf ->
  forall metrics w, heap w !! ns = Some a ->
  exists metrics' w', rangeStats sched Now ns stats metrics w = (Done metrics', w')
    /\ heap w' !! ns = Some a.
Proof.
  intros Hl H6 metrics w Hns.
  destruct (metricNames !! Value leaf) as [lbl|] eqn:Hlbl.
  - rewrite (rangeStats_expansion sched Now ns a leaf lbl stats Hl H6 Hlbl _ _ Hns).
    eexists _, _. split; [done|]. by apply grow_lookup.
  - rewrite (rangeStats_undeclared sched Now ns a leaf stats Hl H6 Hlbl _ _ Hns).
    eauto.
Qed.

(** X9. One record with fewer than 29 status fields spoils a fully
    dynamic resolution: when the records before it have the fixed layout, the
    loop body panics at that record with an index out of the range of its
    status fields, whatever the leaf and whatever records follow. *)
Theorem X9_short_record_panics_the_expansion
    (States : gmap string string) (sched : Schedule) (Now : nat -> Time)
    (pre post : list Proc) (proc : Proc)
    (sc : gmap string Z) (metrics : list MetricType)
    (mt : MetricType) (a : list NamespaceElement)
    (e4 e5 leaf : NamespaceElement) (w : world) :
  heap w !! Namespace_ mt = Some a ->
  a !! 4%nat = Some e4 -> a !! 5%nat = Some e5 -> a !! 6%nat = Some leaf ->
  elem_IsDynamic e4 = true -> elem_IsDynamic e5 = true ->
  Forall has_layout pre -> (length (Stat proc) < 29)%nat ->
  exists i w', (i < 29)%nat /\ (length (Stat proc) <= i)%nat
    /\ collectBody States sched Now (pre ++ proc :: post) sc metrics mt w
       = (Panicked (IndexOutOfRange i (length (Stat proc))), w').
Proof.
  intros Hns H4 H5 H6 Hd4 Hd5 Hl Hshort.
  destruct (setProcMetrics_short sched proc) as (i & Hi & Hpanic);
    [unfold has_layout; lia|].
  destruct (rangeStats_layout sched Now (Namespace_ mt) a leaf pre Hl H6 metrics w Hns)
    as (metrics' & w' & Hpre & _).
  exists i, w'. split; [done|]. split.
  { destruct (decide (length (Stat proc) <= i)%nat) as [|Hlt]; [done|].
    exfalso. revert Hpanic. unfold setProcMetrics.
    repeat match goal with
    | |- context [index (Stat proc) ?j] =>
        let H := fresh "Hj" in
        destruct (Stat proc !! j) as [?s|] eqn:H;
        [rewrite (index_Some _ _ _ H); simpl
        |rewrite (index_None _ _ H); simpl; apply lookup_ge_None in H;
         intros [= <-]; lia]
    end.
    discriminate. }
  rewrite collectBody_cases. cbv zeta. rewrite Hns. cbn [default from_option id].
  assert (Hlen : (length a <? 4)%nat = false).
  { apply Nat.ltb_ge. apply lookup_lt_Some in H4. lia. }
  rewrite Hlen, (IsDynamic_elem a 4 e4 H4 Hd4).
  rewrite (index_Some _ _ _ H4), Hd4, (index_Some _ _ _ H5), Hd5.
  by rewrite rangeStats_app, Hpre, rangeStats_cons, Hpanic.
Qed.

(** A truncated record after a good one. *)
Lemma X9_example :
  exists i w', (i < 29)%nat /\ (length (Stat truncated) <= i)%nat
    /\ collectBody Examples.States2 Examples.canonical Examples.clock
         ([Examples.proc100] ++ truncated :: [Examples.proc200])
         ∅ [] (Examples.request 0%nat) (Examples.world0 [Examples.dynamicNs "ps_vm"])
       = (Panicked (IndexOutOfRange i (length (Stat truncated))), w').
Proof.
  apply (X9_short_record_panics_the_expansion _ _ _ _ _ _ _ _ _
           (Examples.dynamicNs "ps_vm")
           {| Value := "*"; Description := "pid of the running process";
              Name := "process_id" |}
           {| Value := "*"; Description := "name of the running process";
              Name := "process_name" |}
           {| Value := "ps_vm"; Description := ""; Name := "" |});
    [reflexivity..| |simpl; lia].
  repeat constructor; unfold has_layout; simpl; lia.
Defined.

(** ** The namespaces of the emitted metrics (lines 218-223, 309-311) *)

Lemma fillNsElement_dynamic e v :
  elem_IsDynamic (fillNsElement e v) = elem_IsDynamic e.
Proof. reflexivity. Qed.

Lemma filled_flags a proc : elem_IsDynamic <$> filled a proc = elem_IsDynamic <$> a.
Proof.
  unfold filled. apply list_eq. intros i. rewrite !list_lookup_fmap.
  destruct (decide (i = 5%nat)) as [->|H5].
  - rewrite list_lookup_alter_eq, list_lookup_alter_ne by done.
    by destruct (a !! 5%nat).
  - rewrite list_lookup_alter_ne by done.
    destruct (decide (i = 4%nat)) as [->|H4].
    + rewrite list_lookup_alter_eq. by destruct (a !! 4%nat).
    + by rewrite list_lookup_alter_ne.
Qed.

Lemma expansion_namespaces Now w leafName lbl stats :
  Namespace_ <$> expansion Now w leafName lbl stats
  = seq (length (heap w)) (length stats).
Proof.
  apply list_eq. intros i. unfold expansion.
  rewrite list_lookup_fmap, list_lookup_imap.
  destruct (stats !! i) as [proc|] eqn:Hi; cbn [fmap option_fmap option_map Namespace_].
  - symmetry. apply lookup_seq. split; [done|]. by eapply lookup_lt_Some.
  - symmetry. apply lookup_ge_None. rewrite length_seq. by apply lookup_ge_None in Hi.
Qed.

(** X10. The namespaces a fully dynamic expansion hands out.  Each
    emitted metric gets an array of its own, allocated by the call and used
    by no other metric, and the requested array is left as it was: filling in
    a process never shows in the request or in another metric.  Elements 4
    and 5 of the copy are what [fillNsElement] builds from the requested ones
    with the process id and the process name; as only their values change,
    every element is dynamic in the copy exactly when it is in the request,
    and the emitted namespace still counts as dynamic. *)
Theorem X10_emitted_namespaces_are_fresh_dynamic_copies
    (States : gmap string string) (sched : Schedule) (Now : nat -> Time)
    (stats : list Proc) (sc : gmap string Z) (metrics : list MetricType)
    (mt : MetricType) (a : list NamespaceElement)
    (e4 e5 leaf : NamespaceElement) (lbl : label) (w : world) :
  heap w !! Namespace_ mt = Some a ->
  a !! 4%nat = Some e4 -> a !! 5%nat = Some e5 -> a !! 6%nat = Some leaf ->
  elem_IsDynamic e4 = true -> elem_IsDynamic e5 = true ->
  metricNames !! Value leaf = Some lbl ->
  Forall has_layout stats ->
  exists emitted w',
    collectBody States sched Now stats sc metrics mt w
    = (Done (Continue (metrics ++ emitted)), w')
    /\ heap w' !! Namespace_ mt = Some a
    /\ NoDup (Namespace_ <$> emitted)
    /\ (forall i proc, stats !! i = Some proc ->
          exists m nuns,
            emitted !! i = Some m
            /\ heap w !! Namespace_ m = None
            /\ Namespace_ m <> Namespace_ mt
            /\ heap w' !! Namespace_ m = Some nuns
            /\ nuns !! 4%nat = Some (fillNsElement e4 (Itoa (Pid proc)))
            /\ nuns !! 5%nat = Some (fillNsElement e5 (procName (CmdLine proc)))
            /\ elem_IsDynamic <$> nuns = elem_IsDynamic <$> a
            /\ (IsDynamic nuns).1 = true).
Proof.
  intros Hns H4 H5 H6 Hd4 Hd5 Hlbl Hl.
  exists (expansion Now w (Value leaf) lbl stats),
         (grow w (filled a <$> stats) (length stats)).
  split; [|split; [|split]].
  - rewrite collectBody_cases. cbv zeta. rewrite Hns. cbn [default from_option id].
    assert (Hlen : (length a <? 4)%nat = false).
    { apply Nat.ltb_ge. apply lookup_lt_Some in H4. lia. }
    rewrite Hlen, (IsDynamic_elem a 4 e4 H4 Hd4).
    rewrite (index_Some _ _ _ H4), Hd4, (index_Some _ _ _ H5), Hd5.
    by rewrite (rangeStats_expansion sched Now _ a leaf lbl stats Hl H6 Hlbl _ _ Hns).
  - by apply grow_lookup.
  - rewrite expansion_namespaces. apply NoDup_seq.
  - intros i proc Hi.
    destruct (filled_lookups a proc e4 e5 H4 H5) as (F4 & F5 & _ & _).
    eexists _, (filled a proc).
    split; [by apply expansion_lookup|]. cbn [Namespace_].
    assert (Hfresh : heap w !! (length (heap w) + i)%nat = None)
      by (apply lookup_ge_None; lia).
    split; [done|]. split; [apply lookup_lt_Some in Hns; lia|].
    split.
    { unfold grow. cbn [heap]. rewrite lookup_app_r by lia.
      replace (length (heap w) + i - length (heap w))%nat with i by lia.
      by rewrite list_lookup_fmap, Hi. }
    split; [exact F4|]. split; [exact F5|]. split; [apply filled_flags|].
    apply (IsDynamic_elem _ 4 _ F4). by rewrite fillNsElement_dynamic.
Qed.

(** The two-process snapshot, leaf [ps_vm]. *)
Lemma X10_example :
  exists emitted w',
    collectBody Examples.States2 Examples.canonical Examples.clock Examples.snapshot2
      ∅ [] (Examples.request 0%nat) (Examples.world0 [Examples.dynamicNs "ps_vm"])
    = (Done (Continue ([] ++ emitted)), w')
    /\ heap w' !! 0%nat = Some (Examples.dynamicNs "ps_vm")
    /\ NoDup (Namespace_ <$> emitted).
Proof.
  destruct (X10_emitted_namespaces_are_fresh_dynamic_copies
              Examples.States2 Examples.canonical Examples.clock Examples.snapshot2
              ∅ [] (Examples.request 0%nat) (Examples.dynamicNs "ps_vm")
              {| Value := "*"; Description := "pid of the running process";
                 Name := "process_id" |}
              {| Value := "*"; Description := "name of the running process";
                 Name := "process_name" |}
              {| Value := "ps_vm"; Description := ""; Name := "" |}
              {| description := "Virtual memory size in bytes"; unit := "B" |}
              (Examples.world0 [Examples.dynamicNs "ps_vm"])
              eq_refl eq_refl eq_refl eq_refl eq_refl eq_refl eq_refl snapshot2_layout)
    as (emitted & w' & Hrun & Hreq & Hnd & _).
  exists emitted, w'. exact (conj Hrun (conj Hreq Hnd)).
Defined.

Lemma Atoi_Itoa z : Atoi (Itoa z) = Some z.
Proof.
  unfold Atoi, Itoa. rewrite NilZero.isi.
  - cbn [option_map]. by rewrite DecimalZ.of_to.
  - destruct z as [|p|p]; [done| |done].
    intros [= H]. by apply DecimalPos.Unsigned.to_uint_nonnil in H.
  - destruct z as [|p|p]; [done|done|].
    intros [= H]. by apply DecimalPos.Unsigned.to_uint_nonnil in H.
Qed.

(** X11. The process-id element can be read back: the decimal string
    [strconv.Itoa] writes into element 4 parses to the process id it came
    from, so two processes with different ids never get the same namespace
    from one request that has an element 4. *)
Theorem X11_pid_element_reads_back (e : NamespaceElement) (proc : Proc) :
  Atoi (Value (fillNsElement e (Itoa (Pid proc)))) = Some (Pid proc)
  /\ (forall a q, (4 < length a)%nat -> filled a proc = filled a q -> Pid proc = Pid q).
Proof.
  split; [apply Atoi_Itoa|].
  intros a q Hlen Heq.
  destruct (lookup_lt_is_Some_2 a 4 Hlen) as [e4 H4].
  assert (Hp : forall p, Value <$> filled a p !! 4%nat = Some (Itoa (Pid p))).
  { intros p. unfold filled.
    by rewrite list_lookup_alter_ne, list_lookup_alter_eq, H4. }
  pose proof (Hp proc) as H1. rewrite Heq, Hp in H1.
  injection H1 as H1. apply (f_equal Atoi) in H1. rewrite !Atoi_Itoa in H1.
  by injection H1.
Qed.

Lemma mem_cons sep c s :
  mem sep (String c s) = Ascii.eqb sep c || mem sep s.
Proof. reflexivity. Qed.

Lemma mem_upto sep s : mem sep (upto sep s) = false.
Proof.
  induction s as [|c s IH]; [done|]. cbn [upto].
  destruct (Ascii.eqb c sep) eqn:Hc; [done|].
  by rewrite mem_cons, Ascii.eqb_sym, Hc, IH.
Qed.

Lemma mem_after_last_same sep s : mem sep (after_last sep s) = false.
Proof.
  induction s as [|c s IH]; [done|]. cbn [after_last].
  destruct (mem sep s) eqn:Hm; [done|].
  destruct (Ascii.eqb c sep) eqn:Hc; [done|].
  by rewrite mem_cons, Ascii.eqb_sym, Hc, Hm.
Qed.

Lemma mem_after_last c sep s : mem c s = false -> mem c (after_last sep s) = false.
Proof.
  induction s as [|x s IH]; [done|]. rewrite mem_cons. intros H.
  apply orb_false_iff in H as [Hx Hs]. cbn [after_last].
  destruct (mem sep s); [by apply IH|].
  destruct (Ascii.eqb x sep); [done|]. by rewrite mem_cons, Hx, Hs.
Qed.

Lemma upto_no_sep sep s : mem sep s = false -> upto sep s = s.
Proof.
  induction s as [|c s IH]; [done|]. rewrite mem_cons. intros H.
  apply orb_false_iff in H as [Hc Hs]. cbn [upto].
  by rewrite Ascii.eqb_sym, Hc, IH.
Qed.

Lemma mem_trailing sep dir : mem sep (dir +:+ String sep "") = true.
Proof.
  induction dir as [|c dir IH].
  - change (mem sep (String sep "") = true). by rewrite mem_cons, Ascii.eqb_refl.
  - change (mem sep (String c (dir +:+ String sep "")) = true).
    rewrite mem_cons, IH. apply orb_true_r.
Qed.

Lemma after_last_trailing sep dir : after_last sep (dir +:+ String sep "") = "".
Proof.
  induction dir as [|c dir IH].
  - change ((if mem sep "" then after_last sep ""
             else if Ascii.eqb sep sep then "" else String sep "") = "").
    change (mem sep "") with false. cbv iota. by rewrite Ascii.eqb_refl.
  - change ((if mem sep (dir +:+ String sep "")
             then after_last sep (dir +:+ String sep "")
             else if Ascii.eqb c sep then dir +:+ String sep ""
                  else String c (dir +:+ String sep "")) = "").
    by rewrite mem_trailing.
Qed.

Lemma mem_append sep s t : mem sep (s +:+ t) = mem sep s || mem sep t.
Proof.
  induction s as [|c s IH]; [done|].
  change (mem sep (String c (s +:+ t)) = mem sep (String c s) || mem sep t).
  rewrite !mem_cons, IH. apply orb_assoc.
Qed.

(** X12. The two index expressions of lines 222-223 never fail, whatever
    the command line: [strings.Split] returns at least one part, so part 0
    and the last part are there.  The name they give to element 5 holds
    neither a '/' nor a NUL byte; it is empty for an empty command line (a
    kernel thread) and for a command line without NUL that ends in '/'; and
    it is the whole command line when that has neither byte. *)
Theorem X12_process_name_always_defined (cmdLine : string) :
  (first ← index (Split cmdLine NUL) 0;
   index (Split first slash) (length (Split first slash) - 1))
  = Done (procName cmdLine)
  /\ mem slash (procName cmdLine) = false
  /\ mem NUL (procName cmdLine) = false
  /\ procName "" = ""
  /\ (mem NUL cmdLine = false -> procName (cmdLine +:+ "/") = "")
  /\ (mem slash cmdLine = false -> mem NUL cmdLine = false -> procName cmdLine = cmdLine).
Proof.
  split; [|split; [|split; [|split; [|split]]]].
  - rewrite index_Split_first. cbn [mbind res_bind]. apply index_Split_last.
  - apply mem_after_last_same.
  - apply mem_after_last, mem_upto.
  - reflexivity.
  - intros Hn. unfold procName. rewrite upto_no_sep.
    + apply (after_last_trailing slash).
    + by rewrite mem_append, Hn.
  - intros Hs Hn. unfold procName. by rewrite (upto_no_sep _ _ Hn), after_last_no_sep.
Qed.

(** ** How the result is put together (lines 203-257) *)

Lemma prepend_prepend acc acc' x :
  prepend (app acc) (prepend (app acc') x) = prepend (app (acc ++ acc')) x.
Proof.
  destruct x as [[ms|p] w]; unfold prepend; cbn [fst snd]; [|done].
  by rewrite app_assoc.
Qed.

Lemma rangeResult_acc Now ns proc metrics m w :
  rangeResult Now ns proc metrics m w
  = prepend (app metrics) (rangeResult Now ns proc [] m w).
Proof.
  unfold rangeResult, prepend. cbv zeta.
  destruct (_ !! 6%nat) as [leaf|].
  - destruct (m !! Value leaf); cbn [fst snd app]; by rewrite ?app_nil_r.
  - destruct (decide (m = ∅)); cbn [fst snd]; by rewrite ?app_nil_r.
Qed.

Lemma rangeStats_acc sched Now ns stats : forall metrics w,
  rangeStats sched Now ns stats metrics w
  = prepend (app metrics) (rangeStats sched Now ns stats [] w).
Proof.
  induction stats as [|proc stats IH]; intros metrics w.
  - rewrite !rangeStats_nil. unfold prepend. cbn [fst snd]. by rewrite app_nil_r.
  - rewrite !rangeStats_cons.
    destruct (setProcMetrics sched proc) as [m|p]; [|done].
    rewrite (rangeResult_acc _ _ _ metrics).
    destruct (rangeResult Now ns proc [] m w) as [[ms|p] w1]; [|done].
    unfold prepend at 1. cbn [fst snd].
    rewrite (IH (metrics ++ ms)), (IH ms). by rewrite prepend_prepend.
Qed.

Lemma collectBody_acc States sched Now stats sc metrics mt w :
  collectBody States sched Now stats sc metrics mt w
  = onward metrics (collectBody States sched Now stats sc [] mt w).
Proof.
  rewrite !collectBody_cases. cbv zeta.
  destruct (_ <? 4)%nat; [done|].
  destruct (IsDynamic _).1.
  - destruct (index _ 4) as [e4|p]; [|done].
    destruct (elem_IsDynamic e4); [|unfold onward; cbn [fst snd]; by rewrite app_nil_r].
    destruct (index _ 5) as [e5|p]; [|done].
    destruct (elem_IsDynamic e5); [|unfold onward; cbn [fst snd]; by rewrite app_nil_r].
    rewrite rangeStats_acc.
    by destruct (rangeStats _ _ _ _ [] w) as [[ms|p] w'].
  - destruct (index _ 3) as [e3|p]; [|done].
    destruct (Contains _ _); [|unfold onward; cbn [fst snd]; by rewrite app_nil_r].
    destruct (sc !! Value e3); unfold onward; cbn [fst snd app]; by rewrite ?app_nil_r.
Qed.

Lemma onward_onward acc acc' x : onward acc (onward acc' x) = onward (acc ++ acc') x.
Proof.
  destruct x as [[[ms|r]|p] w]; unfold onward; cbn [fst snd]; [|done..].
  by rewrite app_assoc.
Qed.

Lemma forEach_acc States sched Now stats sc mts : forall metrics w,
  forEach (collectBody States sched Now stats sc) metrics mts w
  = onward metrics (forEach (collectBody States sched Now stats sc) [] mts w).
Proof.
  induction mts as [|mt mts IH]; intros metrics w.
  - rewrite !forEach_nil. unfold onward. cbn [fst snd]. by rewrite app_nil_r.
  - rewrite !forEach_cons. rewrite (collectBody_acc _ _ _ _ _ metrics).
    destruct (collectBody _ _ _ _ _ [] mt w) as [[[ms|r]|p] w1]; [|done..].
    unfold onward at 1. cbn [fst snd].
    rewrite (IH (metrics ++ ms)), (IH ms). by rewrite onward_onward.
Qed.

(** X13. The metrics collected so far are only ever added to: the loop
    body hands on what it was given with its own metrics behind it, and these
    do not depend on what was collected before.  So the loop over a list of
    requests yields the results of its parts one after the other, in request
    order. *)
Theorem X13_results_concatenate_in_request_order
    (States : gmap string string) (sched : Schedule) (Now : nat -> Time)
    (stats : list Proc) (sc : gmap string Z)
    (pre post : list MetricType) (ms1 ms2 : list MetricType) (w w1 w2 : world) :
  forEach (collectBody States sched Now stats sc) [] pre w = (Done (Continue ms1), w1) ->
  forEach (collectBody States sched Now stats sc) [] post w1 = (Done (Continue ms2), w2) ->
  forEach (collectBody States sched Now stats sc) [] (pre ++ post) w
  = (Done (Continue (ms1 ++ ms2)), w2)
  /\ (forall acc mt,
        collectBody States sched Now stats sc acc mt w
        = onward acc (collectBody States sched Now stats sc [] mt w)).
Proof.
  intros Hpre Hpost. split; [|intros acc mt; apply collectBody_acc].
  by rewrite forEach_app, Hpre, forEach_acc, Hpost.
Qed.

(** The state pattern first, then the expansion of [ps_vm]. *)
Lemma X13_example :
  match forEach (collectBody Examples.States2 Examples.canonical Examples.clock
                   Examples.snapshot2
                   (aggregate Examples.States2 Examples.canonical Examples.snapshot2))
          [] [Examples.request 0%nat]
          (Examples.world0 [Examples.staticNs "running"; Examples.dynamicNs "ps_vm"])
  with
  | (Done (Continue ms1), w1) =>
      match forEach (collectBody Examples.States2 Examples.canonical Examples.clock
                       Examples.snapshot2
                       (aggregate Examples.States2 Examples.canonical Examples.snapshot2))
              [] [Examples.request 1%nat] w1
      with
      | (Done (Continue ms2), w2) =>
          forEach (collectBody Examples.States2 Examples.canonical Examples.clock
                     Examples.snapshot2
                     (aggregate Examples.States2 Examples.canonical Examples.snapshot2))
            [] ([Examples.request 0%nat] ++ [Examples.request 1%nat])
            (Examples.world0 [Examples.staticNs "running"; Examples.dynamicNs "ps_vm"])
          = (Done (Continue (ms1 ++ ms2)), w2)
          /\ length ms1 = 1%nat /\ length ms2 = 2%nat
      | _ => False
      end
  | _ => False
  end.
Proof.
  destruct (forEach _ [] [Examples.request 0%nat] _) as [[[ms1|r]|p] w1] eqn:H1;
    [|vm_compute in H1; discriminate..].
  destruct (forEach _ [] [Examples.request 1%nat] w1) as [[[ms2|r]|p] w2] eqn:H2;
    [|vm_compute in H1; injection H1 as <- <-; vm_compute in H2; discriminate..].
  split.
  - exact (proj1 (X13_results_concatenate_in_request_order _ _ _ _ _ _ _ _ _ _ _ _ H1 H2)).
  - vm_compute in H1. injection H1 as <- <-. vm_compute in H2. injection H2 as <- <-.
    split; reflexivity.
Defined.

(** ** Clock readings and allocations of a call *)

Lemma stamped_nil Now w : stamped Now w [] w.
Proof. unfold stamped. cbn. repeat split; [lia|constructor]. Qed.

Lemma stamped_app Now w ms1 w1 ms2 w2 :
  stamped Now w ms1 w1 -> stamped Now w1 ms2 w2 -> stamped Now w (ms1 ++ ms2) w2.
Proof.
  intros (Hs1 & Ht1 & Hh1 & Hc1) (Hs2 & Ht2 & Hh2 & Hc2). unfold stamped.
  rewrite fmap_app, length_app, seq_app, fmap_app, Hs1, Hs2, Ht1.
  split; [|split; [|split]].
  - do 3 f_equal. lia.
  - lia.
  - lia.
  - by apply Forall_app.
Qed.

Lemma stamped_logged Now w ms w' evs :
  stamped Now w ms w' -> stamped Now (logged w evs) ms w'.
Proof. done. Qed.

Lemma rangeResult_stamped Now ns proc m w ms w' :
  rangeResult Now ns proc [] m w = (Done ms, w') -> stamped Now w ms w'.
Proof.
  unfold rangeResult. cbv zeta.
  destruct (_ !! 6%nat) as [leaf|].
  - destruct (m !! Value leaf).
    + intros [= <- <-]. unfold stamped, grow. cbn [app fmap list_fmap length seq heap ticks
        Timestamp_ dynamicMetric Config_].
      rewrite length_app. cbn [length]. repeat split; [lia|]. by repeat constructor.
    + intros [= <- <-]. apply stamped_nil.
  - destruct (decide (m = ∅)); [|done]. intros [= <- <-]. apply stamped_nil.
Qed.

Lemma rangeStats_stamped sched Now ns stats : forall w ms w',
  rangeStats sched Now ns stats [] w = (Done ms, w') -> stamped Now w ms w'.
Proof.
  induction stats as [|proc stats IH]; intros w ms w'.
  - rewrite rangeStats_nil. intros [= <- <-]. apply stamped_nil.
  - rewrite rangeStats_cons.
    destruct (setProcMetrics sched proc) as [m|p]; [|done].
    destruct (rangeResult Now ns proc [] m w) as [[ms1|p] w1] eqn:H1; [|done].
    rewrite rangeStats_acc.
    destruct (rangeStats sched Now ns stats [] w1) as [[ms2|p] w2] eqn:H2; [|done].
    unfold prepend. cbn [fst snd]. intros [= <- <-].
    eapply stamped_app; [by eapply rangeResult_stamped|by apply IH].
Qed.

Lemma collectBody_stamped States sched Now stats sc mt w ms w' :
  collectBody States sched Now stats sc [] mt w = (Done (Continue ms), w') ->
  stamped Now w ms w'.
Proof.
  rewrite collectBody_cases. cbv zeta.
  destruct (_ <? 4)%nat; [done|].
  destruct (IsDynamic _).1.
  - destruct (index _ 4) as [e4|p]; [|done].
    destruct (elem_IsDynamic e4); [|intros [= <- <-]; apply stamped_nil].
    destruct (index _ 5) as [e5|p]; [|done].
    destruct (elem_IsDynamic e5); [|intros [= <- <-]; apply stamped_nil].
    destruct (rangeStats _ _ _ _ [] w) as [[ms'|p] w1] eqn:Hr; [|done].
    intros [= <- <-]. by eapply rangeStats_stamped.
  - destruct (index _ 3) as [e3|p]; [|done].
    destruct (Contains _ _); [|intros [= <- <-]; apply stamped_nil].
    destruct (sc !! Value e3); intros [= <- <-]; [|apply stamped_nil].
    unfold stamped, tick. cbn [app fmap list_fmap length seq heap ticks
      Timestamp_ stateMetric Config_].
    repeat split; [lia|]. by repeat constructor.
Qed.

Lemma forEach_stamped States sched Now stats sc mts : forall w ms w',
  forEach (collectBody States sched Now stats sc) [] mts w = (Done (Continue ms), w') ->
  stamped Now w ms w'.
Proof.
  induction mts as [|mt mts IH]; intros w ms w'.
  - rewrite forEach_nil. intros [= <- <-]. apply stamped_nil.
  - rewrite forEach_cons.
    destruct (collectBody _ _ _ _ _ [] mt w) as [[[ms1|r]|p] w1] eqn:H1; [|done..].
    rewrite forEach_acc.
    destruct (forEach _ [] mts w1) as [[[ms2|r]|p] w2] eqn:H2; [|done..].
    unfold onward. cbn [fst snd]. intros [= <- <-].
    eapply stamped_app; [by eapply collectBody_stamped|by apply IH].
Qed.

(** X14. A call that returns metrics has read the clock exactly once for
    each of them, in the order of the result: the j-th metric carries the
    j-th reading made since the call began.  It has allocated at most one
    array per metric, and no metric it returns carries a configuration. *)
Theorem X14_one_clock_reading_per_metric
    (States : gmap string string) (sched : Schedule) (Now : nat -> Time)
    (GetConfigItem : MetricType -> string -> iface * option error)
    (procPlg : procPlugin) (metricTypes metrics : list MetricType) (w w' : world) :
  CollectMetrics States sched Now GetConfigItem procPlg metricTypes w
  = (Done (Some metrics, None), w') ->
  Timestamp_ <$> metrics = Now <$> seq (ticks w) (length metrics)
  /\ ticks w' = (length metrics + ticks w)%nat
  /\ (length (heap w') <= length (heap w) + length metrics)%nat
  /\ Forall (fun m => Config_ m = None) metrics.
Proof.
  rewrite CollectMetrics_cases. destruct metricTypes as [|first rest]; [done|].
  cbv zeta.
  destruct (GetConfigItem first "proc_path") as [procPath [err|]]; [done|].
  destruct (assert_string procPath) as [path|p]; [|done].
  destruct (GetStats (mc procPlg) path) as [stats [err|]]; [done|].
  destruct (forEach _ _ _ _) as [[[ms|r]|p] w1] eqn:Hloop; [| |done].
  - intros [= <- <-]. by apply forEach_stamped in Hloop.
  - apply forEach_Return in Hloop as (n & _ & ->). done.
Qed.

(** The state pattern and the expansion of [ps_vm] on the two-process
    snapshot: three metrics, stamped with the readings 0, 1 and 2. *)
Lemma X14_example :
  match CollectMetrics Examples.States2 Examples.canonical Examples.clock
          Examples.lookupConfig (Examples.plg Examples.snapshot2)
          [Examples.request 0%nat; Examples.request 1%nat]
          (Examples.world0 [Examples.staticNs "running"; Examples.dynamicNs "ps_vm"])
  with
  | (Done (Some metrics, None), w') =>
      Timestamp_ <$> metrics = [1000; 1001; 1002] /\ ticks w' = 3%nat
  | _ => False
  end.
Proof.
  destruct (CollectMetrics _ _ _ _ _ _ _) as [[[[metrics|] [err|]]|p] w'] eqn:Hrun;
    try (vm_compute in Hrun; discriminate).
  destruct (X14_one_clock_reading_per_metric _ _ _ _ _ _ _ _ _ Hrun) as (Hs & Ht & _).
  vm_compute in Hrun. injection Hrun as <- <-. split; [exact Hs|exact Ht].
Defined.

(** ** The configuration item (lines 180-183, 191) *)

(** X15. When the lookup of [proc_path] fails, the call returns that very
    error, not wrapped as the fetch error is, and no metrics; it has then
    made no other external call: the snapshot is not fetched, the requested
    patterns are not looked at (a short one is not reported), nothing is
    allocated and the clock is not read. *)
Theorem X15_configuration_error_is_returned_as_is
    (States : gmap string string) (sched : Schedule) (Now : nat -> Time)
    (GetConfigItem : MetricType -> string -> iface * option error)
    (procPlg : procPlugin) (first : MetricType) (rest : list MetricType)
    (v : iface) (err : error) (w : world) :
  GetConfigItem first "proc_path" = (v, Some err) ->
  CollectMetrics States sched Now GetConfigItem procPlg (first :: rest) w
  = (Done (None, Some err),
     {| heap := heap w; ticks := ticks w;
        log := log w ++ [CallGetConfigItem first "proc_path"] |}).
Proof.
  intros Hcfg. rewrite CollectMetrics_cases. cbv zeta. by rewrite Hcfg.
Qed.

(** A request without configuration, followed by a short pattern. *)
Lemma X15_example :
  CollectMetrics Examples.States2 Examples.canonical Examples.clock
    Examples.lookupConfig (Examples.plg Examples.snapshot2)
    [configured None (Examples.request 0%nat); Examples.request 1%nat]
    (Examples.world0 [Examples.staticNs "running"; Examples.shortNs])
  = (Done (None, Some (errorString "config item not found")),
     {| heap := [Examples.staticNs "running"; Examples.shortNs]; ticks := 0;
        log := [CallGetConfigItem (configured None (Examples.request 0%nat))
                                  "proc_path"] |}).
Proof.
  exact (X15_configuration_error_is_returned_as_is
           Examples.States2 Examples.canonical Examples.clock Examples.lookupConfig
           (Examples.plg Examples.snapshot2) (configured None (Examples.request 0%nat))
           [Examples.request 1%nat] Nil (errorString "config item not found")
           (Examples.world0 [Examples.staticNs "running"; Examples.shortNs]) eq_refl).
Defined.

(** X16. A [proc_path] item that is not a string makes the unchecked type
    assertion of line 191 panic: the lookup has succeeded, the snapshot is
    not fetched, and the call returns neither metrics nor an error. *)
Theorem X16_non_string_path_panics
    (States : gmap string string) (sched : Schedule) (Now : nat -> Time)
    (GetConfigItem : MetricType -> string -> iface * option error)
    (procPlg : procPlugin) (first : MetricType) (rest : list MetricType)
    (v : iface) (w : world) :
  GetConfigItem first "proc_path" = (v, None) ->
  (forall path, v <> Str path) ->
  CollectMetrics States sched Now GetConfigItem procPlg (first :: rest) w
  = (Panicked InterfaceConversion,
     {| heap := heap w; ticks := ticks w;
        log := log w ++ [CallGetConfigItem first "proc_path"] |}).
Proof.
  intros Hcfg Hv. rewrite CollectMetrics_cases. cbv zeta. rewrite Hcfg.
  destruct v as [| | |path]; [done..|]. by destruct (Hv path).
Qed.

(** The path given as a number. *)
Lemma X16_example :
  CollectMetrics Examples.States2 Examples.canonical Examples.clock
    Examples.lookupConfig (Examples.plg Examples.snapshot2)
    [configured (Some {[ "proc_path" := Int 5 ]}) (Examples.request 0%nat)]
    (Examples.world0 [Examples.staticNs "running"])
  = (Panicked InterfaceConversion,
     {| heap := [Examples.staticNs "running"]; ticks := 0;
        log := [CallGetConfigItem
                  (configured (Some {[ "proc_path" := Int 5 ]}) (Examples.request 0%nat))
                  "proc_path"] |}).
Proof.
  assert (Hcfg : Examples.lookupConfig
                   (configured (Some {[ "proc_path" := Int 5 ]}) (Examples.request 0%nat))
                   "proc_path" = (Int 5, None)) by (vm_compute; reflexivity).
  apply (X16_non_string_path_panics
           Examples.States2 Examples.canonical Examples.clock Examples.lookupConfig
           (Examples.plg Examples.snapshot2)
           (configured (Some {[ "proc_path" := Int 5 ]}) (Examples.request 0%nat))
           [] (Int 5) (Examples.world0 [Examples.staticNs "running"]) Hcfg).
  intros path. discriminate.
Defined.

Lemma collectBody_namespace States sched Now stats sc metrics mt mt' w :
  Namespace_ mt = Namespace_ mt' ->
  collectBody States sched Now stats sc metrics mt w
  = collectBody States sched Now stats sc metrics mt' w.
Proof. intros H. rewrite !collectBody_cases. cbv zeta. by rewrite H. Qed.

Lemma forEach_namespaces States sched Now stats sc mts mts' :
  Forall2 (fun m m' => Namespace_ m = Namespace_ m') mts mts' ->
  forall metrics w,
    forEach (collectBody States sched Now stats sc) metrics mts w
    = forEach (collectBody States sched Now stats sc) metrics mts' w.
Proof.
  induction 1 as [|mt mt' mts mts' Hns _ IH]; intros metrics w; [done|].
  rewrite !forEach_cons, (collectBody_namespace _ _ _ _ _ _ mt mt' _ Hns).
  destruct (collectBody _ _ _ _ _ _ mt' w) as [[[ms|r]|p] w1]; [apply IH|done..].
Qed.

(** X17. Of a request the call reads the namespace and nothing else, and
    of the first request also its configuration: the configuration, data,
    timestamp, unit and description of the other requests have no effect on
    what the call returns or does. *)
Theorem X17_only_the_first_configuration_is_read
    (States : gmap string string) (sched : Schedule) (Now : nat -> Time)
    (GetConfigItem : MetricType -> string -> iface * option error)
    (procPlg : procPlugin) (first : MetricType) (rest rest' : list MetricType)
    (w : world) :
  Forall2 (fun m m' => Namespace_ m = Namespace_ m') rest rest' ->
  CollectMetrics States sched Now GetConfigItem procPlg (first :: rest) w
  = CollectMetrics States sched Now GetConfigItem procPlg (first :: rest') w.
Proof.
  intros Hns. rewrite !CollectMetrics_cases. cbv zeta.
  destruct (GetConfigItem first "proc_path") as [procPath [err|]]; [done|].
  destruct (assert_string procPath) as [path|p]; [|done].
  destruct (GetStats (mc procPlg) path) as [stats [err|]]; [done|].
  rewrite !(forEach_cons _ _ first).
  destruct (collectBody _ _ _ _ _ _ first _) as [[[ms|r]|p] w1]; [|done..].
  by rewrite (forEach_namespaces _ _ _ _ _ _ _ Hns).
Qed.

(** The second request with and without a configuration. *)
Lemma X17_example :
  CollectMetrics Examples.States2 Examples.canonical Examples.clock
    Examples.lookupConfig (Examples.plg Examples.snapshot2)
    [Examples.request 0%nat; Examples.request 1%nat]
    (Examples.world0 [Examples.staticNs "running"; Examples.dynamicNs "ps_vm"])
  = CollectMetrics Examples.States2 Examples.canonical Examples.clock
      Examples.lookupConfig (Examples.plg Examples.snapshot2)
      [Examples.request 0%nat; configured None (Examples.request 1%nat)]
      (Examples.world0 [Examples.staticNs "running"; Examples.dynamicNs "ps_vm"]).
Proof.
  apply X17_only_the_first_configuration_is_read.
  by repeat constructor.
Defined.

(** ** Discovery (lines 137-163) *)

Lemma GetMetricTypes_run States sched procPlg cfg w :
  GetMetricTypes States sched procPlg cfg w
  = (Done (imap (fun i kv => advertisedMetric cfg kv (length (heap w) + i)%nat)
                (range_order sched metricNames)
           ++ imap (fun i state =>
                      advertisedState cfg state
                        (length (heap w) + length (range_order sched metricNames) + i)%nat)
                   (Values States sched),
           None),
     grow w ((dynamicPattern <$> (range_order sched metricNames).*1)
             ++ (statePattern <$> Values States sched)) 0).
Proof.
  unfold GetMetricTypes. cbv zeta. rewrite bind_M_unfold.
  rewrite (foldM_alloc _
             (fun kv : string * label => dynamicPattern kv.1)
             (fun kv ns => advertisedMetric cfg kv ns))
    by (by intros acc [name lbl] w0).
  rewrite bind_M_unfold.
  rewrite (foldM_alloc _ statePattern (fun state ns => advertisedState cfg state ns))
    by done.
  rewrite ret_M_eq, grow_grow. cbn [Nat.add app].
  rewrite <- list_fmap_compose. f_equal. apply (f_equal Done).
  apply (f_equal (fun l => (l, None))). apply (f_equal (app _)).
  apply imap_ext. intros i state _. cbn [grow heap].
  by rewrite length_app, length_fmap.
Qed.

Lemma range_order_lookup {V} (sched : Schedule) (m : gmap string V) i k v :
  range_order sched m !! i = Some (k, v) -> m !! k = Some v.
Proof.
  intros H. apply list_elem_of_lookup_2 in H.
  rewrite (range_order_perm sched V m) in H. by apply elem_of_map_to_list.
Qed.

(** X18. What discovery hands out besides the patterns.  It never fails,
    makes no external call, does not read the clock, and leaves every array
    there was as it is.  Every metric type it returns has a namespace
    allocated by the call, none shared by two of them, and carries the
    caller's configuration node and no data; the one for a metric name
    carries that name's unit and description from the catalog, the one for a
    state name the empty unit and the description
    "Number of processes in <state> state". *)
Theorem X18_discovery_metadata
    (States : gmap string string) (sched : Schedule) (procPlg : procPlugin)
    (cfg : ConfigType) (w : world) :
  exists metricTypes w',
    GetMetricTypes States sched procPlg cfg w = (Done (metricTypes, None), w')
    /\ ticks w' = ticks w /\ log w' = log w
    /\ (exists fresh, heap w' = heap w ++ fresh)
    /\ NoDup (Namespace_ <$> metricTypes)
    /\ Forall (fun mt =>
         heap w !! Namespace_ mt = None
         /\ Config_ mt = ConfigDataNode cfg /\ Data_ mt = Nil
         /\ ((exists name lbl,
                metricNames !! name = Some lbl
                /\ heap w' !! Namespace_ mt = Some (dynamicPattern name)
                /\ Unit_ mt = unit lbl /\ Description_ mt = description lbl)
             \/ (exists state,
                   state ∈ Values States sched
                   /\ heap w' !! Namespace_ mt = Some (statePattern state)
                   /\ Unit_ mt = ""
                   /\ Description_ mt
                      = "Number of processes in " +:+ state +:+ " state")))
         metricTypes.
Proof.
  eexists _, _. split; [apply GetMetricTypes_run|].
  split; [done|]. split; [done|]. split; [by eexists|]. split.
  - rewrite fmap_app. apply NoDup_app. split; [|split].
    + apply NoDup_alt. intros i j ns. rewrite !list_lookup_fmap, !list_lookup_imap.
      destruct (_ !! i); [|done]. destruct (_ !! j); [|done].
      cbn [fmap option_fmap option_map advertisedMetric advertisedState Namespace_].
      intros [= <-] [= H]. lia.
    + intros ns Hi Hj.
      apply list_elem_of_lookup in Hi as [i Hi]. apply list_elem_of_lookup in Hj as [j Hj].
      rewrite list_lookup_fmap, list_lookup_imap in Hi.
      rewrite list_lookup_fmap, list_lookup_imap in Hj.
      destruct (range_order sched metricNames !! i) eqn:Ei; [|done].
      apply lookup_lt_Some in Ei.
      destruct (Values States sched !! j); [|done].
      cbn [fmap option_fmap option_map advertisedMetric advertisedState Namespace_]
        in Hi, Hj.
      injection Hi as <-. injection Hj as Hj. lia.
    + apply NoDup_alt. intros i j ns. rewrite !list_lookup_fmap, !list_lookup_imap.
      destruct (_ !! i); [|done]. destruct (_ !! j); [|done].
      cbn [fmap option_fmap option_map advertisedMetric advertisedState Namespace_].
      intros [= <-] [= H]. lia.
  - apply Forall_app. split; apply Forall_lookup; intros i mt;
      rewrite list_lookup_imap.
    + destruct (range_order sched metricNames !! i) as [[name lbl]|] eqn:Ei; [|done].
      cbn [fmap option_fmap option_map]. intros [= <-]. cbn [advertisedMetric Namespace_ Config_ Data_ Unit_ Description_ snd].
      split; [apply lookup_ge_None; lia|]. split; [done|]. split; [done|].
      left. exists name, lbl. split; [by eapply range_order_lookup|].
      split; [|done]. cbn [grow heap].
      rewrite lookup_app_r by lia.
      replace (length (heap w) + i - length (heap w))%nat with i by lia.
      rewrite lookup_app_l
        by (rewrite !length_fmap; by eapply lookup_lt_Some).
      by rewrite !list_lookup_fmap, Ei.
    + destruct (Values States sched !! i) as [state|] eqn:Ei; [|done].
      cbn [fmap option_fmap option_map]. intros [= <-]. cbn [advertisedState Namespace_ Config_ Data_ Unit_ Description_].
      split; [apply lookup_ge_None; lia|]. split; [done|]. split; [done|].
      right. exists state. split; [by eapply list_elem_of_lookup_2|].
      split; [|done]. cbn [grow heap].
      rewrite lookup_app_r by lia.
      rewrite lookup_app_r by (rewrite !length_fmap; lia).
      rewrite !length_fmap.
      replace (length (heap w) + length (range_order sched metricNames) + i
               - length (heap w) - length (range_order sched metricNames))%nat
        with i by lia.
      by rewrite list_lookup_fmap, Ei.
Qed.

Lemma dynamicPattern_injective : Inj (=) (=) dynamicPattern.
Proof. intros x y H. unfold dynamicPattern, static in H. by simplify_eq. Qed.

Lemma statePattern_injective : Inj (=) (=) statePattern.
Proof. intros x y H. unfold statePattern, static in H. by simplify_eq. Qed.

Lemma Values_Permutation States sched sched' :
  Values States sched ≡ₚ Values States sched'.
Proof.
  unfold Values.
  by rewrite (range_order_perm sched _ States), (range_order_perm sched' _ States).
Qed.

Lemma patterns_of_run States sched procPlg cfg w :
  patterns_of (GetMetricTypes States sched procPlg cfg w).2
    (match (GetMetricTypes States sched procPlg cfg w).1 with
     | Done (metricTypes, _) => metricTypes
     | Panicked _ => []
     end)
  = (dynamicPattern <$> (range_order sched metricNames).*1)
    ++ (statePattern <$> Values States sched).
Proof.
  destruct (GetMetricTypes_eq States sched procPlg cfg w) as (mts & Hrun & Hpat & _).
  cbv zeta in *. by rewrite Hrun.
Qed.

(** X19. The order of the advertised patterns is the order in which the
    two maps happen to be ranged over, and nothing else depends on it: under
    any two schedules discovery advertises the same patterns up to order.  A
    pattern is advertised twice exactly when two state codes share a name. *)
Theorem X19_discovery_up_to_order
    (States : gmap string string) (sched sched' : Schedule) (procPlg : procPlugin)
    (cfg : ConfigType) (w : world) :
  exists metricTypes metricTypes' w1 w1',
    GetMetricTypes States sched procPlg cfg w = (Done (metricTypes, None), w1)
    /\ GetMetricTypes States sched' procPlg cfg w = (Done (metricTypes', None), w1')
    /\ patterns_of w1 metricTypes ≡ₚ patterns_of w1' metricTypes'
    /\ (NoDup (patterns_of w1 metricTypes) <-> NoDup (Values States sched)).
Proof.
  pose proof (patterns_of_run States sched procPlg cfg w) as Hp.
  pose proof (patterns_of_run States sched' procPlg cfg w) as Hp'.
  rewrite GetMetricTypes_run in Hp, Hp'. cbn [fst snd] in Hp, Hp'.
  eexists _, _, _, _. split; [apply GetMetricTypes_run|].
  split; [apply GetMetricTypes_run|]. rewrite Hp, Hp'. split.
  - apply Permutation_app.
    + apply fmap_Permutation.
      by rewrite (range_order_perm sched _ metricNames),
                 (range_order_perm sched' _ metricNames).
    + apply fmap_Permutation, Values_Permutation.
  - rewrite NoDup_app. split.
    + intros (_ & _ & H). by apply (@NoDup_fmap _ _ statePattern statePattern_injective).
    + intros H. split; [|split].
      * apply (@NoDup_fmap_2 _ _ dynamicPattern dynamicPattern_injective),
          range_order_NoDup.
      * intros p H1 H2. apply list_elem_of_fmap in H1 as (name & -> & _).
        apply list_elem_of_fmap in H2 as (state & Heq & _). discriminate Heq.
      * by apply (@NoDup_fmap_2 _ _ statePattern statePattern_injective).
Qed.

(** ** From discovery to collection *)

Lemma collectBody_advertised States sched Now stats mt p w :
  heap w !! Namespace_ mt = Some p -> advertised States p -> Forall has_layout stats ->
  exists ms w',
    collectBody States sched Now stats (aggregate States sched stats) [] mt w
    = (Done (Continue ms), w')
    /\ length ms = yield stats p /\ extends w w'.
Proof.
  intros Hns [(name & [lbl Hlbl] & ->)|(code & state & Hst & ->)] Hl.
  - rewrite collectBody_cases. cbv zeta. rewrite Hns. cbn [default from_option id].
    change (length (dynamicPattern name) <? 4)%nat with false.
    change (IsDynamic (dynamicPattern name)).1 with true.
    change (index (dynamicPattern name) 4)
      with (Done {| Value := "*"; Description := "pid of the running process";
                    Name := "process_id" |}).
    change (index (dynamicPattern name) 5)
      with (Done {| Value := "*"; Description := "name of the running process";
                    Name := "process_name" |}).
    cbv iota beta.
    change (elem_IsDynamic {| Value := "*"; Description := "pid of the running process";
                              Name := "process_id" |}) with true.
    change (elem_IsDynamic {| Value := "*"; Description := "name of the running process";
                              Name := "process_name" |}) with true.
    cbv iota.
    rewrite (rangeStats_expansion sched Now _ (dynamicPattern name) (static name) lbl
               stats Hl eq_refl Hlbl _ _ Hns).
    eexists _, _. split; [done|]. split; [|apply extends_grow].
    cbn [app]. unfold expansion, yield. rewrite length_imap.
    by change (IsDynamic (dynamicPattern name)).1 with true.
  - assert (Hknown : state ∈ Values States sched) by (apply Values_elem; eauto).
    destruct (aggregate_known States sched stats state Hknown) as [val Hval].
    rewrite collectBody_cases. cbv zeta. rewrite Hns. cbn [default from_option id].
    change (length (statePattern state) <? 4)%nat with false.
    change (IsDynamic (statePattern state)).1 with false.
    change (index (statePattern state) 3) with (Done (static state)).
    cbv iota beta. cbn [static Value].
    rewrite (proj2 (Contains_elem _ _) Hknown), Hval.
    eexists _, _. split; [done|]. split; [done|apply extends_tick].
Qed.

Lemma forEach_advertised States sched Now stats w0 mts :
  Forall has_layout stats ->
  Forall (fun mt => exists p, heap w0 !! Namespace_ mt = Some p /\ advertised States p) mts ->
  forall w, extends w0 w ->
  exists ms w',
    forEach (collectBody States sched Now stats (aggregate States sched stats)) [] mts w
    = (Done (Continue ms), w')
    /\ length ms
       = sum_list (yield stats <$> patterns_of w0 mts).
Proof.
  intros Hl. induction 1 as [|mt mts (p & Hns & Hadv) _ IH]; intros w Hext.
  - exists [], w. by rewrite forEach_nil.
  - destruct (collectBody_advertised States sched Now stats mt p w
                (extends_lookup _ _ _ _ Hext Hns) Hadv Hl)
      as (ms1 & w1 & Hbody & Hlen1 & Hext1).
    destruct (IH w1 (extends_trans _ _ _ Hext Hext1)) as (ms2 & w2 & Hrest & Hlen2).
    exists (ms1 ++ ms2), w2. split.
    + by rewrite forEach_cons, Hbody, forEach_acc, Hrest.
    + rewrite length_app, Hlen1, Hlen2. unfold patterns_of. cbn [map fmap list_fmap sum_list].
      by rewrite Hns.
Qed.

Lemma yield_dynamic stats (names : list string) :
  sum_list (yield stats <$> (dynamicPattern <$> names))
  = (length names * length stats)%nat.
Proof. induction names as [|name names IH]; [done|]. cbn. by rewrite <- IH. Qed.

Lemma yield_static stats (states : list string) :
  sum_list (yield stats <$> (statePattern <$> states)) = length states.
Proof. induction states as [|state states IH]; [done|]. cbn. by rewrite <- IH. Qed.

Lemma yield_app stats (ps qs : list (list NamespaceElement)) :
  sum_list (yield stats <$> (ps ++ qs))
  = (sum_list (yield stats <$> ps) + sum_list (yield stats <$> qs))%nat.
Proof.
  induction ps as [|p ps IH]; [done|].
  cbn [app fmap list_fmap sum_list sum_list_with]. change (list_fmap ?f ?l) with (f <$> l).
  rewrite IH. lia.
Qed.

Lemma size_metricNames : size metricNames = 15%nat.
Proof. vm_compute. reflexivity. Qed.

(** X20. Everything discovery advertises can be collected.  The metric
    types returned by [GetMetricTypes], handed back to [CollectMetrics] in the
    world discovery left, on a snapshot of records with the fixed layout:
    when the configuration of the first of them gives the path and the
    snapshot is there, the call returns without error, with one metric per
    process for each of the 15 declared names and one metric for each known
    state. *)
Theorem X20_collecting_what_discovery_advertised
    (States : gmap string string) (sched sched' : Schedule) (Now : nat -> Time)
    (GetConfigItem : MetricType -> string -> iface * option error)
    (procPlg : procPlugin) (cfg : ConfigType) (path : string) (stats : list Proc)
    (metricTypes : list MetricType) (w w1 : world) :
  GetMetricTypes States sched procPlg cfg w = (Done (metricTypes, None), w1) ->
  (forall first, metricTypes !! 0%nat = Some first ->
                 GetConfigItem first "proc_path" = (Str path, None)) ->
  GetStats (mc procPlg) path = (stats, None) ->
  Forall has_layout stats ->
  exists metrics w2,
    CollectMetrics States sched' Now GetConfigItem procPlg metricTypes w1
    = (Done (Some metrics, None), w2)
    /\ length metrics = (15 * length stats + length (Values States sched))%nat.
Proof.
  intros Hrun Hcfg Hstats Hl.
  destruct (GetMetricTypes_eq States sched procPlg cfg w) as (mts & Hrun' & Hpat & Hlocs).
  cbv zeta in *. rewrite Hrun in Hrun'. injection Hrun' as <- ->.
  set (P := dynamicPattern <$> (range_order sched metricNames).*1) in *.
  set (S := statePattern <$> Values States sched) in *.
  assert (Hadv : Forall (fun mt => exists p,
                   heap (grow w (P ++ S) 0) !! Namespace_ mt = Some p
                   /\ advertised States p) metricTypes).
  { apply Forall_lookup. intros i mt Hi.
    assert (Hp : patterns_of (grow w (P ++ S) 0) metricTypes !! i
                 = Some (default [] (heap (grow w (P ++ S) 0) !! Namespace_ mt))).
    { unfold patterns_of. change (map ?f ?l) with (f <$> l).
      by rewrite list_lookup_fmap, Hi. }
    assert (Hloc : Namespace_ mt = (length (heap w) + i)%nat).
    { assert (H : (Namespace_ <$> metricTypes) !! i = Some (Namespace_ mt))
        by by rewrite list_lookup_fmap, Hi.
      rewrite Hlocs in H. apply lookup_seq in H. lia. }
    assert (Hi' : (i < length (P ++ S))%nat).
    { apply lookup_lt_Some in Hi. apply (f_equal length) in Hlocs.
      rewrite length_fmap, length_seq, ?length_fmap in Hlocs.
      unfold P, S. rewrite length_app, !length_fmap. lia. }
    revert Hp.
    match goal with
    | |- context [default [] ?x] => destruct x as [p|] eqn:Hns
    end.
    2:{ apply lookup_ge_None in Hns. cbn [grow heap] in Hns.
        rewrite length_app in Hns. lia. }
    intros Hp. exists p. split; [done|].
    rewrite Hpat in Hp. cbn [default from_option id] in Hp.
    apply list_elem_of_lookup_2, elem_of_app in Hp as [Hp|Hp];
      apply list_elem_of_fmap in Hp as (x & -> & Hx).
    - left. exists x. split; [|done]. by apply (range_order_keys sched).
    - right. apply Values_elem in Hx as [code Hx]. eauto. }
  rewrite (CollectMetrics_schedule States sched' sched).
  rewrite CollectMetrics_cases.
  destruct metricTypes as [|first rest] eqn:Hmts.
  { apply (f_equal length) in Hpat. exfalso. revert Hpat. unfold patterns_of, P.
    rewrite length_app, !length_fmap, length_range_order, size_metricNames.
    cbn [map length]. lia. }
  rewrite <- Hmts in *. cbv zeta. rewrite (Hcfg first) by by rewrite Hmts.
  cbn [assert_string]. rewrite Hstats.
  destruct (forEach_advertised States sched Now stats
              (logged (logged (grow w (P ++ S) 0) [CallGetConfigItem first "proc_path"])
                      [CallGetStats path])
              metricTypes Hl Hadv _ (extends_refl _))
    as (ms & w2 & Hloop & Hlen).
  rewrite Hloop. exists ms, w2. split; [done|].
  rewrite Hlen.
  change (patterns_of (logged (logged (grow w (P ++ S) 0) [CallGetConfigItem first "proc_path"])
                      [CallGetStats path]) metricTypes)
    with (patterns_of (grow w (P ++ S) 0) metricTypes).
  rewrite Hpat, yield_app. unfold P, S.
  rewrite yield_dynamic, yield_static, length_fmap, length_range_order.
  rewrite size_metricNames. lia.
Qed.

(** Two known states and the two-process snapshot: 15 * 2 + 2 metrics. *)
Lemma X20_example :
  match GetMetricTypes Examples.States2 Examples.canonical
          (Examples.plg Examples.snapshot2) {| ConfigDataNode := Examples.procConfig |}
          (Examples.world0 [])
  with
  | (Done (metricTypes, None), w1) =>
      exists metrics w2,
        CollectMetrics Examples.States2 Examples.reversed Examples.clock
          Examples.lookupConfig (Examples.plg Examples.snapshot2) metricTypes w1
        = (Done (Some metrics, None), w2)
        /\ length metrics = (15 * 2 + length (Values Examples.States2 Examples.canonical))%nat
  | _ => False
  end.
Proof.
  pose proof (GetMetricTypes_run Examples.States2 Examples.canonical
                (Examples.plg Examples.snapshot2)
                {| ConfigDataNode := Examples.procConfig |} (Examples.world0 [])) as Hrun.
  rewrite Hrun.
  apply (X20_collecting_what_discovery_advertised
           Examples.States2 Examples.canonical Examples.reversed Examples.clock
           Examples.lookupConfig (Examples.plg Examples.snapshot2)
           {| ConfigDataNode := Examples.procConfig |} "/proc" Examples.snapshot2
           _ (Examples.world0 []) _ Hrun).
  - intros first H0.
    destruct (range_order Examples.canonical metricNames) as [|kv l] eqn:Ho.
    + apply (f_equal length) in Ho.
      rewrite length_range_order, size_metricNames in Ho. discriminate Ho.
    + rewrite imap_cons in H0. cbn [app lookup list_lookup] in H0.
      injection H0 as <-. reflexivity.
  - reflexivity.
  - exact snapshot2_layout.
Defined.

(** ** What a state metric reports, and what a call leaves alone *)

Lemma filed_under_le States name stats : (filed_under States name stats <= length stats)%nat.
Proof. unfold filed_under. apply length_filter. Qed.

Lemma filed_under_named States name stats :
  name <> "" ->
  filed_under States name stats
  = length (filter (fun proc => States !! State proc = Some name) stats).
Proof.
  intros Hne. unfold filed_under. f_equal. apply list_filter_iff. intros proc.
  unfold stateNameOf. destruct (States !! State proc) as [s|]; cbn [default from_option id].
  - split; [by intros ->|by intros [= ->]].
  - split; [by intros <-|done].
Qed.

(** X21. The value a static pattern reports is a head count: for a known
    state name at element 3 the loop body appends one metric whose value is
    the number of records of the snapshot filed under that name (a snapshot
    of fewer than 2^63 records, so that the 64-bit counter has not wrapped);
    for a name other than the empty one these are the records whose state
    code the table maps to it, so that a record with a state code the table
    does not know is in none of these counts. *)
Theorem X21_state_metric_is_a_head_count
    (States : gmap string string) (sched : Schedule) (Now : nat -> Time)
    (stats : list Proc) (metrics : list MetricType)
    (mt : MetricType) (a : list NamespaceElement) (e3 : NamespaceElement) (w : world) :
  heap w !! Namespace_ mt = Some a ->
  a !! 3%nat = Some e3 ->
  (IsDynamic a).1 = false ->
  Value e3 ∈ Values States sched ->
  Z.of_nat (length stats) < 2 ^ 63 ->
  collectBody States sched Now stats (aggregate States sched stats) metrics mt w
  = (Done (Continue
       (metrics ++
          [stateMetric (Namespace_ mt) (Z.of_nat (filed_under States (Value e3) stats))
             (Now (ticks w)) (Value e3)])),
     tick w)
  /\ (Value e3 <> "" ->
      filed_under States (Value e3) stats
      = length (filter (fun proc => States !! State proc = Some (Value e3)) stats)).
Proof.
  intros Hns H3 Hst Hknown Hsize. split; [|apply filed_under_named].
  assert (Hcount : aggregate States sched stats !! Value e3
                   = Some (Z.of_nat (filed_under States (Value e3) stats))).
  { unfold aggregate. rewrite countStates_lookup, initStateCount_lookup.
    rewrite decide_True by done. cbn [default from_option id].
    destruct (filed_under States (Value e3) stats) as [|n] eqn:Hn; [done|].
    pose proof (filed_under_le States (Value e3) stats) as Hle.
    rewrite Hn in Hle. f_equal. rewrite Z.add_0_l. apply wrap_int_small. lia. }
  rewrite collectBody_cases. cbv zeta. rewrite Hns. cbn [default from_option id].
  assert (Hlen : (length a <? 4)%nat = false).
  { apply Nat.ltb_ge. apply lookup_lt_Some in H3. lia. }
  by rewrite Hlen, Hst, (index_Some _ _ _ H3), (proj2 (Contains_elem _ _) Hknown), Hcount.
Qed.

(** Three running processes among eight. *)
Lemma X21_example :
  collectBody Examples.States2 Examples.canonical Examples.clock Examples.snapshot8
    (aggregate Examples.States2 Examples.canonical Examples.snapshot8) []
    (Examples.request 0%nat) (Examples.world0 [Examples.staticNs "running"])
  = (Done (Continue [stateMetric 0%nat 3 1000 "running"]),
     tick (Examples.world0 [Examples.staticNs "running"])).
Proof.
  assert (Hknown : "running" ∈ Values Examples.States2 Examples.canonical).
  { apply Values_elem. by exists "R". }
  assert (Hsize : Z.of_nat (length Examples.snapshot8) < 2 ^ 63) by (simpl; lia).
  exact (proj1 (X21_state_metric_is_a_head_count
                  Examples.States2 Examples.canonical Examples.clock Examples.snapshot8 []
                  (Examples.request 0%nat) (Examples.staticNs "running")
                  {| Value := "running"; Description := ""; Name := "" |}
                  (Examples.world0 [Examples.staticNs "running"])
                  eq_refl eq_refl eq_refl Hknown Hsize)).
Defined.

(** X22. A call writes to no array that was there before it: whatever it
    returns, and also when it panics, every array of the heap, the requested
    namespaces among them, is afterwards what it was, and the arrays it
    allocated come after them. *)
Theorem X22_call_leaves_existing_arrays_alone
    (States : gmap string string) (sched : Schedule) (Now : nat -> Time)
    (GetConfigItem : MetricType -> string -> iface * option error)
    (procPlg : procPlugin) (metricTypes : list MetricType) (w : world)
    (l : loc) (a : list NamespaceElement) :
  heap w !! l = Some a ->
  heap (CollectMetrics States sched Now GetConfigItem procPlg metricTypes w).2 !! l
  = Some a
  /\ (length (heap w)
      <= length (heap (CollectMetrics States sched Now GetConfigItem procPlg
                         metricTypes w).2))%nat.
Proof.
  intros Hl.
  destruct (CollectMetrics_heap States sched Now GetConfigItem procPlg metricTypes w)
    as [fresh Hfresh].
  rewrite Hfresh. split; [by apply lookup_app_l_Some|].
  rewrite length_app. lia.
Qed.

(** The requested dynamic pattern after its expansion over two processes. *)
Lemma X22_example :
  heap (CollectMetrics Examples.States2 Examples.canonical Examples.clock
          Examples.lookupConfig (Examples.plg Examples.snapshot2)
          [Examples.request 0%nat]
          (Examples.world0 [Examples.dynamicNs "ps_vm"])).2 !! 0%nat
  = Some (Examples.dynamicNs "ps_vm").
Proof.
  exact (proj1 (X22_call_leaves_existing_arrays_alone
                  Examples.States2 Examples.canonical Examples.clock
                  Examples.lookupConfig (Examples.plg Examples.snapshot2)
                  [Examples.request 0%nat]
                  (Examples.world0 [Examples.dynamicNs "ps_vm"])
                  0%nat (Examples.dynamicNs "ps_vm") eq_refl)).
Defined.

(** ** What the plugin value is used for (lines 191, 314-317) *)

(** X23. Of the plugin value a call uses the collector, and that only at
    the path the configuration gave: two plugins whose collectors answer the
    same at that path return and do the same, whatever their host names and
    whatever their collectors answer elsewhere.  Discovery does not use the
    plugin value at all. *)
Theorem X23_collector_is_asked_at_the_configured_path_only
    (States : gmap string string) (sched : Schedule) (Now : nat -> Time)
    (GetConfigItem : MetricType -> string -> iface * option error)
    (procPlg procPlg' : procPlugin) (first : MetricType) (rest : list MetricType)
    (w : world) :
  (forall path, GetConfigItem first "proc_path" = (Str path, None) ->
                GetStats (mc procPlg) path = GetStats (mc procPlg') path) ->
  CollectMetrics States sched Now GetConfigItem procPlg (first :: rest) w
  = CollectMetrics States sched Now GetConfigItem procPlg' (first :: rest) w
  /\ (forall cfg,
        GetMetricTypes States sched procPlg cfg w
        = GetMetricTypes States sched procPlg' cfg w).
Proof.
  intros Hsame. split; [|done].
  rewrite !CollectMetrics_cases. cbv zeta.
  destruct (GetConfigItem first "proc_path") as [procPath [err|]]; [done|].
  destruct procPath as [| | |path]; cbn [assert_string]; [done..|].
  by rewrite (Hsame path eq_refl).
Qed.

(** The same process table under [/proc], served from another host by a
    collector that differs off that path. *)
Lemma X23_example :
  CollectMetrics Examples.States2 Examples.canonical Examples.clock
    Examples.lookupConfig (Examples.plg Examples.snapshot2)
    [Examples.request 0%nat] (Examples.world0 [Examples.dynamicNs "ps_vm"])
  = CollectMetrics Examples.States2 Examples.canonical Examples.clock
      Examples.lookupConfig (elsewhere Examples.snapshot2)
      [Examples.request 0%nat] (Examples.world0 [Examples.dynamicNs "ps_vm"]).
Proof.
  apply (X23_collector_is_asked_at_the_configured_path_only
           Examples.States2 Examples.canonical Examples.clock Examples.lookupConfig
           (Examples.plg Examples.snapshot2) (elsewhere Examples.snapshot2)).
  intros path Hpath.
  assert (Hcfg : Examples.lookupConfig (Examples.request 0%nat) "proc_path"
                 = (Str "/proc", None)) by reflexivity.
  rewrite Hcfg in Hpath. injection Hpath as <-. reflexivity.
Defined.

(** ** All or nothing (lines 191-207, 257) *)

Lemma collectBody_in_bounds States sched Now stats sc metrics mt w0 w :
  in_bounds w0 stats mt -> extends w0 w ->
  exists metrics' w',
    collectBody States sched Now stats sc metrics mt w = (Done (Continue metrics'), w').
Proof.
  intros (a & Hns & Hlen & Hcase) Hext.
  assert (Hns' : heap w !! Namespace_ mt = Some a)
    by exact (extends_lookup _ _ _ _ Hext Hns).
  rewrite collectBody_cases. cbv zeta. rewrite Hns'. cbn [default from_option id].
  rewrite (proj2 (Nat.ltb_ge _ _) Hlen).
  destruct (lookup_lt_is_Some_2 a 3 ltac:(lia)) as [e3 H3].
  destruct Hcase as [Hst|[H7 Hl]].
  - rewrite Hst, (index_Some _ _ _ H3).
    destruct (Contains _ _); [|eauto]. destruct (sc !! Value e3); eauto.
  - destruct (IsDynamic a).1.
    + destruct (lookup_lt_is_Some_2 a 4 ltac:(lia)) as [e4 H4].
      destruct (lookup_lt_is_Some_2 a 5 ltac:(lia)) as [e5 H5].
      destruct (lookup_lt_is_Some_2 a 6 ltac:(lia)) as [leaf H6].
      rewrite (index_Some _ _ _ H4), (index_Some _ _ _ H5).
      destruct (elem_IsDynamic e4); [|eauto]. destruct (elem_IsDynamic e5); [|eauto].
      destruct (rangeStats_layout sched Now (Namespace_ mt) a leaf stats Hl H6
                  metrics w Hns') as (metrics' & w' & Hrun & _).
      rewrite Hrun. eauto.
    + rewrite (index_Some _ _ _ H3).
      destruct (Contains _ _); [|eauto]. destruct (sc !! Value e3); eauto.
Qed.

Lemma forEach_in_bounds States sched Now stats sc w0 mts :
  Forall (in_bounds w0 stats) mts ->
  forall metrics w, extends w0 w ->
  exists metrics' w',
    forEach (collectBody States sched Now stats sc) metrics mts w
    = (Done (Continue metrics'), w')
    /\ extends w0 w'.
Proof.
  induction 1 as [|mt mts Hmt _ IH]; intros metrics w Hext.
  - exists metrics, w. by rewrite forEach_nil.
  - destruct (collectBody_in_bounds States sched Now stats sc metrics mt w0 w Hmt Hext)
      as (metrics1 & w1 & Hbody).
    pose proof (collectBody_extends States sched Now stats sc metrics mt w) as Hext1.
    rewrite Hbody in Hext1. cbn [snd] in Hext1.
    destruct (IH metrics1 w1 (extends_trans _ _ _ Hext Hext1)) as (metrics' & w' & Hrest & He).
    exists metrics', w'. by rewrite forEach_cons, Hbody.
Qed.

(** The loop that has gone through all the requests has the results of
    each of them, one after the other. *)
Lemma forEach_parts States sched Now stats sc pre mt post w metrics w' :
  forEach (collectBody States sched Now stats sc) [] (pre ++ mt :: post) w
  = (Done (Continue metrics), w') ->
  exists ms_pre ms ms_post w1 w2,
    forEach (collectBody States sched Now stats sc) [] pre w = (Done (Continue ms_pre), w1)
    /\ collectBody States sched Now stats sc [] mt w1 = (Done (Continue ms), w2)
    /\ forEach (collectBody States sched Now stats sc) [] post w2
       = (Done (Continue ms_post), w')
    /\ metrics = ms_pre ++ ms ++ ms_post.
Proof.
  rewrite forEach_app.
  destruct (forEach _ [] pre w) as [[[ms_pre|r]|p] w1] eqn:Hpre; [|done..].
  rewrite forEach_cons, collectBody_acc.
  destruct (collectBody _ _ _ _ _ [] mt w1) as [[[ms|r]|p] w2] eqn:Hmt; [|done..].
  unfold onward at 1. cbn [fst snd]. rewrite forEach_acc.
  destruct (forEach _ [] post w2) as [[[ms_post|r]|p] w3] eqn:Hpost; [|done..].
  unfold onward. cbn [fst snd]. intros [= <- <-].
  exists ms_pre, ms, ms_post, w1, w2.
  split; [done|]. split; [done|]. split; [done|]. by rewrite app_assoc.
Qed.

(** C5 (as amended).  A call returns all or nothing, when it returns.  Whatever it
    returns is either metrics with no error or an error with no metrics.
    When the snapshot fetch fails it returns that error, wrapped, and no
    metrics, whatever the requested patterns.  When the snapshot is there:
    - if some requested pattern has fewer than 4 elements the call never
      returns metrics: what it returns, if it returns, is the length error
      alone;
    - it does return the length error of a short pattern, and nothing of what
      the patterns before it produced, when all the elements read of those
      patterns are there (each has at least 4 elements, and at least 7 when
      it is dynamic, the records having the fixed layout);
    - it does return metrics and no error when that holds of all the
      requested patterns;
    - the metrics it returns are complete: no pattern is short, and every
      requested pattern has all the metrics it resolves to in the result, in
      the order of the requests. *)
Theorem C5_all_or_nothing
    (States : gmap string string) (sched : Schedule) (Now : nat -> Time)
    (GetConfigItem : MetricType -> string -> iface * option error)
    (procPlg : procPlugin) (metricTypes : list MetricType) (w : world) :
  (forall r w',
      CollectMetrics States sched Now GetConfigItem procPlg metricTypes w = (Done r, w') ->
      (exists metrics, r = (Some metrics, None)) \/ (exists err, r = (None, Some err)))
  /\ (forall first path stats err,
        metricTypes !! 0%nat = Some first ->
        GetConfigItem first "proc_path" = (Str path, None) ->
        GetStats (mc procPlg) path = (stats, Some err) ->
        CollectMetrics States sched Now GetConfigItem procPlg metricTypes w
        = (Done (None, Some (SnapError err)),
           logged w [CallGetConfigItem first "proc_path"; CallGetStats path]))
  /\ (forall first path stats,
        metricTypes !! 0%nat = Some first ->
        GetConfigItem first "proc_path" = (Str path, None) ->
        GetStats (mc procPlg) path = (stats, None) ->
        let body := collectBody States sched Now stats (aggregate States sched stats) in
        let w0 := logged w [CallGetConfigItem first "proc_path"; CallGetStats path] in
        (Exists (is_short w) metricTypes ->
         forall r w',
           CollectMetrics States sched Now GetConfigItem procPlg metricTypes w = (Done r, w') ->
           exists n, (n < 4)%nat /\ r = (None, Some (lengthError n)))
        /\ (forall pre short post a,
              metricTypes = pre ++ short :: post ->
              heap w !! Namespace_ short = Some a -> (length a < 4)%nat ->
              Forall (in_bounds w stats) pre ->
              exists metrics w1,
                forEach body [] pre w0 = (Done (Continue metrics), w1)
                /\ CollectMetrics States sched Now GetConfigItem procPlg metricTypes w
                   = (Done (None, Some (lengthError (length a))), w1))
        /\ (Forall (in_bounds w stats) metricTypes ->
            exists metrics w',
              CollectMetrics States sched Now GetConfigItem procPlg metricTypes w
              = (Done (Some metrics, None), w'))
        /\ (forall metrics w',
              CollectMetrics States sched Now GetConfigItem procPlg metricTypes w
              = (Done (Some metrics, None), w') ->
              ~ Exists (is_short w) metricTypes
              /\ forall pre mt post,
                   metricTypes = pre ++ mt :: post ->
                   exists ms_pre ms ms_post w1 w2,
                     forEach body [] pre w0 = (Done (Continue ms_pre), w1)
                     /\ body [] mt w1 = (Done (Continue ms), w2)
                     /\ forEach body [] post w2 = (Done (Continue ms_post), w')
                     /\ metrics = ms_pre ++ ms ++ ms_post)).
Proof.
  split; [|split].
  - intros r w'. rewrite CollectMetrics_cases.
    destruct metricTypes as [|first rest]; [done|]. cbv zeta.
    destruct (GetConfigItem first "proc_path") as [procPath [err|]].
    { intros [= <- <-]. eauto. }
    destruct (assert_string procPath) as [path|p]; [|done].
    destruct (GetStats (mc procPlg) path) as [stats [err|]].
    { intros [= <- <-]. eauto. }
    destruct (forEach _ _ _ _) as [[[metrics|r0]|p] w0] eqn:Hloop; [| |done].
    + intros [= <- <-]. eauto.
    + intros [= <- <-]. apply forEach_Return in Hloop as (n & _ & ->). eauto.
  - intros first path stats err H0 Hcfg Hstats. rewrite CollectMetrics_cases.
    destruct metricTypes as [|first' rest]; [done|].
    cbn in H0. injection H0 as ->. cbv zeta.
    rewrite Hcfg. cbn [assert_string]. rewrite Hstats. by rewrite logged_logged.
  - intros first path stats H0 Hcfg Hstats. cbv zeta.
    assert (Hrun : CollectMetrics States sched Now GetConfigItem procPlg metricTypes w =
              match forEach (collectBody States sched Now stats (aggregate States sched stats))
                            [] metricTypes
                            (logged w [CallGetConfigItem first "proc_path"; CallGetStats path]) with
              | (Done (Continue metrics), w') => (Done (Some metrics, None), w')
              | (Done (Return r), w') => (Done r, w')
              | (Panicked p, w') => (Panicked p, w')
              end).
    { rewrite CollectMetrics_cases.
      destruct metricTypes as [|first' rest]; [done|].
      cbn in H0. injection H0 as ->. cbv zeta.
      rewrite Hcfg. cbn [assert_string]. rewrite Hstats. by rewrite logged_logged. }
    assert (Hshort : Exists (is_short w) metricTypes ->
              forall r w',
                CollectMetrics States sched Now GetConfigItem procPlg metricTypes w
                = (Done r, w') ->
                exists n, (n < 4)%nat /\ r = (None, Some (lengthError n))).
    { intros Hex r w'. rewrite Hrun.
      destruct (forEach _ _ _ _) as [[x|p] w1] eqn:Hloop; [|done].
      apply (forEach_short_returns States sched Now stats _
               (logged w [CallGetConfigItem first "proc_path"; CallGetStats path])
               metricTypes Hex _ _ _ _ (extends_refl _)) in Hloop as (n & Hn & ->).
      intros [= <- <-]. eauto. }
    split; [exact Hshort|]. split; [|split].
    + intros pre short post a Hsplit Hns Hlen Hpre.
      destruct (forEach_in_bounds States sched Now stats (aggregate States sched stats)
                  (logged w [CallGetConfigItem first "proc_path"; CallGetStats path])
                  pre Hpre [] _ (extends_refl _)) as (metrics & w1 & Hloop & Hext).
      exists metrics, w1. split; [exact Hloop|].
      rewrite Hrun, Hsplit, forEach_app, Hloop, forEach_cons.
      rewrite (collectBody_short _ _ _ _ _ _ _ _ a); [done| |done].
      by apply (extends_lookup _ _ _ _ Hext).
    + intros Hall.
      destruct (forEach_in_bounds States sched Now stats (aggregate States sched stats)
                  (logged w [CallGetConfigItem first "proc_path"; CallGetStats path])
                  metricTypes Hall [] _ (extends_refl _)) as (metrics & w' & Hloop & _).
      exists metrics, w'. by rewrite Hrun, Hloop.
    + intros metrics w' Hret. split.
      * intros Hex. destruct (Hshort Hex _ _ Hret) as (n & _ & [=]).
      * intros pre mt post Hsplit. rewrite Hrun, Hsplit in Hret.
        apply forEach_parts.
        destruct (forEach _ [] (pre ++ mt :: post) _) as [[[ms|r]|p] w1] eqn:Hloop;
          [|exfalso|done].
        -- by injection Hret as <- <-.
        -- apply forEach_Return in Hloop as (n & _ & ->). done.
Qed.

(** A good pattern, a short one and another good one: the call returns the
    length error and none of the first pattern's metrics; and with an
    unreadable process table it returns the wrapped error. *)
Lemma C5_example :
  fst (CollectMetrics Examples.States2 Examples.canonical Examples.clock
         Examples.lookupConfig (Examples.plg Examples.snapshot2)
         [Examples.request 0%nat; Examples.request 1%nat; Examples.request 2%nat]
         (Examples.world0 [Examples.staticNs "running"; Examples.shortNs;
                           Examples.dynamicNs "ps_vm"]))
  = Done (None, Some (lengthError 3))
  /\ fst (CollectMetrics Examples.States2 Examples.canonical Examples.clock
            Examples.lookupConfig Examples.unreadable
            [Examples.request 0%nat]
            (Examples.world0 [Examples.staticNs "running"]))
     = Done (None, Some (SnapError (errorString "permission denied"))).
Proof.
  split.
  - destruct (C5_all_or_nothing Examples.States2 Examples.canonical Examples.clock
                Examples.lookupConfig (Examples.plg Examples.snapshot2)
                [Examples.request 0%nat; Examples.request 1%nat; Examples.request 2%nat]
                (Examples.world0 [Examples.staticNs "running"; Examples.shortNs;
                                  Examples.dynamicNs "ps_vm"]))
      as (_ & _ & H).
    destruct (H (Examples.request 0%nat) "/proc" Examples.snapshot2
                eq_refl eq_refl eq_refl) as (_ & H' & _).
    assert (Hpre : Forall (in_bounds
                             (Examples.world0 [Examples.staticNs "running"; Examples.shortNs;
                                               Examples.dynamicNs "ps_vm"])
                             Examples.snapshot2) [Examples.request 0%nat]).
    { repeat constructor. exists (Examples.staticNs "running").
      split; [reflexivity|]. split; [simpl; lia|]. by left. }
    destruct (H' [Examples.request 0%nat] (Examples.request 1%nat)
                 [Examples.request 2%nat] Examples.shortNs
                 eq_refl eq_refl ltac:(simpl; lia) Hpre) as (metrics & w1 & _ & Hrun).
    by rewrite Hrun.
  - destruct (C5_all_or_nothing Examples.States2 Examples.canonical Examples.clock
                Examples.lookupConfig Examples.unreadable
                [Examples.request 0%nat]
                (Examples.world0 [Examples.staticNs "running"]))
      as (_ & H & _).
    by rewrite (H (Examples.request 0%nat) "/proc" [] (errorString "permission denied")
                  eq_refl eq_refl eq_refl).
Defined.

(** Two requests with a short pattern that do not get the length error.
    With an unreadable process table the snapshot fetch fails first and the
    call returns the wrapped fetch error.  And after the five-element
    pattern [/intel/procfs/processes/pid/*] the call panics at [ns[5]] before
    it reaches the short pattern. *)
Lemma C5_short_pattern_counterexample :
  (length Examples.shortNs < 4)%nat
  /\ fst (CollectMetrics Examples.States2 Examples.canonical Examples.clock
            Examples.lookupConfig Examples.unreadable
            [Examples.request 0%nat; Examples.request 1%nat]
            (Examples.world0 [Examples.staticNs "running"; Examples.shortNs]))
     = Done (None, Some (SnapError (errorString "permission denied")))
  /\ SnapError (errorString "permission denied") <> lengthError 3
  /\ fst (CollectMetrics Examples.States2 Examples.canonical Examples.clock
            Examples.lookupConfig (Examples.plg Examples.snapshot2)
            [Examples.request 0%nat; Examples.request 1%nat]
            (Examples.world0 [take 5 (Examples.dynamicNs "ps_vm"); Examples.shortNs]))
     = Panicked (IndexOutOfRange 5 5).
Proof.
  split; [simpl; lia|]. split; [by vm_compute|]. split; [|by vm_compute].
  intros H. vm_compute in H. discriminate H.
Qed.
